(** * GDSC regulator: enable / disable / mode-switch sequencing

    A shallow embedding of the regulator operations of
    [drivers/clk/qcom/gdsc-regulator.c] ([poll_gdsc_status],
    [gdsc_is_enabled], [gdsc_enable], [gdsc_disable], [gdsc_get_mode],
    [gdsc_set_mode]) together with the properties the specification
    states about them, and of the probe ([gdsc_probe],
    [gdsc_parse_dt_data], [gdsc_get_resources], [gdsc_init_is_enabled],
    [gdsc_init_hw_ctrl_mode]) together with further properties of both.

    The driver talks to the outside world only through register maps,
    [udelay], the clock and reset frameworks, the parent regulator and
    the kernel log.  Every such call is recorded, in program order, in
    a trace of events; what a register read returns is decided by the
    hardware, which is a parameter of the whole development. *)

From Stdlib Require Import String ZArith List Bool Lia.
Import ListNotations.
Local Open Scope Z_scope.

(** ** Constants *)

Definition BIT (n : Z) : Z := Z.shiftl 1 n.

(* GDSCR *)
Definition PWR_ON_MASK : Z := BIT 31.
Definition CLK_DIS_WAIT_MASK : Z := Z.shiftl 15 12.
Definition RETAIN_FF_ENABLE_MASK : Z := BIT 11.
Definition SW_OVERRIDE_MASK : Z := BIT 2.
Definition HW_CONTROL_MASK : Z := BIT 1.
Definition SW_COLLAPSE_MASK : Z := BIT 0.

(* Domain Address *)
Definition GMEM_CLAMP_IO_MASK : Z := BIT 0.
Definition GMEM_RESET_MASK : Z := BIT 4.

(* SW Reset *)
Definition BCR_BLK_ARES_BIT : Z := BIT 0.

(* Timeout Delay *)
Definition TIMEOUT_US : Z := 100.

(** Error numbers and regulator modes come from kernel headers that are
    not part of the sources at hand ([errno-base.h], [errno.h],
    [regulator/consumer.h]); the values are the kernel's. *)
Definition EIO : Z := 5.
Definition EBUSY : Z := 16.
Definition EINVAL : Z := 22.
Definition ETIMEDOUT : Z := 110.

Definition REGULATOR_MODE_FAST : Z := 1.
Definition REGULATOR_MODE_NORMAL : Z := 2.

(** ** Machine integers *)

(** [uint32_t]: a value read from a register, a mask passed to regmap. *)
Definition u32 (x : Z) : Z := x mod 2 ^ 32.

(** Conversion of a [u32] to [int], as in [int count = sc->gds_timeout]. *)
Definition s32 (x : Z) : Z :=
  let y := u32 x in if y <? 2 ^ 31 then y else y - 2 ^ 32.

(** The C truth value of an integer expression. *)
Definition nonzero (x : Z) : bool := negb (x =? 0).

(** ** Data model *)

(** The register maps a [struct gdsc] may hold.  An event names the map by
    the field of [struct gdsc] through which the access was made. *)
Inductive regmap : Type :=
| Gdscr            (* sc->regmap *)
| Domain_addr      (* sc->domain_addr *)
| Hw_ctrl          (* sc->hw_ctrl *)
| Sw_reset         (* sc->sw_reset *)
| Acd_reset        (* sc->acd_reset *)
| Acd_misc_reset   (* sc->acd_misc_reset *)
| Collapse_vote.   (* sc->collapse_vote.regmap *)

Definition regmap_eqb (a b : regmap) : bool :=
  match a, b with
  | Gdscr, Gdscr | Domain_addr, Domain_addr | Hw_ctrl, Hw_ctrl
  | Sw_reset, Sw_reset | Acd_reset, Acd_reset
  | Acd_misc_reset, Acd_misc_reset | Collapse_vote, Collapse_vote => true
  | _, _ => false
  end.

Inductive loglevel : Type := Warn | Err.

Inductive event : Type :=
| EvRead (r : regmap) (v : Z)                (* regmap_read, with the value read *)
| EvWrite (r : regmap) (v : Z)               (* regmap_write *)
| EvUpdateBits (r : regmap) (mask val : Z)   (* regmap_update_bits *)
| EvDelay (us : Z)                           (* udelay *)
| EvClkEnable (idx : Z)                      (* clk_prepare_enable(sc->clocks[idx]) *)
| EvClkDisable (idx : Z)                     (* clk_disable_unprepare(sc->clocks[idx]) *)
| EvResetDeassert (i : Z)                    (* reset_control_deassert(sc->reset_clocks[i]) *)
| EvResetAssert (i : Z)                      (* reset_control_assert(sc->reset_clocks[i]) *)
| EvLock                                     (* regulator_lock(rdev->supply->rdev) *)
| EvUnlock                                   (* regulator_unlock(rdev->supply->rdev) *)
| EvLog (lvl : loglevel).                    (* dev_warn / WARN, dev_err *)

Inductive gdscr_status : Type := ENABLED | DISABLED.

Record struct_collapse_vote : Type := {
  cv_regmap : bool;      (* collapse_vote.regmap != NULL *)
  vote_bit : Z
}.

(** The fields of [struct gdsc] that are fixed once [gdsc_parse_dt_data]
    and [gdsc_get_resources] have run.  A register map pointer is kept as
    the boolean "is not NULL". *)
Record gdsc : Type := {
  domain_addr : bool;
  hw_ctrl : bool;
  sw_reset : bool;
  acd_reset : bool;
  acd_misc_reset : bool;
  collapse_vote : struct_collapse_vote;
  toggle_logic : bool;
  retain_ff_enable : bool;
  root_en : bool;
  force_root_en : bool;
  no_status_check_on_disable : bool;
  reset_aon : bool;
  reset_count : Z;
  root_clk_idx : Z;
  gds_timeout : Z;
  skip_disable_before_enable : bool
}.

(** The fields of [struct gdsc] that the regulator operations write. *)
Record gdsc_state : Type := {
  resets_asserted : bool;
  is_gdsc_enabled : bool;
  is_gdsc_hw_ctrl_mode : bool;
  is_root_clk_voted : bool
}.

(** [rdev->supply]: what [regulator_is_enabled] answers for the parent
    (negative: error, zero: disabled, positive: enabled) and how many
    times the parent's lock is currently held. *)
Record regulator : Type := {
  parent_enabled : Z;
  lock_depth : nat
}.

Record world : Type := {
  st : gdsc_state;
  supply : option regulator;     (* rdev->supply, None when NULL *)
  trace : list event;            (* oldest event first *)
  polls : nat                    (* bookkeeping only: how many times the body of
                                    the loop of poll_gdsc_status has been entered *)
}.

(** ** Sequencing with early exit *)

(** A statement either falls through with a value or leaves the enclosing
    block ([return], [goto done]) carrying the function's [ret]. *)
Inductive outcome (A : Type) : Type :=
| Next (a : A)
| Exit (r : Z).
Arguments Next {A} a.
Arguments Exit {A} r.

Definition M (A : Type) : Type := world -> outcome A * world.

Definition mret {A} (a : A) : M A := fun w => (Next a, w).

Definition mbind {A B} (m : M A) (f : A -> M B) : M B :=
  fun w =>
    match m w with
    | (Next a, w') => f a w'
    | (Exit r, w') => (Exit r, w')
    end.

Definition leave {A} (r : Z) : M A := fun w => (Exit r, w).

Definition block (m : M Z) : M Z :=
  fun w =>
    match m w with
    | (Next r, w') => (Next r, w')
    | (Exit r, w') => (Next r, w')
    end.

Declare Scope gdsc_scope.
Delimit Scope gdsc_scope with gdsc.
Notation "x <- m ;; k" := (mbind m (fun x => k))
  (at level 61, m at next level, right associativity) : gdsc_scope.
Notation "m ;; k" := (mbind m (fun _ => k))
  (at level 61, right associativity) : gdsc_scope.
Local Open Scope gdsc_scope.

(** The integer a called function hands back, with the world it leaves. *)
Definition call (m : M Z) (w : world) : Z * world :=
  match m w with
  | (Next r, w') => (r, w')
  | (Exit r, w') => (r, w')
  end.

(** ** Primitive steps *)

Definition emit (e : event) : M unit :=
  fun w => (Next tt, {| st := st w; supply := supply w;
                        trace := trace w ++ [e]; polls := polls w |}).

Definition get_state : M gdsc_state := fun w => (Next (st w), w).

Definition set_state (f : gdsc_state -> gdsc_state) : M unit :=
  fun w => (Next tt, {| st := f (st w); supply := supply w;
                        trace := trace w; polls := polls w |}).

Definition get_supply : M (option regulator) := fun w => (Next (supply w), w).

Definition set_supply (f : regulator -> regulator) : M unit :=
  fun w => (Next tt, {| st := st w; supply := option_map f (supply w);
                        trace := trace w; polls := polls w |}).

Definition count_poll : M unit :=
  fun w => (Next tt, {| st := st w; supply := supply w;
                        trace := trace w; polls := S (polls w) |}).

Definition set_resets_asserted (b : bool) : M unit :=
  set_state (fun s => {| resets_asserted := b;
                         is_gdsc_enabled := is_gdsc_enabled s;
                         is_gdsc_hw_ctrl_mode := is_gdsc_hw_ctrl_mode s;
                         is_root_clk_voted := is_root_clk_voted s |}).

Definition set_is_gdsc_enabled (b : bool) : M unit :=
  set_state (fun s => {| resets_asserted := resets_asserted s;
                         is_gdsc_enabled := b;
                         is_gdsc_hw_ctrl_mode := is_gdsc_hw_ctrl_mode s;
                         is_root_clk_voted := is_root_clk_voted s |}).

Definition set_is_gdsc_hw_ctrl_mode (b : bool) : M unit :=
  set_state (fun s => {| resets_asserted := resets_asserted s;
                         is_gdsc_enabled := is_gdsc_enabled s;
                         is_gdsc_hw_ctrl_mode := b;
                         is_root_clk_voted := is_root_clk_voted s |}).

Definition set_is_root_clk_voted (b : bool) : M unit :=
  set_state (fun s => {| resets_asserted := resets_asserted s;
                         is_gdsc_enabled := is_gdsc_enabled s;
                         is_gdsc_hw_ctrl_mode := is_gdsc_hw_ctrl_mode s;
                         is_root_clk_voted := b |}).

Definition udelay (us : Z) : M unit := emit (EvDelay us).
Definition clk_prepare_enable (idx : Z) : M unit := emit (EvClkEnable idx).
Definition clk_disable_unprepare (idx : Z) : M unit := emit (EvClkDisable idx).
Definition reset_control_deassert (i : Z) : M unit := emit (EvResetDeassert i).
Definition reset_control_assert (i : Z) : M unit := emit (EvResetAssert i).
Definition dev_warn : M unit := emit (EvLog Warn).
Definition dev_err : M unit := emit (EvLog Err).

Definition regulator_lock : M unit :=
  set_supply (fun p => {| parent_enabled := parent_enabled p;
                          lock_depth := S (lock_depth p) |});;
  emit EvLock.

Definition regulator_unlock : M unit :=
  set_supply (fun p => {| parent_enabled := parent_enabled p;
                          lock_depth := pred (lock_depth p) |});;
  emit EvUnlock.

(** [regulator_is_enabled(rdev->supply)]; only called when the supply
    exists. *)
Definition regulator_is_enabled : M Z :=
  sup <- get_supply;;
  mret (match sup with Some p => parent_enabled p | None => 0 end).

Definition regmap_write (r : regmap) (v : Z) : M unit := emit (EvWrite r v).

(** Modelled from the spec: [regmap_update_bits] belongs to the kernel's
    regmap library, which is not among the sources.  The specification
    calls it "an atomic set/clear against only that bit": one indivisible
    event carrying the 32-bit mask and value; the register afterwards holds
    [update_bits_value mask val old]. *)
Definition regmap_update_bits (r : regmap) (mask val : Z) : M unit :=
  emit (EvUpdateBits r (u32 mask) (u32 val)).

Definition update_bits_value (mask val old : Z) : Z :=
  Z.lor (Z.land old (Z.lnot mask)) (Z.land val mask).

(** ** The driver

    The functions below follow the C text statement by statement.  A
    [return] and a [goto done] are [leave]; the body they leave is a
    [block].  The register maps are memory-mapped, so [regmap_read] and
    [regmap_write] at offset 0 return 0: the tests [ret < 0] that follow
    them in [gdsc_set_mode] never fire and are not written out. *)

Section Driver.

(** The hardware: the word a register map returns when read, given
    everything the driver has done so far. *)
Variable hw : list event -> regmap -> Z.

Definition regmap_read (r : regmap) : M Z :=
  fun w =>
    let v := u32 (hw (trace w) r) in
    (Next v, {| st := st w; supply := supply w;
                trace := trace w ++ [EvRead r v]; polls := polls w |}).

(* static inline u32 gdsc_mb(struct gdsc *gds) *)
Definition gdsc_mb : M Z :=
  reg <- regmap_read Gdscr;;
  mret reg.

(** The register [poll_gdsc_status] samples. *)
Definition status_regmap (sc : gdsc) : regmap :=
  if hw_ctrl sc then Hw_ctrl else Gdscr.

(* for (; count > 0; count--) { ... } *)
Fixpoint poll_loop (r : regmap) (status : gdscr_status) (count : nat)
  : M unit :=
  match count with
  | O => mret tt
  | S count' =>
      count_poll;;
      val <- regmap_read r;;
      let val := Z.land val PWR_ON_MASK in
      match status with
      | ENABLED => if nonzero val then leave 0 else mret tt
      | DISABLED => if negb (nonzero val) then leave 0 else mret tt
      end;;
      udelay 1;;
      poll_loop r status count'
  end.

(* static int poll_gdsc_status(struct gdsc *sc, enum gdscr_status status) *)
Definition poll_gdsc_status (sc : gdsc) (status : gdscr_status) : M Z :=
  block (
    let count := s32 (gds_timeout sc) in
    let r := if hw_ctrl sc then Hw_ctrl else Gdscr in
    poll_loop r status (Z.to_nat count);;
    leave (- ETIMEDOUT)).

(* static int gdsc_is_enabled(struct regulator_dev *rdev) *)
Definition gdsc_is_enabled (sc : gdsc) : M Z :=
  block (
    (if negb (toggle_logic sc) then
       s <- get_state;;
       leave (Z.b2z (negb (resets_asserted s)))
     else mret tt);;
    (if skip_disable_before_enable sc then leave 0 else mret tt);;
    s <- get_state;;
    leave (Z.b2z (is_gdsc_enabled s))).

(* for (i = 0; i < sc->reset_count; i++) reset_control_deassert(...) *)
Fixpoint deassert_from (i : Z) (n : nat) : M unit :=
  match n with
  | O => mret tt
  | S n' => reset_control_deassert i;; deassert_from (i + 1) n'
  end.

(* for (i = sc->reset_count - 1; i >= 0; i--) reset_control_assert(...) *)
Fixpoint assert_from (i : Z) (n : nat) : M unit :=
  match n with
  | O => mret tt
  | S n' => reset_control_assert i;; assert_from (i - 1) n'
  end.

(* static int gdsc_enable(struct regulator_dev *rdev) *)
Definition gdsc_enable (sc : gdsc) : M Z :=
  block (
    (if skip_disable_before_enable sc then leave 0 else mret tt);;
    (if root_en sc || force_root_en sc then
       clk_prepare_enable (root_clk_idx sc);;
       set_is_root_clk_voted true
     else mret tt);;
    regval <- regmap_read Gdscr;;
    (if nonzero (Z.land regval HW_CONTROL_MASK) then
       dev_warn;;
       leave (- EBUSY)
     else mret tt);;
    ret <-
      (if toggle_logic sc then
         regval <-
           (if sw_reset sc then
              regval <- regmap_read Sw_reset;;
              let regval := Z.lor regval BCR_BLK_ARES_BIT in
              regmap_write Sw_reset regval;;
              (if acd_reset sc then regmap_write Acd_reset regval
               else mret tt);;
              (if acd_misc_reset sc then regmap_write Acd_misc_reset regval
               else mret tt);;
              gdsc_mb;;
              udelay 1;;
              let regval := Z.land regval (Z.lnot BCR_BLK_ARES_BIT) in
              regmap_write Sw_reset regval;;
              (if acd_reset sc then regmap_write Acd_reset regval
               else mret tt);;
              (if acd_misc_reset sc then regmap_write Acd_misc_reset regval
               else mret tt);;
              gdsc_mb;;
              mret regval
            else mret regval);;
         regval <-
           (if domain_addr sc then
              (if reset_aon sc then
                 regval <- regmap_read Domain_addr;;
                 let regval := Z.lor regval GMEM_RESET_MASK in
                 regmap_write Domain_addr regval;;
                 gdsc_mb;;
                 udelay 1;;
                 let regval := Z.land regval (Z.lnot GMEM_RESET_MASK) in
                 regmap_write Domain_addr regval;;
                 gdsc_mb;;
                 mret tt
               else mret tt);;
              regval <- regmap_read Domain_addr;;
              let regval := Z.land regval (Z.lnot GMEM_CLAMP_IO_MASK) in
              regmap_write Domain_addr regval;;
              gdsc_mb;;
              mret regval
            else mret regval);;
         (* Enable gdsc *)
         regval <-
           (if cv_regmap (collapse_vote sc) then
              regmap_update_bits Collapse_vote
                (BIT (vote_bit (collapse_vote sc)))
                (Z.lnot (BIT (vote_bit (collapse_vote sc))));;
              mret regval
            else
              regval <- regmap_read Gdscr;;
              let regval := Z.land regval (Z.lnot SW_COLLAPSE_MASK) in
              regmap_write Gdscr regval;;
              mret regval);;
         gdsc_mb;;
         udelay 1;;
         ret <- poll_gdsc_status sc ENABLED;;
         ret_regval <-
           (if nonzero ret then
              regval <- regmap_read Gdscr;;
              if hw_ctrl sc then
                regmap_read Hw_ctrl;;
                dev_warn;;
                ret <- poll_gdsc_status sc ENABLED;;
                (if nonzero ret then
                   regmap_read Gdscr;;
                   regmap_read Hw_ctrl;;
                   dev_err;;
                   leave ret
                 else mret tt);;
                mret (ret, regval)
              else
                dev_err;;
                udelay (u32 (gds_timeout sc));;
                regmap_read Gdscr;;
                dev_err;;
                leave ret
            else mret (ret, regval));;
         let ret := fst ret_regval in
         let regval := snd ret_regval in
         (if retain_ff_enable sc
             && negb (nonzero (Z.land regval RETAIN_FF_ENABLE_MASK)) then
            let regval := Z.lor regval RETAIN_FF_ENABLE_MASK in
            regmap_write Gdscr regval
          else mret tt);;
         mret ret
       else
         deassert_from 0 (Z.to_nat (reset_count sc));;
         set_resets_asserted false;;
         mret 0);;
    udelay 1;;
    udelay 1;;
    (if force_root_en sc then
       clk_disable_unprepare (root_clk_idx sc);;
       set_is_root_clk_voted false
     else mret tt);;
    set_is_gdsc_enabled true;;
    leave ret).

(* static int gdsc_disable(struct regulator_dev *rdev) *)
Definition gdsc_disable (sc : gdsc) : M Z :=
  ret <-
    block (
      sup <- get_supply;;
      match sup with
      | Some _ =>
          regulator_lock;;
          parent_enabled <- regulator_is_enabled;;
          if parent_enabled <? 0 then
            dev_err;;
            leave parent_enabled
          else if parent_enabled =? 0 then
            dev_err;;
            leave (- EIO)
          else mret tt
      | None => mret tt
      end;;
      (if force_root_en sc then
         clk_prepare_enable (root_clk_idx sc);;
         set_is_root_clk_voted true
       else mret tt);;
      udelay 1;;
      ret <-
        (if toggle_logic sc then
           (if sw_reset sc then
              if acd_misc_reset sc then
                regmap_update_bits Acd_misc_reset
                  BCR_BLK_ARES_BIT BCR_BLK_ARES_BIT
              else mret tt
            else mret tt);;
           (* Disable gdsc *)
           (if cv_regmap (collapse_vote sc) then
              regmap_update_bits Collapse_vote
                (BIT (vote_bit (collapse_vote sc)))
                (BIT (vote_bit (collapse_vote sc)))
            else
              regval <- regmap_read Gdscr;;
              let regval := Z.lor regval SW_COLLAPSE_MASK in
              regmap_write Gdscr regval);;
           gdsc_mb;;
           udelay 1;;
           ret <-
             (if no_status_check_on_disable sc then
                udelay TIMEOUT_US;;
                mret 0
              else
                ret <- poll_gdsc_status sc DISABLED;;
                (if nonzero ret then
                   regmap_read Gdscr;;
                   dev_err
                 else mret tt);;
                mret ret);;
           (if domain_addr sc then
              regval <- regmap_read Domain_addr;;
              let regval := Z.lor regval GMEM_CLAMP_IO_MASK in
              regmap_write Domain_addr regval
            else mret tt);;
           mret ret
         else
           assert_from (reset_count sc - 1) (Z.to_nat (reset_count sc));;
           set_resets_asserted true;;
           mret 0);;
      s <- get_state;;
      (if (is_root_clk_voted s && root_en sc) || force_root_en sc then
         clk_disable_unprepare (root_clk_idx sc);;
         set_is_root_clk_voted false
       else mret tt);;
      set_is_gdsc_enabled false;;
      leave ret);;
  (* done: *)
  sup <- get_supply;;
  match sup with
  | Some _ => regulator_unlock
  | None => mret tt
  end;;
  mret ret.

(* static unsigned int gdsc_get_mode(struct regulator_dev *rdev) *)
Definition gdsc_get_mode (sc : gdsc) : M Z :=
  s <- get_state;;
  mret (if is_gdsc_hw_ctrl_mode s then REGULATOR_MODE_FAST
        else REGULATOR_MODE_NORMAL).

(* static int gdsc_set_mode(struct regulator_dev *rdev, unsigned int mode) *)
Definition gdsc_set_mode (sc : gdsc) (mode : Z) : M Z :=
  ret <-
    block (
      sup <- get_supply;;
      match sup with
      | Some _ =>
          regulator_lock;;
          ret <- regulator_is_enabled;;
          if ret <? 0 then
            dev_err;;
            leave ret
          else if ret =? 0 then
            dev_warn;;
            leave (- EIO)
          else mret tt
      | None => mret tt
      end;;
      regval <- regmap_read Gdscr;;
      if mode =? REGULATOR_MODE_FAST then
        (* Turn on HW trigger mode *)
        let regval := Z.lor regval HW_CONTROL_MASK in
        regmap_write Gdscr regval;;
        gdsc_mb;;
        udelay 1;;
        set_is_gdsc_hw_ctrl_mode true;;
        leave 0
      else if mode =? REGULATOR_MODE_NORMAL then
        (* Turn off HW trigger mode *)
        let regval := Z.land regval (Z.lnot HW_CONTROL_MASK) in
        regmap_write Gdscr regval;;
        gdsc_mb;;
        udelay 1;;
        s <- get_state;;
        ret <-
          (if is_gdsc_enabled s then
             ret <- poll_gdsc_status sc ENABLED;;
             (if nonzero ret then
                dev_err;;
                leave ret
              else mret tt);;
             mret ret
           else mret 0);;
        set_is_gdsc_hw_ctrl_mode false;;
        leave ret
      else
        leave (- EINVAL));;
  (* done: *)
  sup <- get_supply;;
  match sup with
  | Some _ => regulator_unlock
  | None => mret tt
  end;;
  mret ret.

End Driver.

(** ** Vocabulary of the specification *)

(** The regulator operations ([gdsc_ops]). *)
Inductive op : Type :=
| Op_is_enabled
| Op_enable
| Op_disable
| Op_set_mode (mode : Z)
| Op_get_mode.

Definition run_op (hw : list event -> regmap -> Z) (sc : gdsc) (o : op) : M Z :=
  match o with
  | Op_is_enabled => gdsc_is_enabled sc
  | Op_enable => gdsc_enable hw sc
  | Op_disable => gdsc_disable hw sc
  | Op_set_mode mode => gdsc_set_mode hw sc mode
  | Op_get_mode => gdsc_get_mode sc
  end.

(** The events issued between two worlds of one run. *)
Definition since (w w' : world) : list event :=
  skipn (length (trace w)) (trace w').

(** What a call returns, and the world it leaves. *)
Definition result (m : M Z) (w : world) : Z := fst (call m w).
Definition after (m : M Z) (w : world) : world := snd (call m w).

(** The events an operation issues when started in [w]. *)
Definition issued (m : M Z) (w : world) : list event :=
  since w (after m w).

Definition is_write (e : event) : bool :=
  match e with
  | EvWrite _ _ | EvUpdateBits _ _ _ => true
  | _ => false
  end.

Definition is_reset_line (e : event) : bool :=
  match e with
  | EvResetDeassert _ | EvResetAssert _ => true
  | _ => false
  end.

Definition is_clk_enable (e : event) : bool :=
  match e with EvClkEnable _ => true | _ => false end.

Definition is_clk_disable (e : event) : bool :=
  match e with EvClkDisable _ => true | _ => false end.

(** How many parent locks are held. *)
Definition locks_held (w : world) : nat :=
  match supply w with
  | Some p => lock_depth p
  | None => O
  end.

(** The parent check of [gdsc_disable] and [gdsc_set_mode] lets the
    operation proceed. *)
Definition parent_ok (w : world) : bool :=
  match supply w with
  | Some p => 0 <? parent_enabled p
  | None => true
  end.

(** The number of loop iterations [poll_gdsc_status] allows itself: the
    initial value of its [int count]. *)
Definition budget (sc : gdsc) : nat := Z.to_nat (s32 (gds_timeout sc)).

(** A sample of the status register agrees with the state waited for. *)
Definition sample_matches (status : gdscr_status) (v : Z) : bool :=
  match status with
  | ENABLED => Z.testbit v 31
  | DISABLED => negb (Z.testbit v 31)
  end.

(** The events of [n] failed samples with values [vs]: each is one read of
    the register followed by one 1-microsecond delay. *)
Definition failed_samples (r : regmap) (vs : list Z) : list event :=
  flat_map (fun v => [EvRead r v; EvDelay 1]) vs.

(** The event a clock vote at the head of [gdsc_enable] leaves. *)
Definition root_clk_on (sc : gdsc) : list event :=
  if root_en sc || force_root_en sc then [EvClkEnable (root_clk_idx sc)]
  else [].

(** The condition under which [gdsc_disable] drops the root clock, in terms
    of the state it was called in. *)
Definition root_clk_off_needed (sc : gdsc) (w : world) : bool :=
  (is_root_clk_voted (st w) && root_en sc) || force_root_en sc.

(** The events with which the parent lock is taken and released. *)
Definition lock_events (w : world) : list event :=
  match supply w with Some _ => [EvLock] | None => [] end.

Definition unlock_events (w : world) : list event :=
  match supply w with Some _ => [EvUnlock] | None => [] end.

(** The reset lines [0 .. n-1], in configured order. *)
Definition reset_lines (sc : gdsc) : list Z :=
  map Z.of_nat (seq 0 (Z.to_nat (reset_count sc))).

(** Every read in [evs], issued after the history [tr], carries the word
    the hardware answered at that moment. *)
Fixpoint genuine (hw : list event -> regmap -> Z) (tr evs : list event)
  : Prop :=
  match evs with
  | [] => True
  | e :: evs' =>
      match e with
      | EvRead r v => v = u32 (hw tr r)
      | _ => True
      end
      /\ genuine hw (tr ++ [e]) evs'
  end.

(** ** A register file to run the driver against *)

Definition reg_file : Type := regmap -> Z.

Definition reg_set (f : reg_file) (r : regmap) (v : Z) : reg_file :=
  fun r' => if regmap_eqb r r' then v else f r'.

Definition reg_apply (f : reg_file) (e : event) : reg_file :=
  match e with
  | EvWrite r v => reg_set f r v
  | EvUpdateBits r mask val => reg_set f r (update_bits_value mask val (f r))
  | _ => f
  end.

(** Registers that hold what was last written to them, except that bit 31
    of the two status registers is driven by the power switch, which is on
    exactly when [pwr] says so for the history so far. *)
Definition sim_hw (pwr : list event -> bool) (init : reg_file)
  : list event -> regmap -> Z :=
  fun tr r =>
    let v := fold_left reg_apply tr init r in
    match r with
    | Gdscr | Hw_ctrl =>
        if pwr tr then Z.lor v PWR_ON_MASK
        else Z.land v (Z.lnot PWR_ON_MASK)
    | _ => v
    end.

Definition all_zero : reg_file := fun _ => 0.

(** A register-toggled domain with nothing optional configured. *)
Definition plain_gdsc : gdsc :=
  {| domain_addr := false; hw_ctrl := false; sw_reset := false;
     acd_reset := false; acd_misc_reset := false;
     collapse_vote := {| cv_regmap := false; vote_bit := 0 |};
     toggle_logic := true; retain_ff_enable := false;
     root_en := false; force_root_en := false;
     no_status_check_on_disable := false; reset_aon := false;
     reset_count := 0; root_clk_idx := 0; gds_timeout := TIMEOUT_US;
     skip_disable_before_enable := false |}.

Definition boot_state : gdsc_state :=
  {| resets_asserted := false; is_gdsc_enabled := false;
     is_gdsc_hw_ctrl_mode := false; is_root_clk_voted := false |}.

Definition boot_world (sup : option regulator) : world :=
  {| st := boot_state; supply := sup; trace := []; polls := O |}.

(** ** The claims of the specification, as stated *)

(** "enable() followed immediately by is_enabled() returns true when
    enable() succeeded". *)
Definition query_after_enable (hw : list event -> regmap -> Z)
    (sc : gdsc) (w : world) : Prop :=
  result (gdsc_enable hw sc) w = 0 ->
  result (gdsc_is_enabled sc) (after (gdsc_enable hw sc) w) = 1.

(** "disable() followed by is_enabled() returns false when disable()
    succeeded". *)
Definition query_after_disable (hw : list event -> regmap -> Z)
    (sc : gdsc) (w : world) : Prop :=
  result (gdsc_disable hw sc) w = 0 ->
  result (gdsc_is_enabled sc) (after (gdsc_disable hw sc) w) = 0.

(** "enable() and disable() return Timeout after exactly timeout_budget
    poll iterations (within +-1 iteration for the documented one-shot extra
    poll attempt in enable)", for [gdsc_enable]; the budget is the one
    configured, [gds_timeout]. *)
Definition enable_timeout_within_one (hw : list event -> regmap -> Z)
    (sc : gdsc) (w : world) : Prop :=
  result (gdsc_enable hw sc) w = - ETIMEDOUT
  /\ Z.of_nat (polls (after (gdsc_enable hw sc) w))
     <= Z.of_nat (polls w) + gds_timeout sc + 1
  /\ Z.of_nat (polls w) + gds_timeout sc - 1
     <= Z.of_nat (polls (after (gdsc_enable hw sc) w)).

(** "Samples register & mask every iteration; succeeds as soon as the
    bit's presence matches expect_set", for a mask of the caller's choice:
    a poll that returns 0 has ended on a sample in which the bits under
    [mask] are present, or absent, as waited for. *)
Definition succeeds_under_mask (hw : list event -> regmap -> Z)
    (sc : gdsc) (status : gdscr_status) (mask : Z) (w : world) : Prop :=
  result (poll_gdsc_status hw sc status) w = 0 ->
  exists vs v,
    issued (poll_gdsc_status hw sc status) w
    = failed_samples (status_regmap sc) vs ++ [EvRead (status_regmap sc) v]
    /\ nonzero (Z.land v mask)
       = match status with ENABLED => true | DISABLED => false end.

(** "returns TimedOut after budget failed samples", the budget being the
    one configured: a poll that times out has taken [gds_timeout] samples,
    all of which failed. *)
Definition times_out_after_budget (hw : list event -> regmap -> Z)
    (sc : gdsc) (status : gdscr_status) (w : world) : Prop :=
  result (poll_gdsc_status hw sc status) w = - ETIMEDOUT ->
  exists vs,
    issued (poll_gdsc_status hw sc status) w
    = failed_samples (status_regmap sc) vs
    /\ Z.of_nat (length vs) = gds_timeout sc
    /\ Forall (fun v => sample_matches status v = false) vs.


(** "every write that enable() or disable() performs affects only bit k of
    the vote register and never writes the primary register's collapse bit
    (bit 0), regardless of other configuration flags such as retain_flops":
    the vote register is only ever updated under the mask [BIT k]
    ([updates_only_vote_bit]), and on registers [regs] that keep what is
    written to them the collapse bit of the primary register is after the
    events [evs] what it was before ([keeps_collapse_bit]). *)
Definition updates_only_vote_bit (sc : gdsc) (e : event) : Prop :=
  match e with
  | EvWrite Collapse_vote _ => False
  | EvUpdateBits Collapse_vote mask _ =>
      mask = u32 (BIT (vote_bit (collapse_vote sc)))
  | _ => True
  end.

Definition keeps_collapse_bit (regs : reg_file) (evs : list event) : Prop :=
  Z.testbit (fold_left reg_apply evs regs Gdscr) 0
  = Z.testbit (regs Gdscr) 0.

(** "enable() de-asserts the reset lines in configured order (line 0 first,
    line n-1 last) and marks resets not-asserted". *)
Definition deasserts_in_order (hw : list event -> regmap -> Z)
    (sc : gdsc) (w : world) : Prop :=
  filter is_reset_line (issued (gdsc_enable hw sc) w)
  = map EvResetDeassert (reset_lines sc)
  /\ resets_asserted (st (after (gdsc_enable hw sc) w)) = false.

(** "disable() asserts them in reverse configured order (line n-1 first,
    line 0 last) and marks resets asserted". *)
Definition asserts_in_reverse (hw : list event -> regmap -> Z)
    (sc : gdsc) (w : world) : Prop :=
  filter is_reset_line (issued (gdsc_disable hw sc) w)
  = map EvResetAssert (rev (reset_lines sc))
  /\ resets_asserted (st (after (gdsc_disable hw sc) w)) = true.

(** "the root-clock force-enable/disable bracket is balanced": the call has
    disabled the root clock as often as it has enabled it. *)
Definition root_clk_balanced (hw : list event -> regmap -> Z)
    (sc : gdsc) (w : world) : Prop :=
  length (filter is_clk_enable (issued (gdsc_enable hw sc) w))
  = length (filter is_clk_disable (issued (gdsc_enable hw sc) w)).

(** The word [gdsc_set_mode] writes back when it has read [v]. *)
Definition with_hw_control (on : bool) (v : Z) : Z :=
  if on then Z.lor v HW_CONTROL_MASK else Z.land v (Z.lnot HW_CONTROL_MASK).

(** ** Scenarios *)

(** A domain that defers its enable ([qcom,skip-disable-before-sw-enable]). *)
Definition skip_gdsc : gdsc :=
  {| domain_addr := false; hw_ctrl := false; sw_reset := false;
     acd_reset := false; acd_misc_reset := false;
     collapse_vote := {| cv_regmap := false; vote_bit := 0 |};
     toggle_logic := true; retain_ff_enable := false;
     root_en := false; force_root_en := false;
     no_status_check_on_disable := false; reset_aon := false;
     reset_count := 0; root_clk_idx := 0; gds_timeout := TIMEOUT_US;
     skip_disable_before_enable := true |}.

(** A reset-controlled domain with two reset lines, and the same domain
    deferring its enable. *)
Definition reset_gdsc : gdsc :=
  {| domain_addr := false; hw_ctrl := false; sw_reset := false;
     acd_reset := false; acd_misc_reset := false;
     collapse_vote := {| cv_regmap := false; vote_bit := 0 |};
     toggle_logic := false; retain_ff_enable := false;
     root_en := false; force_root_en := false;
     no_status_check_on_disable := false; reset_aon := false;
     reset_count := 2; root_clk_idx := 0; gds_timeout := TIMEOUT_US;
     skip_disable_before_enable := false |}.

Definition deferred_reset_gdsc : gdsc :=
  {| domain_addr := false; hw_ctrl := false; sw_reset := false;
     acd_reset := false; acd_misc_reset := false;
     collapse_vote := {| cv_regmap := false; vote_bit := 0 |};
     toggle_logic := false; retain_ff_enable := false;
     root_en := false; force_root_en := false;
     no_status_check_on_disable := false; reset_aon := false;
     reset_count := 2; root_clk_idx := 0; gds_timeout := TIMEOUT_US;
     skip_disable_before_enable := true |}.

(** A world in which the reset lines are held asserted. *)
Definition in_reset_world : world :=
  {| st := {| resets_asserted := true; is_gdsc_enabled := false;
              is_gdsc_hw_ctrl_mode := false; is_root_clk_voted := false |};
     supply := None; trace := []; polls := O |}.

(** A domain that votes with bit 3 of a shared register, has a
    domain-address register and keeps its retention flops. *)
Definition vote_retain_gdsc : gdsc :=
  {| domain_addr := true; hw_ctrl := false; sw_reset := false;
     acd_reset := false; acd_misc_reset := false;
     collapse_vote := {| cv_regmap := true; vote_bit := 3 |};
     toggle_logic := true; retain_ff_enable := true;
     root_en := false; force_root_en := false;
     no_status_check_on_disable := false; reset_aon := false;
     reset_count := 0; root_clk_idx := 0; gds_timeout := TIMEOUT_US;
     skip_disable_before_enable := false |}.

(** The same domain without the domain-address register. *)
Definition vote_retain_only_gdsc : gdsc :=
  {| domain_addr := false; hw_ctrl := false; sw_reset := false;
     acd_reset := false; acd_misc_reset := false;
     collapse_vote := {| cv_regmap := true; vote_bit := 3 |};
     toggle_logic := true; retain_ff_enable := true;
     root_en := false; force_root_en := false;
     no_status_check_on_disable := false; reset_aon := false;
     reset_count := 0; root_clk_idx := 0; gds_timeout := TIMEOUT_US;
     skip_disable_before_enable := false |}.

(** Powered hardware whose primary register holds the collapse bit. *)
Definition collapsed_on_hw : list event -> regmap -> Z :=
  sim_hw (fun _ => true) (reg_set all_zero Gdscr 1).

(** A domain whose root clock is forced on around each transition. *)
Definition force_gdsc : gdsc :=
  {| domain_addr := false; hw_ctrl := false; sw_reset := false;
     acd_reset := false; acd_misc_reset := false;
     collapse_vote := {| cv_regmap := false; vote_bit := 0 |};
     toggle_logic := true; retain_ff_enable := false;
     root_en := false; force_root_en := true;
     no_status_check_on_disable := false; reset_aon := false;
     reset_count := 0; root_clk_idx := 0; gds_timeout := TIMEOUT_US;
     skip_disable_before_enable := false |}.

(** Powered hardware left under hardware control (bit 1 of the primary
    register set). *)
Definition busy_hw : list event -> regmap -> Z :=
  sim_hw (fun _ => true) (reg_set all_zero Gdscr 2).

(** A world whose parent supply is there but off. *)
Definition off_parent_world : world :=
  boot_world (Some {| parent_enabled := 0; lock_depth := O |}).

(** A domain that reports its status through a separate register. *)
Definition hw_ctrl_gdsc : gdsc :=
  {| domain_addr := false; hw_ctrl := true; sw_reset := false;
     acd_reset := false; acd_misc_reset := false;
     collapse_vote := {| cv_regmap := false; vote_bit := 0 |};
     toggle_logic := true; retain_ff_enable := false;
     root_en := false; force_root_en := false;
     no_status_check_on_disable := false; reset_aon := false;
     reset_count := 0; root_clk_idx := 0; gds_timeout := TIMEOUT_US;
     skip_disable_before_enable := false |}.

(** Hardware whose power switch never closes, and hardware whose power
    switch never opens. *)
Definition dead_hw : list event -> regmap -> Z :=
  sim_hw (fun _ => false) all_zero.

Definition stuck_on_hw : list event -> regmap -> Z :=
  sim_hw (fun _ => true) all_zero.

(** A domain whose configured poll budget is 2^31 microseconds. *)
Definition wide_budget_gdsc : gdsc :=
  {| domain_addr := false; hw_ctrl := false; sw_reset := false;
     acd_reset := false; acd_misc_reset := false;
     collapse_vote := {| cv_regmap := false; vote_bit := 0 |};
     toggle_logic := true; retain_ff_enable := false;
     root_en := false; force_root_en := false;
     no_status_check_on_disable := false; reset_aon := false;
     reset_count := 0; root_clk_idx := 0; gds_timeout := 2 ^ 31;
     skip_disable_before_enable := false |}.



(** Hardware whose power switch follows the collapse bit at once. *)
Definition prompt_hw : list event -> regmap -> Z :=
  sim_hw (fun tr => negb (Z.testbit (fold_left reg_apply tr all_zero Gdscr) 0))
         all_zero.

(** What an operation may do to the world, as a relation between the world
    before and a later one: which events it may add to the trace, and
    which parts of the state it must leave alone. *)
Record frame : Type := {
  allow_ev : event -> Prop;
  keep_st : bool;
  keep_supply : bool;
  keep_polls : bool
}.

Definition within (F : frame) (w w' : world) : Prop :=
  (exists new, trace w' = trace w ++ new /\ Forall (allow_ev F) new)
  /\ (keep_st F = true -> st w' = st w)
  /\ (keep_supply F = true -> supply w' = supply w)
  /\ (keep_polls F = true -> polls w' = polls w).

(** [m] stays within [F] from every world, and every early exit of [m]
    carries a value in [Pe]. *)
Definition spec {A} (F : frame) (Pe : Z -> Prop) (m : M A) : Prop :=
  forall w, within F w (snd (m w))
            /\ (forall r, fst (m w) = Exit r -> Pe r).

(** Only events in [P]; everything else may change. *)
Definition events_in (P : event -> Prop) : frame :=
  {| allow_ev := P; keep_st := false; keep_supply := false;
     keep_polls := false |}.

(** The frame that allows everything. *)
Definition anything : frame :=
  {| allow_ev := fun _ => True; keep_st := false; keep_supply := false;
     keep_polls := false |}.

(** Only events in [P]; the parent supply and the poll count are left
    alone, the driver state is not. *)
Definition only_events (P : event -> Prop) : frame :=
  {| allow_ev := P; keep_st := false; keep_supply := true;
     keep_polls := true |}.

(** The parent supply is left alone. *)
Definition supply_kept : frame :=
  {| allow_ev := fun _ => True; keep_st := false; keep_supply := true;
     keep_polls := false |}.

(** Nothing but the trace may change. *)
Definition trace_only : frame :=
  {| allow_ev := fun _ => True; keep_st := true; keep_supply := true;
     keep_polls := true |}.

(** ** Probing

    [gdsc_probe] and the functions only it calls.  What the device tree,
    the platform bus and the kernel's allocators answer is not decided by
    the driver: it is collected in two records, [device_node] and
    [platform_device], which the functions take as arguments.  A pointer
    is kept as "is not NULL" or, where the driver tests [IS_ERR], as what
    [IS_ERR] and [PTR_ERR] answer for it. *)

Definition CLK_DIS_WAIT_SHIFT : Z := 12.

Definition ENOMEM : Z := 12.
Definition EPROBE_DEFER : Z := 517.

Definition REGULATOR_CHANGE_MODE : Z := 4.

Section Init.

Variable hw : list event -> regmap -> Z.

(* static int gdsc_init_is_enabled(struct gdsc *sc) *)
Definition gdsc_init_is_enabled (sc : gdsc) : M Z :=
  block (
    (if negb (toggle_logic sc) then
       s <- get_state;;
       set_is_gdsc_enabled (negb (resets_asserted s));;
       leave 0
     else mret tt);;
    regmap_mask <-
      (if cv_regmap (collapse_vote sc) then
         mret (Collapse_vote, u32 (BIT (vote_bit (collapse_vote sc))))
       else
         mret (Gdscr, u32 SW_COLLAPSE_MASK));;
    regval <- regmap_read hw (fst regmap_mask);;
    set_is_gdsc_enabled (negb (nonzero (Z.land regval (snd regmap_mask))));;
    leave 0).

(* static int gdsc_init_hw_ctrl_mode(struct gdsc *sc) *)
Definition gdsc_init_hw_ctrl_mode : M Z :=
  block (
    regval <- regmap_read hw Gdscr;;
    set_is_gdsc_hw_ctrl_mode (nonzero (Z.land regval HW_CONTROL_MASK));;
    leave 0).

End Init.

(** *** The device tree node *)

(** A property that names a register map: absent, or present with what
    [syscon_regmap_lookup_by_phandle] makes of it.  [IS_ERR] and [PTR_ERR]
    belong to the kernel's headers, which are not among the sources; what
    they answer for the pointer returned is part of the input: [Syscon]
    is a register map, [Syscon_err err] a pointer of which [IS_ERR] holds
    and of which [PTR_ERR] is [err]. *)
Inductive phandle : Type :=
| No_property
| Syscon
| Syscon_err (err : Z).

Definition of_find_property (h : phandle) : bool :=
  match h with No_property => false | _ => true end.

Record regulator_init_data : Type := {
  supply_regulator : option string;
  valid_ops_mask : Z;
  valid_modes_mask : Z
}.

(** What the [of_*] accessors answer for the node of the device.  Each
    field is named after the property it belongs to. *)
Record device_node : Type := {
  of_get_regulator_init_data : option regulator_init_data;  (* None: NULL *)
  of_parent_supply : bool;
  of_regulator_name : Z;            (* of_property_read_string's return *)
  of_domain_addr : phandle;
  of_sw_reset : phandle;
  of_acd_reset : phandle;
  of_acd_misc_reset : phandle;
  of_hw_ctrl_addr : phandle;
  of_gds_timeout : option Z;        (* Some v: of_property_read_u32 stores v *)
  of_clock_names_count : Z;         (* of_property_count_strings *)
  of_clock_names : Z -> string;     (* of_property_read_string_index *)
  of_enable_root_clk : bool;
  of_force_enable_root_clk : bool;
  of_reset_aon_logic : bool;
  of_no_status_check_on_disable : bool;
  of_retain_regs : bool;
  of_skip_disable_before_sw_enable : bool;
  of_collapse_vote : phandle;
  of_collapse_vote_elems : Z;       (* of_property_count_u32_elems *)
  of_collapse_vote_bit : Z * Z;     (* of_property_read_u32_index: its
                                       return, and the element it stores
                                       when that is 0 *)
  of_skip_logic_collapse : bool;
  of_reset_names_count : Z;
  of_reset_names : Z -> string;
  of_support_hw_trigger : bool;
  of_no_config_gdscr : bool;
  of_clk_dis_wait_val : option Z
}.

(** What the platform bus, the allocators, the clock and reset frameworks
    and the regulator core answer during a probe.  Where the driver tests
    the pointer it gets with [IS_ERR], [None] is the object asked for and
    [Some e] a pointer of which [IS_ERR] holds and of which [PTR_ERR] is
    [e].  Of the regulator core only the values it
    returns are kept: it is handed [gdsc_ops] and may call the operations
    while it registers the regulator, which is no statement of
    [gdsc_probe] and is not part of the model. *)
Record platform_device : Type := {
  of_node : device_node;
  devm_kzalloc : bool;                      (* sc != NULL *)
  platform_get_resource : bool;             (* res != NULL *)
  devm_ioremap : bool;
  devm_regmap_init_mmio : bool;
  devm_kcalloc : Z -> bool;                 (* by element count *)
  devm_clk_get : string -> option Z;
  devm_reset_control_get : string -> option Z;
  devm_regulator_register : option Z;
  devm_regulator_proxy_consumer_register : Z
}.

(** *** The structure being filled in *)

Definition with_domain_addr (x : bool) (sc : gdsc) : gdsc :=
  {| domain_addr := x; hw_ctrl := hw_ctrl sc; sw_reset := sw_reset sc;
     acd_reset := acd_reset sc; acd_misc_reset := acd_misc_reset sc;
     collapse_vote := collapse_vote sc;
     toggle_logic := toggle_logic sc;
     retain_ff_enable := retain_ff_enable sc; root_en := root_en sc;
     force_root_en := force_root_en sc;
     no_status_check_on_disable := no_status_check_on_disable sc;
     reset_aon := reset_aon sc; reset_count := reset_count sc;
     root_clk_idx := root_clk_idx sc; gds_timeout := gds_timeout sc;
     skip_disable_before_enable := skip_disable_before_enable sc |}.

Definition with_hw_ctrl (x : bool) (sc : gdsc) : gdsc :=
  {| domain_addr := domain_addr sc; hw_ctrl := x;
     sw_reset := sw_reset sc; acd_reset := acd_reset sc;
     acd_misc_reset := acd_misc_reset sc;
     collapse_vote := collapse_vote sc;
     toggle_logic := toggle_logic sc;
     retain_ff_enable := retain_ff_enable sc; root_en := root_en sc;
     force_root_en := force_root_en sc;
     no_status_check_on_disable := no_status_check_on_disable sc;
     reset_aon := reset_aon sc; reset_count := reset_count sc;
     root_clk_idx := root_clk_idx sc; gds_timeout := gds_timeout sc;
     skip_disable_before_enable := skip_disable_before_enable sc |}.

Definition with_sw_reset (x : bool) (sc : gdsc) : gdsc :=
  {| domain_addr := domain_addr sc; hw_ctrl := hw_ctrl sc;
     sw_reset := x; acd_reset := acd_reset sc;
     acd_misc_reset := acd_misc_reset sc;
     collapse_vote := collapse_vote sc;
     toggle_logic := toggle_logic sc;
     retain_ff_enable := retain_ff_enable sc; root_en := root_en sc;
     force_root_en := force_root_en sc;
     no_status_check_on_disable := no_status_check_on_disable sc;
     reset_aon := reset_aon sc; reset_count := reset_count sc;
     root_clk_idx := root_clk_idx sc; gds_timeout := gds_timeout sc;
     skip_disable_before_enable := skip_disable_before_enable sc |}.

Definition with_acd_reset (x : bool) (sc : gdsc) : gdsc :=
  {| domain_addr := domain_addr sc; hw_ctrl := hw_ctrl sc;
     sw_reset := sw_reset sc; acd_reset := x;
     acd_misc_reset := acd_misc_reset sc;
     collapse_vote := collapse_vote sc;
     toggle_logic := toggle_logic sc;
     retain_ff_enable := retain_ff_enable sc; root_en := root_en sc;
     force_root_en := force_root_en sc;
     no_status_check_on_disable := no_status_check_on_disable sc;
     reset_aon := reset_aon sc; reset_count := reset_count sc;
     root_clk_idx := root_clk_idx sc; gds_timeout := gds_timeout sc;
     skip_disable_before_enable := skip_disable_before_enable sc |}.

Definition with_acd_misc_reset (x : bool) (sc : gdsc) : gdsc :=
  {| domain_addr := domain_addr sc; hw_ctrl := hw_ctrl sc;
     sw_reset := sw_reset sc; acd_reset := acd_reset sc;
     acd_misc_reset := x; collapse_vote := collapse_vote sc;
     toggle_logic := toggle_logic sc;
     retain_ff_enable := retain_ff_enable sc; root_en := root_en sc;
     force_root_en := force_root_en sc;
     no_status_check_on_disable := no_status_check_on_disable sc;
     reset_aon := reset_aon sc; reset_count := reset_count sc;
     root_clk_idx := root_clk_idx sc; gds_timeout := gds_timeout sc;
     skip_disable_before_enable := skip_disable_before_enable sc |}.

Definition with_collapse_vote (x : struct_collapse_vote) (sc : gdsc) : gdsc :=
  {| domain_addr := domain_addr sc; hw_ctrl := hw_ctrl sc;
     sw_reset := sw_reset sc; acd_reset := acd_reset sc;
     acd_misc_reset := acd_misc_reset sc; collapse_vote := x;
     toggle_logic := toggle_logic sc;
     retain_ff_enable := retain_ff_enable sc; root_en := root_en sc;
     force_root_en := force_root_en sc;
     no_status_check_on_disable := no_status_check_on_disable sc;
     reset_aon := reset_aon sc; reset_count := reset_count sc;
     root_clk_idx := root_clk_idx sc; gds_timeout := gds_timeout sc;
     skip_disable_before_enable := skip_disable_before_enable sc |}.

Definition with_toggle_logic (x : bool) (sc : gdsc) : gdsc :=
  {| domain_addr := domain_addr sc; hw_ctrl := hw_ctrl sc;
     sw_reset := sw_reset sc; acd_reset := acd_reset sc;
     acd_misc_reset := acd_misc_reset sc;
     collapse_vote := collapse_vote sc; toggle_logic := x;
     retain_ff_enable := retain_ff_enable sc; root_en := root_en sc;
     force_root_en := force_root_en sc;
     no_status_check_on_disable := no_status_check_on_disable sc;
     reset_aon := reset_aon sc; reset_count := reset_count sc;
     root_clk_idx := root_clk_idx sc; gds_timeout := gds_timeout sc;
     skip_disable_before_enable := skip_disable_before_enable sc |}.

Definition with_retain_ff_enable (x : bool) (sc : gdsc) : gdsc :=
  {| domain_addr := domain_addr sc; hw_ctrl := hw_ctrl sc;
     sw_reset := sw_reset sc; acd_reset := acd_reset sc;
     acd_misc_reset := acd_misc_reset sc;
     collapse_vote := collapse_vote sc;
     toggle_logic := toggle_logic sc; retain_ff_enable := x;
     root_en := root_en sc; force_root_en := force_root_en sc;
     no_status_check_on_disable := no_status_check_on_disable sc;
     reset_aon := reset_aon sc; reset_count := reset_count sc;
     root_clk_idx := root_clk_idx sc; gds_timeout := gds_timeout sc;
     skip_disable_before_enable := skip_disable_before_enable sc |}.

Definition with_root_en (x : bool) (sc : gdsc) : gdsc :=
  {| domain_addr := domain_addr sc; hw_ctrl := hw_ctrl sc;
     sw_reset := sw_reset sc; acd_reset := acd_reset sc;
     acd_misc_reset := acd_misc_reset sc;
     collapse_vote := collapse_vote sc;
     toggle_logic := toggle_logic sc;
     retain_ff_enable := retain_ff_enable sc; root_en := x;
     force_root_en := force_root_en sc;
     no_status_check_on_disable := no_status_check_on_disable sc;
     reset_aon := reset_aon sc; reset_count := reset_count sc;
     root_clk_idx := root_clk_idx sc; gds_timeout := gds_timeout sc;
     skip_disable_before_enable := skip_disable_before_enable sc |}.

Definition with_force_root_en (x : bool) (sc : gdsc) : gdsc :=
  {| domain_addr := domain_addr sc; hw_ctrl := hw_ctrl sc;
     sw_reset := sw_reset sc; acd_reset := acd_reset sc;
     acd_misc_reset := acd_misc_reset sc;
     collapse_vote := collapse_vote sc;
     toggle_logic := toggle_logic sc;
     retain_ff_enable := retain_ff_enable sc; root_en := root_en sc;
     force_root_en := x;
     no_status_check_on_disable := no_status_check_on_disable sc;
     reset_aon := reset_aon sc; reset_count := reset_count sc;
     root_clk_idx := root_clk_idx sc; gds_timeout := gds_timeout sc;
     skip_disable_before_enable := skip_disable_before_enable sc |}.

Definition with_no_status_check_on_disable (x : bool) (sc : gdsc) : gdsc :=
  {| domain_addr := domain_addr sc; hw_ctrl := hw_ctrl sc;
     sw_reset := sw_reset sc; acd_reset := acd_reset sc;
     acd_misc_reset := acd_misc_reset sc;
     collapse_vote := collapse_vote sc;
     toggle_logic := toggle_logic sc;
     retain_ff_enable := retain_ff_enable sc; root_en := root_en sc;
     force_root_en := force_root_en sc;
     no_status_check_on_disable := x; reset_aon := reset_aon sc;
     reset_count := reset_count sc; root_clk_idx := root_clk_idx sc;
     gds_timeout := gds_timeout sc;
     skip_disable_before_enable := skip_disable_before_enable sc |}.

Definition with_reset_aon (x : bool) (sc : gdsc) : gdsc :=
  {| domain_addr := domain_addr sc; hw_ctrl := hw_ctrl sc;
     sw_reset := sw_reset sc; acd_reset := acd_reset sc;
     acd_misc_reset := acd_misc_reset sc;
     collapse_vote := collapse_vote sc;
     toggle_logic := toggle_logic sc;
     retain_ff_enable := retain_ff_enable sc; root_en := root_en sc;
     force_root_en := force_root_en sc;
     no_status_check_on_disable := no_status_check_on_disable sc;
     reset_aon := x; reset_count := reset_count sc;
     root_clk_idx := root_clk_idx sc; gds_timeout := gds_timeout sc;
     skip_disable_before_enable := skip_disable_before_enable sc |}.

Definition with_reset_count (x : Z) (sc : gdsc) : gdsc :=
  {| domain_addr := domain_addr sc; hw_ctrl := hw_ctrl sc;
     sw_reset := sw_reset sc; acd_reset := acd_reset sc;
     acd_misc_reset := acd_misc_reset sc;
     collapse_vote := collapse_vote sc;
     toggle_logic := toggle_logic sc;
     retain_ff_enable := retain_ff_enable sc; root_en := root_en sc;
     force_root_en := force_root_en sc;
     no_status_check_on_disable := no_status_check_on_disable sc;
     reset_aon := reset_aon sc; reset_count := x;
     root_clk_idx := root_clk_idx sc; gds_timeout := gds_timeout sc;
     skip_disable_before_enable := skip_disable_before_enable sc |}.

Definition with_root_clk_idx (x : Z) (sc : gdsc) : gdsc :=
  {| domain_addr := domain_addr sc; hw_ctrl := hw_ctrl sc;
     sw_reset := sw_reset sc; acd_reset := acd_reset sc;
     acd_misc_reset := acd_misc_reset sc;
     collapse_vote := collapse_vote sc;
     toggle_logic := toggle_logic sc;
     retain_ff_enable := retain_ff_enable sc; root_en := root_en sc;
     force_root_en := force_root_en sc;
     no_status_check_on_disable := no_status_check_on_disable sc;
     reset_aon := reset_aon sc; reset_count := reset_count sc;
     root_clk_idx := x; gds_timeout := gds_timeout sc;
     skip_disable_before_enable := skip_disable_before_enable sc |}.

Definition with_gds_timeout (x : Z) (sc : gdsc) : gdsc :=
  {| domain_addr := domain_addr sc; hw_ctrl := hw_ctrl sc;
     sw_reset := sw_reset sc; acd_reset := acd_reset sc;
     acd_misc_reset := acd_misc_reset sc;
     collapse_vote := collapse_vote sc;
     toggle_logic := toggle_logic sc;
     retain_ff_enable := retain_ff_enable sc; root_en := root_en sc;
     force_root_en := force_root_en sc;
     no_status_check_on_disable := no_status_check_on_disable sc;
     reset_aon := reset_aon sc; reset_count := reset_count sc;
     root_clk_idx := root_clk_idx sc; gds_timeout := x;
     skip_disable_before_enable := skip_disable_before_enable sc |}.

Definition with_skip_disable_before_enable (x : bool) (sc : gdsc) : gdsc :=
  {| domain_addr := domain_addr sc; hw_ctrl := hw_ctrl sc;
     sw_reset := sw_reset sc; acd_reset := acd_reset sc;
     acd_misc_reset := acd_misc_reset sc;
     collapse_vote := collapse_vote sc;
     toggle_logic := toggle_logic sc;
     retain_ff_enable := retain_ff_enable sc; root_en := root_en sc;
     force_root_en := force_root_en sc;
     no_status_check_on_disable := no_status_check_on_disable sc;
     reset_aon := reset_aon sc; reset_count := reset_count sc;
     root_clk_idx := root_clk_idx sc; gds_timeout := gds_timeout sc;
     skip_disable_before_enable := x |}.

Definition with_cv_regmap (x : bool) (sc : gdsc) : gdsc :=
  with_collapse_vote
    {| cv_regmap := x; vote_bit := vote_bit (collapse_vote sc) |} sc.

Definition with_vote_bit (x : Z) (sc : gdsc) : gdsc :=
  with_collapse_vote
    {| cv_regmap := cv_regmap (collapse_vote sc); vote_bit := x |} sc.

(** [*sc] as [devm_kzalloc] hands it out. *)
Definition zeroed_gdsc : gdsc :=
  {| domain_addr := false; hw_ctrl := false; sw_reset := false;
     acd_reset := false; acd_misc_reset := false;
     collapse_vote := {| cv_regmap := false; vote_bit := 0 |};
     toggle_logic := false; retain_ff_enable := false;
     root_en := false; force_root_en := false;
     no_status_check_on_disable := false; reset_aon := false;
     reset_count := 0; root_clk_idx := 0; gds_timeout := 0;
     skip_disable_before_enable := false |}.

(** What [gdsc_parse_dt_data] and [gdsc_get_resources] work on: the
    configuration fields of [*sc], [sc->clock_count], [*init_data], the
    file-scope [gdsc_regmap_config.max_register], and the messages logged
    so far. *)
Record probing : Type := {
  conf : gdsc;
  clock_count : Z;
  init_data : option regulator_init_data;
  max_register : Z;
  messages : list loglevel
}.

Definition on_conf (f : gdsc -> gdsc) (p : probing) : probing :=
  {| conf := f (conf p); clock_count := clock_count p;
     init_data := init_data p; max_register := max_register p;
     messages := messages p |}.

Definition with_clock_count (x : Z) (p : probing) : probing :=
  {| conf := conf p; clock_count := x;
     init_data := init_data p; max_register := max_register p;
     messages := messages p |}.

Definition with_init_data (x : option regulator_init_data) (p : probing)
  : probing :=
  {| conf := conf p; clock_count := clock_count p;
     init_data := x; max_register := max_register p;
     messages := messages p |}.

Definition with_max_register (x : Z) (p : probing) : probing :=
  {| conf := conf p; clock_count := clock_count p;
     init_data := init_data p; max_register := x;
     messages := messages p |}.

Definition with_messages_cleared (p : probing) : probing :=
  {| conf := conf p; clock_count := clock_count p;
     init_data := init_data p; max_register := max_register p;
     messages := [] |}.

Definition log_err (p : probing) : probing :=
  {| conf := conf p; clock_count := clock_count p;
     init_data := init_data p; max_register := max_register p;
     messages := messages p ++ [Err] |}.

(** The state a probe starts from; [max_register] is what earlier probes
    have left in [gdsc_regmap_config] (0x8 at first). *)
Definition fresh_probing (max_reg : Z) : probing :=
  {| conf := zeroed_gdsc; clock_count := 0; init_data := None;
     max_register := max_reg; messages := [] |}.

(** A function's [return ret;] with the structure as it stands, or the
    structure handed on to the statements that follow. *)
Inductive step : Type :=
| Return (ret : Z) (p : probing)
| Go_on (p : probing).

(** One statement after another. *)
Definition and_then (s : step) (k : probing -> step) : step :=
  match s with
  | Return ret p => Return ret p
  | Go_on p => k p
  end.

(** The end of a function whose last statement is [return 0;]. *)
Definition finish (s : step) : Z * probing :=
  match s with
  | Return ret p => (ret, p)
  | Go_on p => (0, p)
  end.

Declare Scope step_scope.
Delimit Scope step_scope with step.
Notation "s ;;; k" := (and_then s k)
  (at level 62, left associativity) : step_scope.

(** The statements of [gdsc_parse_dt_data], in the order of the source. *)

(* *init_data = of_get_regulator_init_data(dev, dev->of_node, &sc->rdesc);
   if ( *init_data == NULL)
           return -ENOMEM; *)
Definition get_init_data (np : device_node) (p : probing) : step :=
  let p := with_init_data (of_get_regulator_init_data np) p in
  match init_data p with
  | None => Return (- ENOMEM) p
  | Some _ => Go_on p
  end.

(* if (of_get_property(dev->of_node, "parent-supply", NULL))
           ( *init_data)->supply_regulator = "parent"; *)
Definition get_parent_supply (np : device_node) (p : probing) : step :=
  if of_parent_supply np then
    Go_on (with_init_data
             (option_map
                (fun d => {| supply_regulator := Some "parent"%string;
                             valid_ops_mask := valid_ops_mask d;
                             valid_modes_mask := valid_modes_mask d |})
                (init_data p)) p)
  else Go_on p.

(* ret = of_property_read_string(dev->of_node, "regulator-name",
                                 &sc->rdesc.name);
   if (ret)
           return ret; *)
Definition get_regulator_name (np : device_node) (p : probing) : step :=
  let ret := of_regulator_name np in
  if nonzero ret then Return ret p else Go_on p.

(* if (of_find_property(dev->of_node, name, NULL)) {
           sc->field = syscon_regmap_lookup_by_phandle(dev->of_node, name);
           if (IS_ERR(sc->field))
                   return PTR_ERR(sc->field);
   } *)
Definition lookup_regmap (h : phandle) (set : bool -> gdsc -> gdsc)
    (p : probing) : step :=
  if of_find_property h then
    let p := on_conf (set true) p in
    match h with
    | Syscon_err err => Return err p
    | _ => Go_on p
    end
  else Go_on p.

(* sc->gds_timeout = TIMEOUT_US;
   of_property_read_u32(dev->of_node, "qcom,gds-timeout", &sc->gds_timeout); *)
Definition get_gds_timeout (np : device_node) (p : probing) : step :=
  let p := on_conf (with_gds_timeout TIMEOUT_US) p in
  match of_gds_timeout np with
  | Some v => Go_on (on_conf (with_gds_timeout (u32 v)) p)
  | None => Go_on p
  end.

(* sc->clock_count = of_property_count_strings(dev->of_node, "clock-names");
   if (sc->clock_count == -EINVAL) {
           sc->clock_count = 0;
   } else if (sc->clock_count < 0) {
           dev_err(...);
           return sc->clock_count;
   } *)
Definition get_clock_count (np : device_node) (p : probing) : step :=
  let p := with_clock_count (of_clock_names_count np) p in
  if clock_count p =? - EINVAL then Go_on (with_clock_count 0 p)
  else if clock_count p <? 0 then Return (clock_count p) (log_err p)
  else Go_on p.

(* sc->root_en = of_property_read_bool(dev->of_node, "qcom,enable-root-clk");
   ... five more flags of the same kind ... *)
Definition get_flags (np : device_node) (p : probing) : step :=
  let p := on_conf (with_root_en (of_enable_root_clk np)) p in
  let p := on_conf (with_force_root_en (of_force_enable_root_clk np)) p in
  let p := on_conf (with_reset_aon (of_reset_aon_logic np)) p in
  let p := on_conf (with_no_status_check_on_disable
                      (of_no_status_check_on_disable np)) p in
  let p := on_conf (with_retain_ff_enable (of_retain_regs np)) p in
  let p := on_conf (with_skip_disable_before_enable
                      (of_skip_disable_before_sw_enable np)) p in
  Go_on p.

(* if (of_find_property(dev->of_node, "qcom,collapse-vote", NULL)) {
           ret = of_property_count_u32_elems(dev->of_node,
                                             "qcom,collapse-vote");
           if (ret != 2) {
                   dev_err(...);
                   return -EINVAL;
           }
           sc->collapse_vote.regmap =
                   syscon_regmap_lookup_by_phandle(dev->of_node,
                                                   "qcom,collapse-vote");
           if (IS_ERR(sc->collapse_vote.regmap))
                   return PTR_ERR(sc->collapse_vote.regmap);
           ret = of_property_read_u32_index(dev->of_node,
                                            "qcom,collapse-vote", 1,
                                            &sc->collapse_vote.vote_bit);
           if (ret || sc->collapse_vote.vote_bit > 31) {
                   dev_err(...);
                   return ret;
           }
   } *)
Definition get_collapse_vote (np : device_node) (p : probing) : step :=
  if of_find_property (of_collapse_vote np) then
    let ret := of_collapse_vote_elems np in
    if negb (ret =? 2) then Return (- EINVAL) (log_err p)
    else
      let p := on_conf (with_cv_regmap true) p in
      match of_collapse_vote np with
      | Syscon_err err => Return err p
      | _ =>
          let ret := fst (of_collapse_vote_bit np) in
          let p :=
            if ret =? 0 then
              on_conf (with_vote_bit (u32 (snd (of_collapse_vote_bit np)))) p
            else p in
          if nonzero ret || (31 <? vote_bit (collapse_vote (conf p)))
          then Return ret (log_err p)
          else Go_on p
      end
  else Go_on p.

(* sc->toggle_logic = !of_property_read_bool(dev->of_node,
                                             "qcom,skip-logic-collapse");
   if (!sc->toggle_logic) {
           sc->reset_count = of_property_count_strings(dev->of_node,
                                                       "reset-names");
           if (sc->reset_count == -EINVAL) {
                   sc->reset_count = 0;
           } else if (sc->reset_count < 0) {
                   dev_err(...);
                   return sc->reset_count;
           }
   } *)
Definition get_toggle_logic (np : device_node) (p : probing) : step :=
  let p :=
    on_conf (with_toggle_logic (negb (of_skip_logic_collapse np))) p in
  if negb (toggle_logic (conf p)) then
    let p := on_conf (with_reset_count (of_reset_names_count np)) p in
    if reset_count (conf p) =? - EINVAL then
      Go_on (on_conf (with_reset_count 0) p)
    else if reset_count (conf p) <? 0 then
      Return (reset_count (conf p)) (log_err p)
    else Go_on p
  else Go_on p.

(* if (of_find_property(dev->of_node, "qcom,support-hw-trigger", NULL)) {
           ( *init_data)->constraints.valid_ops_mask |= REGULATOR_CHANGE_MODE;
           ( *init_data)->constraints.valid_modes_mask |=
                           REGULATOR_MODE_NORMAL | REGULATOR_MODE_FAST;
   } *)
Definition get_support_hw_trigger (np : device_node) (p : probing) : step :=
  if of_support_hw_trigger np then
    Go_on (with_init_data
             (option_map
                (fun d =>
                   {| supply_regulator := supply_regulator d;
                      valid_ops_mask :=
                        Z.lor (valid_ops_mask d) REGULATOR_CHANGE_MODE;
                      valid_modes_mask :=
                        Z.lor (valid_modes_mask d)
                              (Z.lor REGULATOR_MODE_NORMAL
                                     REGULATOR_MODE_FAST) |})
                (init_data p)) p)
  else Go_on p.

(* static int gdsc_parse_dt_data(struct gdsc *sc, struct device *dev,
                                 struct regulator_init_data **init_data) *)
Definition gdsc_parse_dt_data (np : device_node) (p : probing)
  : Z * probing :=
  finish
    (get_init_data np p
     ;;; get_parent_supply np
     ;;; get_regulator_name np
     ;;; lookup_regmap (of_domain_addr np) with_domain_addr
     ;;; lookup_regmap (of_sw_reset np) with_sw_reset
     ;;; lookup_regmap (of_acd_reset np) with_acd_reset
     ;;; lookup_regmap (of_acd_misc_reset np) with_acd_misc_reset
     ;;; lookup_regmap (of_hw_ctrl_addr np) with_hw_ctrl
     ;;; get_gds_timeout np
     ;;; get_clock_count np
     ;;; get_flags np
     ;;; get_collapse_vote np
     ;;; get_toggle_logic np
     ;;; get_support_hw_trigger np)%step.

(* for (i = 0; i < sc->clock_count; i++) { ... } of gdsc_get_resources;
   [Some ret] when the loop is left by [return ret;] *)
Fixpoint get_clocks (pdev : platform_device) (i : Z) (n : nat) (p : probing)
  : option Z * probing :=
  match n with
  | O => (None, p)
  | S n' =>
      let clock_name := of_clock_names (of_node pdev) i in
      match devm_clk_get pdev clock_name with
      | Some ret =>
          (Some ret, if negb (ret =? - EPROBE_DEFER) then log_err p else p)
      | None =>
          let p :=
            if String.eqb clock_name "core_root_clk" then
              on_conf (with_root_clk_idx i) p
            else p in
          get_clocks pdev (i + 1) n' p
      end
  end.

(* for (i = 0; i < sc->reset_count; i++) { ... } of gdsc_get_resources *)
Fixpoint get_resets (pdev : platform_device) (i : Z) (n : nat) (p : probing)
  : option Z * probing :=
  match n with
  | O => (None, p)
  | S n' =>
      let reset_name := of_reset_names (of_node pdev) i in
      match devm_reset_control_get pdev reset_name with
      | Some ret =>
          (Some ret, if negb (ret =? - EPROBE_DEFER) then log_err p else p)
      | None => get_resets pdev (i + 1) n' p
      end
  end.

(** The statements of [gdsc_get_resources]. *)

(* res = platform_get_resource(pdev, IORESOURCE_MEM, 0);
   if (res == NULL) { dev_err(...); return -EINVAL; }
   sc->gdscr = devm_ioremap(dev, res->start, resource_size(res));
   if (sc->gdscr == NULL) return -ENOMEM;
   if (of_property_read_bool(dev->of_node, "qcom,no-config-gdscr"))
           gdsc_regmap_config.max_register = 0;
   sc->regmap = devm_regmap_init_mmio(dev, sc->gdscr, &gdsc_regmap_config);
   if (!sc->regmap) { dev_err(...); return -EINVAL; } *)
Definition get_regmap (pdev : platform_device) (p : probing) : step :=
  if negb (platform_get_resource pdev) then Return (- EINVAL) (log_err p)
  else if negb (devm_ioremap pdev) then Return (- ENOMEM) p
  else
    let p :=
      if of_no_config_gdscr (of_node pdev) then with_max_register 0 p
      else p in
    if negb (devm_regmap_init_mmio pdev) then Return (- EINVAL) (log_err p)
    else Go_on p.

(* sc->clocks = devm_kcalloc(dev, sc->clock_count, ...);
   if (sc->clock_count && !sc->clocks) return -ENOMEM;
   sc->root_clk_idx = -1;
   for (i = 0; i < sc->clock_count; i++) { ... }
   if ((sc->root_en || sc->force_root_en) && (sc->root_clk_idx == -1)) {
           dev_err(...);
           return -EINVAL;
   } *)
Definition get_clock_handles (pdev : platform_device) (p : probing) : step :=
  if nonzero (clock_count p) && negb (devm_kcalloc pdev (clock_count p))
  then Return (- ENOMEM) p
  else
    let p := on_conf (with_root_clk_idx (-1)) p in
    match get_clocks pdev 0 (Z.to_nat (clock_count p)) p with
    | (Some ret, p) => Return ret p
    | (None, p) =>
        if (root_en (conf p) || force_root_en (conf p))
           && (root_clk_idx (conf p) =? -1)
        then Return (- EINVAL) (log_err p)
        else Go_on p
    end.

(* if (!sc->toggle_logic) {
           sc->reset_clocks = devm_kcalloc(&pdev->dev, sc->reset_count, ...);
           if (sc->reset_count && !sc->reset_clocks) return -ENOMEM;
           for (i = 0; i < sc->reset_count; i++) { ... }
   } *)
Definition get_reset_handles (pdev : platform_device) (p : probing) : step :=
  if negb (toggle_logic (conf p)) then
    if nonzero (reset_count (conf p))
       && negb (devm_kcalloc pdev (reset_count (conf p)))
    then Return (- ENOMEM) p
    else
      match get_resets pdev 0 (Z.to_nat (reset_count (conf p))) p with
      | (Some ret, p) => Return ret p
      | (None, p) => Go_on p
      end
  else Go_on p.

(* static int gdsc_get_resources(struct gdsc *sc,
                                 struct platform_device *pdev) *)
Definition gdsc_get_resources (pdev : platform_device) (p : probing)
  : Z * probing :=
  finish
    (get_regmap pdev p
     ;;; get_clock_handles pdev
     ;;; get_reset_handles pdev)%step.

(** The messages of [gdsc_parse_dt_data] and [gdsc_get_resources], put on
    the trace. *)
Fixpoint log_all (l : list loglevel) : M unit :=
  match l with
  | [] => mret tt
  | lvl :: l' => emit (EvLog lvl);; log_all l'
  end.

(** The structure after [gdsc_parse_dt_data], and after
    [gdsc_get_resources] as well. *)
Definition parsed (pdev : platform_device) (max_reg : Z) : Z * probing :=
  gdsc_parse_dt_data (of_node pdev) (fresh_probing max_reg).

Definition resourced (pdev : platform_device) (max_reg : Z) : Z * probing :=
  gdsc_get_resources pdev
    (with_messages_cleared (snd (parsed pdev max_reg))).

(** The configuration a probe arrives at. *)
Definition probed_gdsc (pdev : platform_device) (max_reg : Z) : gdsc :=
  conf (snd (resourced pdev max_reg)).

Section ProbeDevice.

Variable hw : list event -> regmap -> Z.

(** [gdsc_probe] from the point where [*sc] is filled in: the statements
    that program the hardware, read back the initial state and register
    the regulator.  The fields of the descriptor and of the registration
    request that are set before [devm_regulator_register] have no part in
    what follows and are left out.  The two registration calls stand for
    the values they return: what the regulator core does with [gdsc_ops]
    in the meantime issues no event here. *)
Definition gdsc_probe_sc (pdev : platform_device) (sc : gdsc) : M Z :=
  regval <- regmap_read hw Gdscr;;
  let regval :=
    Z.land regval (Z.lnot (Z.lor HW_CONTROL_MASK SW_OVERRIDE_MASK)) in
  regval <-
    match of_clk_dis_wait_val (of_node pdev) with
    | Some clk_dis_wait_val =>
        let clk_dis_wait_val :=
          u32 (Z.shiftl (u32 clk_dis_wait_val) CLK_DIS_WAIT_SHIFT) in
        (* Configure wait time between states. *)
        let regval := Z.land regval (Z.lnot CLK_DIS_WAIT_MASK) in
        mret (Z.lor regval clk_dis_wait_val)
    | None => mret regval
    end;;
  regmap_write Gdscr regval;;
  (if negb (toggle_logic sc) then
     let regval := Z.land regval (Z.lnot SW_COLLAPSE_MASK) in
     regmap_write Gdscr regval;;
     ret <- poll_gdsc_status hw sc ENABLED;;
     if nonzero ret then
       dev_err;;
       leave ret
     else mret tt
   else mret tt);;
  ret <- gdsc_init_is_enabled hw sc;;
  (if nonzero ret then
     dev_err;;
     leave ret
   else mret tt);;
  ret <- gdsc_init_hw_ctrl_mode hw;;
  (if nonzero ret then
     dev_err;;
     leave ret
   else mret tt);;
  match devm_regulator_register pdev with
  | Some ret =>
      dev_err;;
      leave ret
  | None =>
      let ret := devm_regulator_proxy_consumer_register pdev in
      (if nonzero ret then dev_err else mret tt);;
      leave ret
  end.

(* static int gdsc_probe(struct platform_device *pdev) *)
Definition gdsc_probe (pdev : platform_device) (max_reg : Z) : M Z :=
  block (
    (* sc = devm_kzalloc(dev, sizeof( *sc), GFP_KERNEL): zeroed memory *)
    (if negb (devm_kzalloc pdev) then leave (- ENOMEM) else mret tt);;
    set_state (fun _ => boot_state);;
    (* ret = gdsc_parse_dt_data(sc, dev, &init_data); *)
    log_all (messages (snd (parsed pdev max_reg)));;
    (if nonzero (fst (parsed pdev max_reg)) then
       leave (fst (parsed pdev max_reg))
     else mret tt);;
    (* ret = gdsc_get_resources(sc, pdev); *)
    log_all (messages (snd (resourced pdev max_reg)));;
    (if nonzero (fst (resourced pdev max_reg)) then
       leave (fst (resourced pdev max_reg))
     else mret tt);;
    gdsc_probe_sc pdev (probed_gdsc pdev max_reg)).

End ProbeDevice.

(** ** Vocabulary for the further properties *)

(** The event with which [gdsc_enable] lets go of the collapse request:
    an update of the vote bit to 0 for a voting domain, a write of the
    primary register with bit 0 clear otherwise. *)
Definition releases_collapse (sc : gdsc) (e : event) : Prop :=
  match e with
  | EvUpdateBits Collapse_vote mask val =>
      cv_regmap (collapse_vote sc) = true
      /\ mask = u32 (BIT (vote_bit (collapse_vote sc)))
      /\ Z.land val mask = 0
  | EvWrite Gdscr v =>
      cv_regmap (collapse_vote sc) = false /\ Z.testbit v 0 = false
  | _ => False
  end.

(** The event with which [gdsc_disable] requests the collapse. *)
Definition requests_collapse (sc : gdsc) (e : event) : Prop :=
  match e with
  | EvUpdateBits Collapse_vote mask val =>
      cv_regmap (collapse_vote sc) = true
      /\ mask = u32 (BIT (vote_bit (collapse_vote sc)))
      /\ Z.land val mask = mask
  | EvWrite Gdscr v =>
      cv_regmap (collapse_vote sc) = false /\ Z.testbit v 0 = true
  | _ => False
  end.

(** Any event but a clock vote; the driver state and the parent supply are
    left alone. *)
Definition clk_quiet : frame :=
  {| allow_ev := fun e => is_clk_enable e = false /\ is_clk_disable e = false;
     keep_st := true; keep_supply := true; keep_polls := false |}.

(** The clock events [gdsc_disable] brackets itself with. *)
Definition root_clk_forced (sc : gdsc) : list event :=
  if force_root_en sc then [EvClkEnable (root_clk_idx sc)] else [].

(** The register and the bit [gdsc_init_is_enabled] looks at. *)
Definition collapse_regmap (sc : gdsc) : regmap :=
  if cv_regmap (collapse_vote sc) then Collapse_vote else Gdscr.

Definition collapse_bit (sc : gdsc) : Z :=
  if cv_regmap (collapse_vote sc) then vote_bit (collapse_vote sc) else 0.

(** A write of the primary register, of either kind. *)
Definition writes_gdscr (e : event) : bool :=
  match e with
  | EvWrite Gdscr _ | EvUpdateBits Gdscr _ _ => true
  | _ => false
  end.

(** A write of the primary register with the collapse bit clear. *)
Definition clears_collapse_bit (e : event) : Prop :=
  match e with
  | EvWrite Gdscr v => Z.testbit v 0 = false
  | _ => False
  end.

(** What a statement of the parsing establishes: [Q] of the structure it
    hands on, [R] of the structure it returns 0 with. *)
Definition holds (Q R : probing -> Prop) (s : step) : Prop :=
  match s with
  | Go_on p => Q p
  | Return ret p => ret = 0 -> R p
  end.

Definition vote_bit_in_range (p : probing) : Prop :=
  cv_regmap (collapse_vote (conf p)) = true ->
  0 <= vote_bit (collapse_vote (conf p)) <= 31.

(** The structure before [qcom,collapse-vote] is looked at. *)
Definition parse_early (p : probing) : Prop :=
  0 <= clock_count p
  /\ reset_count (conf p) = 0
  /\ toggle_logic (conf p) = false
  /\ cv_regmap (collapse_vote (conf p)) = false
  /\ vote_bit (collapse_vote (conf p)) = 0.

(** The structure before [qcom,skip-logic-collapse] is looked at. *)
Definition parse_voted (p : probing) : Prop :=
  0 <= clock_count p
  /\ reset_count (conf p) = 0
  /\ toggle_logic (conf p) = false
  /\ vote_bit_in_range p.

(** The structure afterwards. *)
Definition parse_late (p : probing) : Prop :=
  0 <= clock_count p
  /\ 0 <= reset_count (conf p)
  /\ (toggle_logic (conf p) = true -> reset_count (conf p) = 0)
  /\ vote_bit_in_range p.

(** The structure [gdsc_parse_dt_data] returns 0 with. *)
Definition parse_done (p : probing) : Prop :=
  0 <= clock_count p
  /\ 0 <= reset_count (conf p)
  /\ (toggle_logic (conf p) = true -> reset_count (conf p) = 0)
  /\ (cv_regmap (collapse_vote (conf p)) = true ->
      0 <= vote_bit (collapse_vote (conf p)) <= 31
      \/ (31 < vote_bit (collapse_vote (conf p))
          /\ toggle_logic (conf p) = false
          /\ reset_count (conf p) = 0)).

(** [p'] is [p] with nothing but the root clock index and the messages
    changed. *)
Definition same_but_root_clk (p p' : probing) : Prop :=
  conf p' = with_root_clk_idx (root_clk_idx (conf p')) (conf p)
  /\ clock_count p' = clock_count p
  /\ init_data p' = init_data p.

(** The root clock index names a clock of the device called
    "core_root_clk" that [devm_clk_get] has handed out. *)
Definition root_clk_found (pdev : platform_device) (p : probing) : Prop :=
  0 <= root_clk_idx (conf p) < clock_count p
  /\ of_clock_names (of_node pdev) (root_clk_idx (conf p))
     = "core_root_clk"%string
  /\ devm_clk_get pdev "core_root_clk"%string = None.

(** ** Scenarios for the further properties *)

(** A domain marked enabled, with nothing else set. *)
Definition enabled_world : world :=
  {| st := {| resets_asserted := false; is_gdsc_enabled := true;
              is_gdsc_hw_ctrl_mode := false; is_root_clk_voted := false |};
     supply := None; trace := []; polls := O |}.

(** A domain whose status is not checked on disable, and one whose poll
    budget is 0. *)
Definition unchecked_gdsc : gdsc :=
  with_no_status_check_on_disable true plain_gdsc.

Definition no_budget_gdsc : gdsc := with_gds_timeout 0 plain_gdsc.

(** A device tree node with a name and init data, a collapse vote as
    given, [qcom,skip-logic-collapse] and [qcom,enable-root-clk] as given,
    and [n] clocks of which the first is the root clock. *)
Definition simple_node (vote : phandle) (bit : Z) (skip_logic root : bool)
    (n : Z) : device_node :=
  {| of_get_regulator_init_data :=
       Some {| supply_regulator := None; valid_ops_mask := 0;
               valid_modes_mask := 0 |};
     of_parent_supply := false;
     of_regulator_name := 0;
     of_domain_addr := No_property;
     of_sw_reset := No_property;
     of_acd_reset := No_property;
     of_acd_misc_reset := No_property;
     of_hw_ctrl_addr := No_property;
     of_gds_timeout := None;
     of_clock_names_count := n;
     of_clock_names :=
       (fun i => if i =? 0 then "core_root_clk"%string
                 else "iface_clk"%string);
     of_enable_root_clk := root;
     of_force_enable_root_clk := false;
     of_reset_aon_logic := false;
     of_no_status_check_on_disable := false;
     of_retain_regs := false;
     of_skip_disable_before_sw_enable := false;
     of_collapse_vote := vote;
     of_collapse_vote_elems := 2;
     of_collapse_vote_bit := (0, bit);
     of_skip_logic_collapse := skip_logic;
     of_reset_names_count := - EINVAL;
     of_reset_names := (fun _ => "core_reset"%string);
     of_support_hw_trigger := false;
     of_no_config_gdscr := false;
     of_clk_dis_wait_val := None |}.

(** A platform device on which every allocation and every lookup
    succeeds. *)
Definition simple_pdev (np : device_node) : platform_device :=
  {| of_node := np;
     devm_kzalloc := true;
     platform_get_resource := true;
     devm_ioremap := true;
     devm_regmap_init_mmio := true;
     devm_kcalloc := fun _ => true;
     devm_clk_get := fun _ => None;
     devm_reset_control_get := fun _ => None;
     devm_regulator_register := None;
     devm_regulator_proxy_consumer_register := 0 |}.

(** A register-toggled device without clocks, a reset-controlled one, one
    that votes with bit 40, and one with two clocks that uses the root
    clock. *)
Definition plain_pdev : platform_device :=
  simple_pdev (simple_node No_property 0 false false (- EINVAL)).

Definition reset_pdev : platform_device :=
  simple_pdev (simple_node No_property 0 true false (- EINVAL)).

Definition vote40_node : device_node :=
  simple_node Syscon 40 false false (- EINVAL).

Definition root_clk_pdev : platform_device :=
  simple_pdev (simple_node No_property 0 false true 2).

(** A power switch that follows the collapse bit of the primary register
    at once. *)
Definition follows_collapse (init : reg_file) : list event -> bool :=
  fun tr => negb (Z.testbit (fold_left reg_apply tr init Gdscr) 0).

(** Any event but a write of the primary register; nothing else
    changes. *)
Definition gdscr_quiet : frame :=
  {| allow_ev := fun e => writes_gdscr e = false;
     keep_st := true; keep_supply := true; keep_polls := true |}.

(** What [gdsc_get_resources] leaves of a structure [p] when it returns
    0: the configuration changed in the root clock index only, and that
    index found among the clocks when the domain uses the root clock. *)
Definition resources_done (pdev : platform_device) (p p' : probing) : Prop :=
  conf p' = with_root_clk_idx (root_clk_idx (conf p')) (conf p)
  /\ clock_count p' = clock_count p
  /\ (root_en (conf p) || force_root_en (conf p) = true ->
      root_clk_found pdev p').

(** The structure before the clocks are looked up. *)
Definition resources_early (p p' : probing) : Prop :=
  conf p' = conf p /\ clock_count p' = clock_count p.

(** * Proofs *)

(** ** Bits *)

Lemma testbit_BIT (n i : Z) :
  0 <= n -> Z.testbit (BIT n) i = (i =? n).
Proof.
  intros Hn. unfold BIT. rewrite Z.shiftl_1_l.
  destruct (Z.eqb_spec i n) as [->|Hne].
  - now apply Z.pow2_bits_true.
  - now apply Z.pow2_bits_false.
Qed.

Lemma nonzero_land_BIT (x n : Z) :
  0 <= n -> nonzero (Z.land x (BIT n)) = Z.testbit x n.
Proof.
  intros Hn. unfold nonzero.
  destruct (Z.testbit x n) eqn:Hx.
  - destruct (Z.eqb_spec (Z.land x (BIT n)) 0) as [H0|]; [|reflexivity].
    assert (Hb : Z.testbit (Z.land x (BIT n)) n = true).
    { rewrite Z.land_spec, Hx, testbit_BIT, Z.eqb_refl by assumption.
      reflexivity. }
    rewrite H0, Z.bits_0 in Hb. discriminate.
  - replace (Z.land x (BIT n)) with 0; [reflexivity|].
    symmetry. apply Z.bits_inj'. intros i _.
    rewrite Z.land_spec, Z.bits_0, testbit_BIT by assumption.
    destruct (Z.eqb_spec i n) as [->|_].
    + now rewrite Hx.
    + apply andb_false_r.
Qed.

Lemma testbit_u32 (x i : Z) :
  0 <= i < 32 -> Z.testbit (u32 x) i = Z.testbit x i.
Proof.
  intros Hi. unfold u32. apply Z.mod_pow2_bits_low. lia.
Qed.

Lemma testbit_set_BIT (x n i : Z) :
  0 <= n -> Z.testbit (Z.lor x (BIT n)) i = Z.testbit x i || (i =? n).
Proof.
  intros Hn. now rewrite Z.lor_spec, testbit_BIT.
Qed.

Lemma testbit_clear_BIT (x n i : Z) :
  0 <= n -> 0 <= i ->
  Z.testbit (Z.land x (Z.lnot (BIT n))) i = Z.testbit x i && negb (i =? n).
Proof.
  intros Hn Hi.
  now rewrite Z.land_spec, Z.lnot_spec, testbit_BIT.
Qed.

Lemma since_app (w w' : world) (l : list event) :
  trace w' = trace w ++ l -> since w w' = l.
Proof.
  unfold since. intros ->.
  rewrite skipn_app, skipn_all, Nat.sub_diag. reflexivity.
Qed.

(** ** Frames *)

Lemma within_refl F w : within F w w.
Proof.
  repeat split; auto. exists []. split; [now rewrite app_nil_r | constructor].
Qed.

Lemma within_trans F w1 w2 w3 :
  within F w1 w2 -> within F w2 w3 -> within F w1 w3.
Proof.
  intros [[n1 [E1 A1]] [S1 [P1 C1]]] [[n2 [E2 A2]] [S2 [P2 C2]]].
  repeat split.
  - exists (n1 ++ n2). split.
    + now rewrite E2, E1, app_assoc.
    + apply Forall_app; auto.
  - intros H. now rewrite S2, S1.
  - intros H. now rewrite P2, P1.
  - intros H. now rewrite C2, C1.
Qed.

Lemma spec_mret {A} F Pe (a : A) : spec F Pe (mret a).
Proof. intros w. split; [apply within_refl | discriminate]. Qed.

Lemma spec_leave {A} F (Pe : Z -> Prop) (r : Z) :
  Pe r -> spec F Pe (@leave A r).
Proof.
  intros H w. split; [apply within_refl|].
  cbn. intros r' [= <-]. exact H.
Qed.

Lemma spec_mbind {A B} F Pe (m : M A) (f : A -> M B) :
  spec F Pe m -> (forall a, spec F Pe (f a)) -> spec F Pe (mbind m f).
Proof.
  intros Hm Hf w. unfold mbind.
  destruct (Hm w) as [Hw He].
  destruct (m w) as [[a|r] w1]; cbn in *.
  - destruct (Hf a w1) as [Hw1 He1]. split.
    + eapply within_trans; eassumption.
    + exact He1.
  - split; [exact Hw|]. intros r' [= <-]. now apply He.
Qed.

(** A block never exits, whatever its body exits with. *)
Lemma spec_block F Pe (Pe' : Z -> Prop) (m : M Z) :
  spec F Pe' m -> spec F Pe (block m).
Proof.
  intros Hm w. unfold block.
  destruct (Hm w) as [Hw _].
  destruct (m w) as [[a|r] w1]; cbn in *; split; auto; discriminate.
Qed.

Lemma spec_emit F Pe (e : event) : allow_ev F e -> spec F Pe (emit e).
Proof.
  intros He w. split; [|discriminate].
  repeat split; auto. exists [e]. split; [reflexivity|].
  now constructor.
Qed.

Lemma spec_get_state F Pe : spec F Pe get_state.
Proof. intros w. split; [apply within_refl | discriminate]. Qed.

Lemma spec_get_supply F Pe : spec F Pe get_supply.
Proof. intros w. split; [apply within_refl | discriminate]. Qed.

Lemma spec_set_state F Pe f : keep_st F = false -> spec F Pe (set_state f).
Proof.
  intros Hk w. split; [|discriminate].
  repeat split; cbn; auto.
  - exists []. split; [now rewrite app_nil_r | constructor].
  - rewrite Hk. discriminate.
Qed.

Lemma spec_set_supply F Pe f :
  keep_supply F = false -> spec F Pe (set_supply f).
Proof.
  intros Hk w. split; [|discriminate].
  repeat split; cbn; auto.
  - exists []. split; [now rewrite app_nil_r | constructor].
  - rewrite Hk. discriminate.
Qed.

Lemma spec_count_poll F Pe : keep_polls F = false -> spec F Pe count_poll.
Proof.
  intros Hk w. split; [|discriminate].
  repeat split; cbn; auto.
  - exists []. split; [now rewrite app_nil_r | constructor].
  - rewrite Hk. discriminate.
Qed.

Section Rules.

Variable hw : list event -> regmap -> Z.
Variable F : frame.

Lemma spec_regmap_read Pe (r : regmap) :
  (forall v, allow_ev F (EvRead r v)) -> spec F Pe (regmap_read hw r).
Proof.
  intros He w. split; [|discriminate].
  repeat split; auto. eexists. split; [reflexivity|].
  constructor; [apply He | constructor].
Qed.

Lemma spec_gdsc_mb Pe :
  (forall v, allow_ev F (EvRead Gdscr v)) -> spec F Pe (gdsc_mb hw).
Proof.
  intros He. unfold gdsc_mb.
  apply spec_mbind; [now apply spec_regmap_read | intros v; apply spec_mret].
Qed.

Lemma spec_poll_loop (Pe : Z -> Prop) (r : regmap) status (n : nat) :
  (forall v, allow_ev F (EvRead r v)) -> allow_ev F (EvDelay 1) ->
  keep_polls F = false -> Pe 0 ->
  spec F Pe (poll_loop hw r status n).
Proof.
  intros Hr Hd Hk H0. induction n as [|n IH]; cbn [poll_loop].
  - apply spec_mret.
  - apply spec_mbind; [now apply spec_count_poll | intros _].
    apply spec_mbind; [now apply spec_regmap_read | intros v].
    apply spec_mbind.
    + destruct status;
        match goal with |- spec _ _ (if ?b then _ else _) => destruct b end;
        first [now apply spec_leave | apply spec_mret].
    + intros _. apply spec_mbind; [now apply spec_emit | intros _; exact IH].
Qed.

Lemma spec_poll_gdsc_status Pe (sc : gdsc) status :
  (forall v, allow_ev F (EvRead (status_regmap sc) v)) ->
  allow_ev F (EvDelay 1) -> keep_polls F = false ->
  spec F Pe (poll_gdsc_status hw sc status).
Proof.
  intros Hr Hd Hk. unfold poll_gdsc_status.
  apply spec_block with (Pe' := fun _ => True).
  apply spec_mbind; [|intros _; now apply spec_leave].
  apply spec_poll_loop; auto.
Qed.

Lemma spec_deassert_from Pe (i : Z) (n : nat) :
  (forall j, allow_ev F (EvResetDeassert j)) ->
  spec F Pe (deassert_from i n).
Proof.
  intros He. revert i. induction n as [|n IH]; intros i; cbn.
  - apply spec_mret.
  - apply spec_mbind; [now apply spec_emit | intros _; apply IH].
Qed.

Lemma spec_assert_from Pe (i : Z) (n : nat) :
  (forall j, allow_ev F (EvResetAssert j)) ->
  spec F Pe (assert_from i n).
Proof.
  intros He. revert i. induction n as [|n IH]; intros i; cbn.
  - apply spec_mret.
  - apply spec_mbind; [now apply spec_emit | intros _; apply IH].
Qed.

End Rules.

(** Walks a program and applies the rule of each construct; [side] closes
    what the frame asks of the events and the exit values. *)
Ltac spec_walk side :=
  cbv beta zeta;
  lazymatch goal with
  | |- spec _ _ (mbind _ _) =>
      apply spec_mbind; [spec_walk side | intros ?; spec_walk side]
  | |- spec _ _ (mret _) => apply spec_mret
  | |- spec _ _ (leave _) => apply spec_leave; side
  | |- spec _ _ (if ?b then _ else _) =>
      let E := fresh "E" in destruct b eqn:E; spec_walk side
  | |- spec _ _ (match ?x with Some _ => _ | None => _ end) =>
      destruct x; spec_walk side
  | |- spec _ _ (emit _) => apply spec_emit; side
  | |- spec _ _ get_state => apply spec_get_state
  | |- spec _ _ get_supply => apply spec_get_supply
  | |- spec _ _ (set_state _) => apply spec_set_state; side
  | |- spec _ _ (set_supply _) => apply spec_set_supply; side
  | |- spec _ _ count_poll => apply spec_count_poll; side
  | |- spec _ _ (regmap_read _ _) => apply spec_regmap_read; intros; side
  | |- spec _ _ (gdsc_mb _) => apply spec_gdsc_mb; intros; side
  | |- spec _ _ (poll_gdsc_status _ _ _) =>
      apply spec_poll_gdsc_status; intros; side
  | |- spec _ _ (deassert_from _ _) => apply spec_deassert_from; intros; side
  | |- spec _ _ (assert_from _ _) => apply spec_assert_from; intros; side
  | |- spec _ _ (block _) =>
      apply spec_block with (Pe' := fun _ => True); spec_walk side
  | |- spec _ _ ?m =>
      let h := head_of m in unfold h; spec_walk side
  end
with head_of m :=
  lazymatch m with
  | ?f _ _ _ => f
  | ?f _ _ => f
  | ?f _ => f
  | ?f => f
  end.

(** ** Running a program step by step *)

Lemma call_block m w : call (block m) w = call m w.
Proof. unfold call, block. now destruct (m w) as [[a|r] w1]. Qed.

Lemma skipn_exact {A} (l x : list A) : skipn (length l) (l ++ x) = x.
Proof. now rewrite skipn_app, skipn_all, Nat.sub_diag. Qed.

(** Facts about the rest of a program, for when only its frame matters. *)

Lemma call_within F Pe (m : M Z) w :
  spec F Pe m -> within F w (snd (call m w)).
Proof.
  intros Hm. destruct (Hm w) as [Hw _]. unfold call.
  now destruct (m w) as [[a|r] w1].
Qed.

Lemma call_issued F Pe (m : M Z) w :
  spec F Pe m -> Forall (allow_ev F) (issued m w).
Proof.
  intros Hm. destruct (call_within F Pe m w Hm) as [[new [Ht Hall]] _].
  unfold issued, after. now rewrite (since_app _ _ _ Ht).
Qed.

Lemma nonzero_true r : nonzero r = true -> r <> 0.
Proof. unfold nonzero. now destruct (Z.eqb_spec r 0). Qed.

(** The two loops over the reset lines. *)

Lemma deassert_from_run (n : nat) : forall i w,
  deassert_from i n w
  = (Next tt, {| st := st w; supply := supply w;
                 trace := trace w
                          ++ map (fun j => EvResetDeassert (i + Z.of_nat j))
                                 (seq 0 n);
                 polls := polls w |}).
Proof.
  induction n as [|n IH]; intros i w.
  - cbn. rewrite app_nil_r. now destruct w.
  - cbn [deassert_from]. unfold mbind, reset_control_deassert, emit.
    rewrite IH. cbn [st supply trace polls seq map].
    rewrite <- app_assoc, <- seq_shift, map_map. cbn [app].
    rewrite Z.add_0_r. do 4 f_equal.
    apply map_ext. intros j. f_equal. lia.
Qed.

Lemma assert_from_run (n : nat) : forall i w,
  assert_from i n w
  = (Next tt, {| st := st w; supply := supply w;
                 trace := trace w
                          ++ map (fun j => EvResetAssert (i - Z.of_nat j))
                                 (seq 0 n);
                 polls := polls w |}).
Proof.
  induction n as [|n IH]; intros i w.
  - cbn. rewrite app_nil_r. now destruct w.
  - cbn [assert_from]. unfold mbind, reset_control_assert, emit.
    rewrite IH. cbn [st supply trace polls seq map].
    rewrite <- app_assoc, <- seq_shift, map_map. cbn [app].
    rewrite Z.sub_0_r. do 4 f_equal.
    apply map_ext. intros j. f_equal. lia.
Qed.

Lemma deassert_lines (sc : gdsc) :
  map (fun j => EvResetDeassert (0 + Z.of_nat j))
      (seq 0 (Z.to_nat (reset_count sc)))
  = map EvResetDeassert (reset_lines sc).
Proof. unfold reset_lines. now rewrite map_map. Qed.

Lemma rev_seq_sub (n : nat) :
  rev (map Z.of_nat (seq 0 n))
  = map (fun j => Z.of_nat n - 1 - Z.of_nat j) (seq 0 n).
Proof.
  induction n as [|n IH].
  - reflexivity.
  - rewrite seq_S at 1. rewrite map_app, rev_app_distr. cbn [map rev app seq].
    rewrite IH, <- seq_shift, map_map. f_equal; [lia|].
    apply map_ext. intros j. lia.
Qed.

Lemma assert_lines (sc : gdsc) :
  map (fun j => EvResetAssert (reset_count sc - 1 - Z.of_nat j))
      (seq 0 (Z.to_nat (reset_count sc)))
  = map EvResetAssert (rev (reset_lines sc)).
Proof.
  unfold reset_lines. rewrite rev_seq_sub, map_map.
  destruct (Z.to_nat (reset_count sc)) as [|n] eqn:E; [reflexivity|].
  rewrite <- E. apply map_ext. intros j. f_equal. lia.
Qed.


(** Steps on the program at the head of a goal [call p w = res -> G].
    Primitive statements are run by conversion; these are the steps that
    are not conversions. *)

Section Head.

Variable res : Z * world.
Variable G : Prop.

Lemma head_block m w :
  (call m w = res -> G) -> call (block m) w = res -> G.
Proof. now rewrite call_block. Qed.

Lemma head_assoc {A B} (m : M A) (g : A -> M B) (f : B -> M Z) w :
  (call (mbind m (fun a => mbind (g a) f)) w = res -> G) ->
  call (mbind (mbind m g) f) w = res -> G.
Proof.
  intros H E. apply H. rewrite <- E. unfold call, mbind.
  destruct (m w) as [[a|r] w1]; [|reflexivity].
  now destruct (g a w1) as [[b|r] w2].
Qed.

Lemma head_bind_block m (f : Z -> M Z) w :
  (forall r1 w1, call m w = (r1, w1) -> call (f r1) w1 = res -> G) ->
  call (mbind (block m) f) w = res -> G.
Proof.
  intros H E. apply (H (fst (call m w)) (snd (call m w))).
  - now destruct (call m w).
  - rewrite <- E. unfold call, mbind, block.
    now destruct (m w) as [[a|r] w1].
Qed.

Lemma head_bind_deassert i n (f : unit -> M Z) s sup tr k :
  (call (f tt)
        {| st := s; supply := sup;
           trace := tr ++ map (fun j => EvResetDeassert (i + Z.of_nat j))
                              (seq 0 n);
           polls := k |} = res -> G) ->
  call (mbind (deassert_from i n) f)
       {| st := s; supply := sup; trace := tr; polls := k |} = res -> G.
Proof. unfold call, mbind. now rewrite deassert_from_run. Qed.

Lemma head_bind_assert i n (f : unit -> M Z) s sup tr k :
  (call (f tt)
        {| st := s; supply := sup;
           trace := tr ++ map (fun j => EvResetAssert (i - Z.of_nat j))
                              (seq 0 n);
           polls := k |} = res -> G) ->
  call (mbind (assert_from i n) f)
       {| st := s; supply := sup; trace := tr; polls := k |} = res -> G.
Proof. unfold call, mbind. now rewrite assert_from_run. Qed.

(** Skipping a statement of which only the frame is kept. *)
Lemma head_frame {A} F Pe (m : M A) (f : A -> M Z) s sup tr k :
  spec F Pe m ->
  (forall a s1 sup1 new k1,
      Forall (allow_ev F) new ->
      (keep_st F = true -> s1 = s) ->
      (keep_supply F = true -> sup1 = sup) ->
      (keep_polls F = true -> k1 = k) ->
      call (f a) {| st := s1; supply := sup1; trace := tr ++ new;
                    polls := k1 |} = res -> G) ->
  (forall r s1 sup1 new k1,
      Pe r ->
      Forall (allow_ev F) new ->
      (keep_st F = true -> s1 = s) ->
      (keep_supply F = true -> sup1 = sup) ->
      (keep_polls F = true -> k1 = k) ->
      (r, {| st := s1; supply := sup1; trace := tr ++ new;
             polls := k1 |}) = res -> G) ->
  call (mbind m f) {| st := s; supply := sup; trace := tr; polls := k |}
  = res -> G.
Proof.
  intros Hm Hn Hx.
  destruct (Hm {| st := s; supply := sup; trace := tr; polls := k |})
    as [[[new [Ht Hall]] [Hs [Hp Hk]]] He].
  unfold call, mbind.
  destruct (m {| st := s; supply := sup; trace := tr; polls := k |})
    as [[a|r] [s1 sup1 tr1 k1]]; cbn in *; subst tr1.
  - apply Hn; auto.
  - apply Hx; auto.
Qed.

(** Skipping the whole rest of a call. *)
Lemma head_frame_call F Pe (m : M Z) s sup tr k :
  spec F Pe m ->
  (forall r s1 sup1 new k1,
      Forall (allow_ev F) new ->
      (keep_st F = true -> s1 = s) ->
      (keep_supply F = true -> sup1 = sup) ->
      (keep_polls F = true -> k1 = k) ->
      (r, {| st := s1; supply := sup1; trace := tr ++ new;
             polls := k1 |}) = res -> G) ->
  call m {| st := s; supply := sup; trace := tr; polls := k |} = res -> G.
Proof.
  intros Hm Hx.
  destruct (Hm {| st := s; supply := sup; trace := tr; polls := k |})
    as [[[new [Ht Hall]] [Hs [Hp Hk]]] _].
  unfold call.
  destruct (m {| st := s; supply := sup; trace := tr; polls := k |})
    as [[a|r] [s1 sup1 tr1 k1]]; cbn in *; subst tr1; apply Hx; auto.
Qed.

End Head.

(** Projections of a world that is written out. *)
Ltac wproj t :=
  eval cbn [st supply trace polls option_map resets_asserted is_gdsc_enabled
            is_gdsc_hw_ctrl_mode is_root_clk_voted parent_enabled lock_depth
            negb andb orb fst snd] in t.

Ltac run_bind m f w res G :=
  lazymatch m with
  | mret ?a =>
      let k := eval cbv beta in (f a) in change (call k w = res -> G)
  | leave ?r => change ((r, w) = res -> G)
  | mbind _ _ => refine (head_assoc res G _ _ _ _ _)
  | emit ?e =>
      let s := wproj (st w) in
      let sup := wproj (supply w) in
      let tr := wproj (trace w) in
      let n := wproj (polls w) in
      let k := eval cbv beta in (f tt) in
      change (call k {| st := s; supply := sup; trace := tr ++ [e];
                        polls := n |} = res -> G)
  | get_state =>
      let s := wproj (st w) in
      let k := eval cbv beta in (f s) in
      change (call k w = res -> G)
  | set_state ?g =>
      let s := wproj (g (st w)) in
      let sup := wproj (supply w) in
      let tr := wproj (trace w) in
      let n := wproj (polls w) in
      let k := eval cbv beta in (f tt) in
      change (call k {| st := s; supply := sup; trace := tr;
                        polls := n |} = res -> G)
  | get_supply =>
      let sup := wproj (supply w) in
      let k := eval cbv beta in (f sup) in
      change (call k w = res -> G)
  | set_supply ?g =>
      let s := wproj (st w) in
      let sup := wproj (option_map g (supply w)) in
      let tr := wproj (trace w) in
      let n := wproj (polls w) in
      let k := eval cbv beta in (f tt) in
      change (call k {| st := s; supply := sup; trace := tr;
                        polls := n |} = res -> G)
  | regmap_read ?hw ?r =>
      let s := wproj (st w) in
      let sup := wproj (supply w) in
      let tr := wproj (trace w) in
      let n := wproj (polls w) in
      let k := eval cbv beta in (f (u32 (hw tr r))) in
      change (call k {| st := s; supply := sup;
                        trace := tr ++ [EvRead r (u32 (hw tr r))];
                        polls := n |} = res -> G)
  | block _ => refine (head_bind_block res G _ _ _ _); intros ? ?
  | deassert_from _ _ =>
      refine (head_bind_deassert res G _ _ _ _ _ _ _ _); cbv beta
  | assert_from _ _ =>
      refine (head_bind_assert res G _ _ _ _ _ _ _ _); cbv beta
  | (if ?c then ?A else ?B) =>
      let c' := wproj c in
      lazymatch c' with
      | true => change (call (mbind A f) w = res -> G)
      | Some _ => change (call (mbind A f) w = res -> G)
      | false => change (call (mbind B f) w = res -> G)
      | None => change (call (mbind B f) w = res -> G)
      end
  end.

Ltac run1 :=
  lazymatch goal with
  | |- (?r, ?W) = (?r1, ?w1) -> _ =>
      let E1 := fresh "E" in
      let E2 := fresh "E" in
      let E := fresh "E" in
      intros E; injection E as E1 E2; subst r1 w1; cbv beta
  | |- call ?p ?w = ?res -> ?G =>
      lazymatch p with
      | mret ?a => change ((a, w) = res -> G)
      | leave ?r => change ((r, w) = res -> G)
      | block _ => refine (head_block res G _ _ _)
      | mbind ?m ?f => run_bind m f w res G
      | (if ?c then ?A else ?B) =>
          let c' := wproj c in
          lazymatch c' with
          | true => change (call A w = res -> G)
          | Some _ => change (call A w = res -> G)
          | false => change (call B w = res -> G)
          | None => change (call B w = res -> G)
          end
      end
  end.

Ltac tidy :=
  cbn [st supply trace polls option_map resets_asserted is_gdsc_enabled
       is_gdsc_hw_ctrl_mode is_root_clk_voted parent_enabled lock_depth
       fst snd].

(** Runs the program at the head of the goal as far as it is determined. *)
Ltac run := repeat run1; tidy.

(** Case analysis on the condition the program at the head is waiting
    for. *)
Ltac split_head :=
  lazymatch goal with
  | |- call (mbind (if ?c then _ else _) _) _ = _ -> _ => destruct c eqn:?
  | |- call (if ?c then _ else _) _ = _ -> _ => destruct c eqn:?
  end.

(** Runs to the end, splitting on every condition met. *)
Ltac run_out := run; repeat (split_head; run).

(** Puts [call m w] at the head of the goal. *)
Ltac enter m :=
  unfold issued, result, after in *;
  lazymatch goal with
  | |- context [call m ?w] =>
      let res := fresh "res" in
      let E := fresh "E" in
      remember (call m w) as res eqn:E; symmetry in E; revert E
  end.

(** Writes the named primitives out. *)
Ltac prims :=
  unfold set_resets_asserted, set_is_gdsc_enabled, set_is_gdsc_hw_ctrl_mode,
    set_is_root_clk_voted, udelay, clk_prepare_enable, clk_disable_unprepare,
    reset_control_deassert, reset_control_assert, dev_warn, dev_err,
    regulator_lock, regulator_unlock, regulator_is_enabled, regmap_write,
    regmap_update_bits, gdsc_mb.

(** Closes the run: the result is now written out. *)
Ltac leave_call :=
  lazymatch goal with
  | |- (_, _) = ?res -> _ =>
      let E := fresh "E" in
      intros E; subst res;
      cbn [fst snd st supply trace polls resets_asserted is_gdsc_enabled
           is_gdsc_hw_ctrl_mode is_root_clk_voted parent_enabled lock_depth]
  end.

Ltac side_easy :=
  first [ exact I | reflexivity | assumption
        | apply nonzero_true; assumption | discriminate ].

(** Skips the statement at the head, of which [F] and [Pe] are kept. *)
Ltac keep_or_drop H x :=
  first [ specialize (H eq_refl); subst x | clear H ].

Ltac framed F Pe :=
  let a := fresh "a" in
  let s1 := fresh "s" in
  let sup1 := fresh "sup" in
  let new := fresh "new" in
  let k1 := fresh "k" in
  let Hall := fresh "Hall" in
  let Hs := fresh "Hs" in
  let Hp := fresh "Hp" in
  let Hk := fresh "Hk" in
  let Hr := fresh "Hr" in
  lazymatch goal with
  | |- _ = ?res -> ?G => refine (head_frame res G F Pe _ _ _ _ _ _ _ _ _)
  end;
  [ spec_walk side_easy
  | intros a s1 sup1 new k1 Hall Hs Hp Hk; cbv beta
  | intros a s1 sup1 new k1 Hr Hall Hs Hp Hk; cbv beta in Hr ];
  [ .. | keep_or_drop Hs s1; keep_or_drop Hp sup1; keep_or_drop Hk k1
       | keep_or_drop Hs s1; keep_or_drop Hp sup1; keep_or_drop Hk k1 ].

(** Skips the whole rest of the call at the head. *)
Ltac framed_call F :=
  let r := fresh "r" in
  let s1 := fresh "s" in
  let sup1 := fresh "sup" in
  let new := fresh "new" in
  let k1 := fresh "k" in
  let Hall := fresh "Hall" in
  let Hs := fresh "Hs" in
  let Hp := fresh "Hp" in
  let Hk := fresh "Hk" in
  lazymatch goal with
  | |- _ = ?res -> ?G =>
      refine (head_frame_call res G F (fun _ => True) _ _ _ _ _ _ _)
  end;
  [ spec_walk side_easy
  | intros r s1 sup1 new k1 Hall Hs Hp Hk;
    keep_or_drop Hs s1; keep_or_drop Hp sup1; keep_or_drop Hk k1 ].


(** Writes the events issued since a written-out world as one list. *)
Ltac app_norm := repeat first [rewrite <- app_assoc | progress (cbn [app])].

Ltac trace_norm :=
  unfold since; cbn [trace]; app_norm;
  rewrite ?skipn_exact, ?skipn_all.

Section Poll.

Variable hw : list event -> regmap -> Z.

Lemma sample_matches_enabled v :
  nonzero (Z.land v PWR_ON_MASK) = sample_matches ENABLED v.
Proof. unfold PWR_ON_MASK. now rewrite nonzero_land_BIT by lia. Qed.

Lemma sample_matches_disabled v :
  negb (nonzero (Z.land v PWR_ON_MASK)) = sample_matches DISABLED v.
Proof. unfold PWR_ON_MASK. now rewrite nonzero_land_BIT by lia. Qed.

(** What one run of the loop of [poll_gdsc_status] does. *)
Lemma poll_loop_run (r : regmap) (status : gdscr_status) (n : nat) :
  forall w,
    st (snd (poll_loop hw r status n w)) = st w
    /\ supply (snd (poll_loop hw r status n w)) = supply w
    /\ exists vs,
        Forall (fun v => sample_matches status v = false) vs
        /\ ((fst (poll_loop hw r status n w) = Next tt
             /\ trace (snd (poll_loop hw r status n w))
                = trace w ++ failed_samples r vs
             /\ genuine hw (trace w) (failed_samples r vs)
             /\ length vs = n
             /\ polls (snd (poll_loop hw r status n w)) = (polls w + n)%nat)
            \/ (exists v,
                 fst (poll_loop hw r status n w) = Exit 0
                 /\ trace (snd (poll_loop hw r status n w))
                    = trace w ++ failed_samples r vs ++ [EvRead r v]
                 /\ genuine hw (trace w) (failed_samples r vs ++ [EvRead r v])
                 /\ sample_matches status v = true
                 /\ (length vs < n)%nat
                 /\ polls (snd (poll_loop hw r status n w))
                    = (polls w + length vs + 1)%nat)).
Proof.
  induction n as [|n IH]; intros w.
  - cbn. repeat split. exists []. split; [constructor|]. left.
    cbn. rewrite app_nil_r. repeat split; auto.
  - cbn [poll_loop].
    set (v := u32 (hw (trace w) r)).
    set (w1 := {| st := st w; supply := supply w;
                  trace := trace w ++ [EvRead r v]; polls := S (polls w) |}).
    set (w2 := {| st := st w; supply := supply w;
                  trace := (trace w ++ [EvRead r v]) ++ [EvDelay 1];
                  polls := S (polls w) |}).
    destruct (sample_matches status v) eqn:Hv.
    + assert (E : (count_poll;;
                   val <- regmap_read hw r;;
                   match status with
                   | ENABLED =>
                       if nonzero (Z.land val PWR_ON_MASK) then leave 0
                       else mret tt
                   | DISABLED =>
                       if negb (nonzero (Z.land val PWR_ON_MASK))
                       then leave 0 else mret tt
                   end;; udelay 1;; poll_loop hw r status n) w
                  = (Exit 0, w1)).
      { unfold mbind, count_poll, regmap_read. cbn [trace st supply polls].
        fold v. destruct status.
        - now rewrite sample_matches_enabled, Hv.
        - now rewrite sample_matches_disabled, Hv. }
      rewrite E. cbn [fst snd w1 st supply trace polls].
      repeat split. exists []. split; [constructor|]. right. exists v.
      cbn [failed_samples flat_map app length genuine].
      repeat split; auto; lia.
    + assert (E : (count_poll;;
                   val <- regmap_read hw r;;
                   match status with
                   | ENABLED =>
                       if nonzero (Z.land val PWR_ON_MASK) then leave 0
                       else mret tt
                   | DISABLED =>
                       if negb (nonzero (Z.land val PWR_ON_MASK))
                       then leave 0 else mret tt
                   end;; udelay 1;; poll_loop hw r status n) w
                  = poll_loop hw r status n w2).
      { unfold mbind at 1 2 3 4, count_poll, regmap_read, udelay, emit.
        cbn [trace st supply polls]. fold v. destruct status.
        - now rewrite sample_matches_enabled, Hv.
        - now rewrite sample_matches_disabled, Hv. }
      rewrite E.
      destruct (IH w2) as [Hst [Hsup [vs [Hvs Hcase]]]].
      split; [exact Hst|]. split; [exact Hsup|].
      exists (v :: vs). split; [now constructor|].
      cbn [failed_samples flat_map app length genuine] in *.
      fold (failed_samples r vs) in *.
      destruct Hcase as [[Hn [Ht [Hg [Hl Hp]]]] | [v' [Hn [Ht [Hg [Hm [Hl Hp]]]]]]].
      * left. rewrite Hn, Ht, Hp. cbn [w2 trace polls] in *.
        rewrite <- !app_assoc in *. cbn [app] in *.
        repeat split; auto; lia.
      * right. exists v'. rewrite Hn, Ht, Hp. cbn [w2 trace polls] in *.
        rewrite <- !app_assoc in *. cbn [app] in *.
        repeat split; auto; lia.
Qed.

Lemma genuine_app_inv tr l1 l2 :
  genuine hw tr (l1 ++ l2) -> genuine hw (tr ++ l1) l2.
Proof.
  revert tr. induction l1 as [|e l1 IH]; intros tr H; cbn in *.
  - now rewrite app_nil_r.
  - destruct H as [_ H]. apply IH in H. now rewrite <- app_assoc in H.
Qed.

(** What one call of [poll_gdsc_status] does. *)
Lemma poll_run (sc : gdsc) (status : gdscr_status) (w : world) :
  let r := status_regmap sc in
  let res := call (poll_gdsc_status hw sc status) w in
  st (snd res) = st w
  /\ supply (snd res) = supply w
  /\ exists vs,
      Forall (fun v => sample_matches status v = false) vs
      /\ ((fst res = - ETIMEDOUT
           /\ trace (snd res) = trace w ++ failed_samples r vs
           /\ genuine hw (trace w) (failed_samples r vs)
           /\ length vs = budget sc
           /\ polls (snd res) = (polls w + budget sc)%nat)
          \/ (exists v,
               fst res = 0
               /\ trace (snd res) = trace w ++ failed_samples r vs ++ [EvRead r v]
               /\ genuine hw (trace w) (failed_samples r vs ++ [EvRead r v])
               /\ sample_matches status v = true
               /\ (length vs < budget sc)%nat
               /\ polls (snd res) = (polls w + length vs + 1)%nat)).
Proof.
  intros r res. subst res. unfold poll_gdsc_status.
  rewrite call_block. fold (status_regmap sc). fold r.
  change (Z.to_nat (s32 (gds_timeout sc))) with (budget sc).
  destruct (poll_loop_run r status (budget sc) w)
    as [Hst [Hsup [vs [Hvs Hcase]]]].
  unfold call, mbind.
  destruct (poll_loop hw r status (budget sc) w) as [[[]|x] w1];
    cbn [fst snd] in *.
  - split; [exact Hst|]. split; [exact Hsup|]. exists vs.
    split; [exact Hvs|]. left.
    destruct Hcase as [[_ H]|[v [H _]]]; [|discriminate].
    cbn. tauto.
  - split; [exact Hst|]. split; [exact Hsup|]. exists vs.
    split; [exact Hvs|]. right.
    destruct Hcase as [[H _]|[v [H H']]]; [discriminate|].
    injection H as ->. exists v. tauto.
Qed.

End Poll.


Section PollHead.

Variable hw : list event -> regmap -> Z.
Variable res : Z * world.
Variable G : Prop.

(** A poll at the head of the program: it either times out after
    [budget sc] failed samples or succeeds on a sample after fewer. *)
Lemma head_poll sc status (f : Z -> M Z) s sup tr k :
  (forall vs,
      Forall (fun v => sample_matches status v = false) vs ->
      length vs = budget sc ->
      genuine hw tr (failed_samples (status_regmap sc) vs) ->
      call (f (- ETIMEDOUT))
           {| st := s; supply := sup;
              trace := tr ++ failed_samples (status_regmap sc) vs;
              polls := (k + budget sc)%nat |} = res -> G) ->
  (forall vs v,
      Forall (fun v => sample_matches status v = false) vs ->
      (length vs < budget sc)%nat ->
      genuine hw tr (failed_samples (status_regmap sc) vs
                     ++ [EvRead (status_regmap sc) v]) ->
      sample_matches status v = true ->
      call (f 0)
           {| st := s; supply := sup;
              trace := tr ++ failed_samples (status_regmap sc) vs
                          ++ [EvRead (status_regmap sc) v];
              polls := (k + length vs + 1)%nat |} = res -> G) ->
  call (mbind (poll_gdsc_status hw sc status) f)
       {| st := s; supply := sup; trace := tr; polls := k |} = res -> G.
Proof.
  intros Ht Hs.
  pose proof (poll_run hw sc status
                {| st := s; supply := sup; trace := tr; polls := k |}) as H.
  cbv zeta in H. cbn [st supply trace polls] in H.
  unfold poll_gdsc_status in *.
  apply head_bind_block. intros r1 w1 E. rewrite call_block, E in H.
  cbn [fst snd] in H. destruct w1 as [s1 sup1 tr1 k1].
  cbn [st supply trace polls] in H.
  destruct H as [-> [-> [vs [Hvs [[-> [-> [Hg [Hl ->]]]]
                                |[v [-> [-> [Hg [Hm [Hl ->]]]]]]]]]]].
  - now apply Ht.
  - now apply Hs.
Qed.

(** The same against a status register that never shows the state waited
    for. *)
Lemma head_poll_stuck sc status (f : Z -> M Z) s sup tr k :
  (forall tr', sample_matches status (hw tr' (status_regmap sc)) = false) ->
  (forall vs,
      Forall (fun v => sample_matches status v = false) vs ->
      length vs = budget sc ->
      call (f (- ETIMEDOUT))
           {| st := s; supply := sup;
              trace := tr ++ failed_samples (status_regmap sc) vs;
              polls := (k + budget sc)%nat |} = res -> G) ->
  call (mbind (poll_gdsc_status hw sc status) f)
       {| st := s; supply := sup; trace := tr; polls := k |} = res -> G.
Proof.
  intros Hstuck Ht. apply head_poll.
  - intros vs Hvs Hl _. now apply Ht.
  - intros vs v _ _ Hg Hm. exfalso.
    apply genuine_app_inv in Hg. cbn in Hg. destruct Hg as [Hv _].
    rewrite Hv in Hm.
    assert (sample_matches status
              (u32 (hw (tr ++ failed_samples (status_regmap sc) vs)
                       (status_regmap sc)))
            = sample_matches status
                (hw (tr ++ failed_samples (status_regmap sc) vs)
                    (status_regmap sc))) as E.
    { destruct status; unfold sample_matches;
        now rewrite testbit_u32 by lia. }
    rewrite E, Hstuck in Hm. discriminate.
Qed.

End PollHead.

(** Splits on the result of the poll at the head. *)
Ltac polled :=
  let vs := fresh "vs" in
  let v := fresh "v" in
  let Hvs := fresh "Hvs" in
  let Hl := fresh "Hl" in
  let Hg := fresh "Hg" in
  let Hm := fresh "Hm" in
  lazymatch goal with
  | |- _ = ?res -> ?G => refine (head_poll _ res G _ _ _ _ _ _ _ _ _)
  end;
  [ intros vs Hvs Hl Hg; cbv beta; change (nonzero (- ETIMEDOUT)) with true
  | intros vs v Hvs Hl Hg Hm; cbv beta; change (nonzero 0) with false ].

(** The poll at the head times out, the status register being stuck. *)
Ltac polled_out Hstuck :=
  let vs := fresh "vs" in
  let Hvs := fresh "Hvs" in
  let Hl := fresh "Hl" in
  lazymatch goal with
  | |- _ = ?res -> ?G =>
      refine (head_poll_stuck _ res G _ _ _ _ _ _ _ Hstuck _)
  end;
  intros vs Hvs Hl; cbv beta; change (nonzero (- ETIMEDOUT)) with true.

Section Claims.

Variable hw : list event -> regmap -> Z.

Lemma busy_bit x :
  nonzero (Z.land (u32 x) HW_CONTROL_MASK) = Z.testbit x 1.
Proof.
  unfold HW_CONTROL_MASK. rewrite nonzero_land_BIT by lia.
  now rewrite testbit_u32 by lia.
Qed.

(** C1. Busy rule: when the primary register reads back with hw_control
    (bit 1) set and the domain is not in skip mode, [gdsc_enable] returns
    -EBUSY; all it has issued by then is the optional root-clock vote, the
    read itself and a warning, so no register is written and no reset line
    is touched, and the cached enable state is left as it was. *)
Theorem enable_busy (sc : gdsc) (w : world) :
  skip_disable_before_enable sc = false ->
  Z.testbit (hw (trace w ++ root_clk_on sc) Gdscr) 1 = true ->
  result (gdsc_enable hw sc) w = - EBUSY
  /\ issued (gdsc_enable hw sc) w
     = root_clk_on sc
       ++ [EvRead Gdscr (u32 (hw (trace w ++ root_clk_on sc) Gdscr));
           EvLog Warn]
  /\ Forall (fun e => is_write e = false /\ is_reset_line e = false)
            (issued (gdsc_enable hw sc) w)
  /\ is_gdsc_enabled (st (after (gdsc_enable hw sc) w))
     = is_gdsc_enabled (st w)
  /\ resets_asserted (st (after (gdsc_enable hw sc) w))
     = resets_asserted (st w).
Proof.
  intros Hskip. destruct w as [s sup tr k]. cbn [trace st].
  unfold root_clk_on. enter (gdsc_enable hw sc). unfold gdsc_enable. prims.
  rewrite Hskip. run.
  destruct (root_en sc || force_root_en sc); run.
  - rewrite busy_bit. intros E Hbusy; revert E. rewrite Hbusy. run.
    leave_call. trace_norm. repeat split; auto; repeat constructor.
  - rewrite busy_bit, app_nil_r. intros E Hbusy; revert E. rewrite Hbusy.
    run. leave_call. trace_norm. repeat split; auto; repeat constructor.
Qed.

(** The enable half of the query rule, for domains that do not defer their
    enable. *)
Lemma enable_then_query (sc : gdsc) (w : world) :
  skip_disable_before_enable sc = false -> query_after_enable hw sc w.
Proof.
  intros Hskip. unfold query_after_enable. destruct w as [s sup tr k].
  enter (gdsc_enable hw sc). unfold gdsc_enable. prims. rewrite Hskip. run.
  destruct (root_en sc || force_root_en sc); run.
  all: match goal with
       | |- context [nonzero ?x] => destruct (nonzero x) eqn:Hbusy
       end; run; [leave_call; discriminate|].
  all: destruct (toggle_logic sc) eqn:Ht;
    [ framed anything (fun r : Z => r <> 0); [| leave_call; congruence ]
    | ].
  all: run; destruct (force_root_en sc); run; leave_call; intros _.
  all: enter (gdsc_is_enabled sc); unfold gdsc_is_enabled; prims;
    rewrite Ht, Hskip; run; now leave_call.
Qed.

(** The disable half of the query rule. *)
Lemma disable_then_query (sc : gdsc) (w : world) :
  query_after_disable hw sc w.
Proof.
  unfold query_after_disable. destruct w as [s sup tr k].
  enter (gdsc_disable hw sc). unfold gdsc_disable. prims. run.
  destruct sup as [p|]; run.
  1: destruct (parent_enabled p <? 0) eqn:Hneg; run;
    [ leave_call; intros E; rewrite E in Hneg; discriminate | ].
  1: destruct (parent_enabled p =? 0) eqn:Hz; run;
    [ leave_call; discriminate | ].
  all: destruct (force_root_en sc); run.
  all: destruct (toggle_logic sc) eqn:Ht;
    [ framed supply_kept (fun _ : Z => False); [|contradiction]
    | ]; run_out.
  all: leave_call; intros _.
  all: enter (gdsc_is_enabled sc); unfold gdsc_is_enabled; prims;
    rewrite Ht; run_out; now leave_call.
Qed.

(** A domain that defers its enable: [gdsc_enable] returns 0 and leaves
    the world as it found it, so that the query that follows answers what
    a query before the call would have answered. *)
Lemma deferred_enable_then_query (sc : gdsc) (w : world) :
  skip_disable_before_enable sc = true ->
  result (gdsc_enable hw sc) w = 0
  /\ after (gdsc_enable hw sc) w = w
  /\ result (gdsc_is_enabled sc) (after (gdsc_enable hw sc) w)
     = if toggle_logic sc then 0
       else Z.b2z (negb (resets_asserted (st w))).
Proof.
  intros Hskip.
  assert (E : call (gdsc_enable hw sc) w = (0, w)).
  { unfold gdsc_enable. rewrite Hskip. reflexivity. }
  unfold result, after. rewrite E. cbn [fst snd].
  split; [reflexivity|]. split; [reflexivity|].
  unfold gdsc_is_enabled. rewrite Hskip.
  destruct (toggle_logic sc); reflexivity.
Qed.

(** C2 (amended). For a domain that does not defer its enable
    ([skip_disable_before_enable] false), a [gdsc_enable] that returns 0
    is followed by a [gdsc_is_enabled] that returns 1; for every domain, a
    [gdsc_disable] that returns 0 is followed by a [gdsc_is_enabled] that
    returns 0.  For a domain that defers its enable, [gdsc_enable] returns
    0 and changes nothing; the [gdsc_is_enabled] that follows returns 0
    when the domain is register-toggled, and when it is reset-controlled
    returns 1 exactly when the reset lines are not marked asserted. *)
Theorem enable_disable_then_query (sc : gdsc) (w : world) :
  (skip_disable_before_enable sc = false -> query_after_enable hw sc w)
  /\ query_after_disable hw sc w
  /\ (skip_disable_before_enable sc = true ->
      result (gdsc_enable hw sc) w = 0
      /\ after (gdsc_enable hw sc) w = w
      /\ result (gdsc_is_enabled sc) (after (gdsc_enable hw sc) w)
         = if toggle_logic sc then 0
           else Z.b2z (negb (resets_asserted (st w)))).
Proof.
  split; [apply enable_then_query|].
  split; [apply disable_then_query | apply deferred_enable_then_query].
Qed.

(** The enable half of the timeout rule. *)
Lemma enable_timeout (sc : gdsc) (w : world) :
  toggle_logic sc = true ->
  skip_disable_before_enable sc = false ->
  (forall tr, sample_matches ENABLED (hw tr (status_regmap sc)) = false) ->
  Z.testbit (hw (trace w ++ root_clk_on sc) Gdscr) 1 = false ->
  result (gdsc_enable hw sc) w = - ETIMEDOUT
  /\ polls (after (gdsc_enable hw sc) w)
     = (polls w + (if hw_ctrl sc then 2 * budget sc else budget sc))%nat.
Proof.
  intros Ht Hskip Hstuck. destruct w as [s sup tr k].
  unfold root_clk_on. cbn [trace].
  enter (gdsc_enable hw sc). unfold gdsc_enable. prims.
  rewrite Hskip, Ht. run.
  destruct (root_en sc || force_root_en sc); run.
  all: rewrite busy_bit, ?app_nil_r; intros E Hbusy; revert E;
    rewrite Hbusy; run.
  all: framed (only_events (fun _ => True)) (fun _ : Z => False);
    [|contradiction]; run.
  all: framed (only_events (fun _ => True)) (fun _ : Z => False);
    [|contradiction]; run.
  all: framed (only_events (fun _ => True)) (fun _ : Z => False);
    [|contradiction]; run.
  all: polled_out Hstuck; run.
  all: destruct (hw_ctrl sc) eqn:Hh; run; [polled_out Hstuck; run|].
  all: leave_call; split; [reflexivity | lia].
Qed.

(** The disable half of the timeout rule. *)
Lemma disable_timeout (sc : gdsc) (w : world) :
  toggle_logic sc = true ->
  parent_ok w = true ->
  no_status_check_on_disable sc = false ->
  (forall tr, sample_matches DISABLED (hw tr (status_regmap sc)) = false) ->
  result (gdsc_disable hw sc) w = - ETIMEDOUT
  /\ polls (after (gdsc_disable hw sc) w) = (polls w + budget sc)%nat.
Proof.
  intros Ht Hok Hchk Hstuck. destruct w as [s sup tr k].
  unfold parent_ok in Hok. cbn [supply] in Hok.
  enter (gdsc_disable hw sc). unfold gdsc_disable. prims.
  rewrite Ht, Hchk. run.
  destruct sup as [p|]; run.
  1: assert (Hneg : (parent_enabled p <? 0) = false) by lia.
  1: assert (Hz : (parent_enabled p =? 0) = false) by lia.
  1: rewrite Hneg, Hz; run.
  all: destruct (force_root_en sc); run.
  all: framed (only_events (fun _ => True)) (fun _ : Z => False);
    [|contradiction]; run.
  all: framed (only_events (fun _ => True)) (fun _ : Z => False);
    [|contradiction]; run.
  all: polled_out Hstuck; run_out.
  all: leave_call; split; [reflexivity | lia].
Qed.

Lemma budget_in_range (sc : gdsc) :
  0 <= gds_timeout sc < 2 ^ 31 -> Z.of_nat (budget sc) = gds_timeout sc.
Proof.
  intros H. unfold budget, s32, u32.
  rewrite Z.mod_small by lia.
  destruct (Z.ltb_spec (gds_timeout sc) (2 ^ 31)); lia.
Qed.

(** C3 (amended). A register-toggled domain whose configured budget
    [gds_timeout] is below 2^31 and whose status register never shows the
    state waited for.  [gdsc_enable], when it gets past its two guards
    (skip mode, hw_control), returns -ETIMEDOUT after exactly [gds_timeout]
    poll iterations if the domain has no hardware-status register, and
    after exactly twice that many if it has one (the whole poll is
    repeated once).  [gdsc_disable], when the parent check passes and the
    status check is not suppressed, returns -ETIMEDOUT after exactly
    [gds_timeout] poll iterations. *)
Theorem timeout_rule (sc : gdsc) (w : world) :
  toggle_logic sc = true ->
  0 <= gds_timeout sc < 2 ^ 31 ->
  (skip_disable_before_enable sc = false ->
   (forall tr, sample_matches ENABLED (hw tr (status_regmap sc)) = false) ->
   Z.testbit (hw (trace w ++ root_clk_on sc) Gdscr) 1 = false ->
   result (gdsc_enable hw sc) w = - ETIMEDOUT
   /\ Z.of_nat (polls (after (gdsc_enable hw sc) w))
      = Z.of_nat (polls w)
        + (if hw_ctrl sc then 2 * gds_timeout sc else gds_timeout sc))
  /\ (parent_ok w = true ->
      no_status_check_on_disable sc = false ->
      (forall tr,
          sample_matches DISABLED (hw tr (status_regmap sc)) = false) ->
      result (gdsc_disable hw sc) w = - ETIMEDOUT
      /\ Z.of_nat (polls (after (gdsc_disable hw sc) w))
         = Z.of_nat (polls w) + gds_timeout sc).
Proof.
  intros Ht Hb. apply budget_in_range in Hb. split.
  - intros Hskip Hstuck Hbusy.
    destruct (enable_timeout sc w Ht Hskip Hstuck Hbusy) as [Hr Hp].
    split; [exact Hr|]. rewrite Hp. destruct (hw_ctrl sc); lia.
  - intros Hok Hchk Hstuck.
    destruct (disable_timeout sc w Ht Hok Hchk Hstuck) as [Hr Hp].
    split; [exact Hr|]. rewrite Hp. lia.
Qed.



(** C7 (amended). The poll engine, for a configured budget [gds_timeout]
    below 2^31.  [poll_gdsc_status] takes no register, mask or budget of
    its own: it reads the hardware-status register when the domain has one
    and the primary register otherwise ([status_regmap]), and tests bit 31
    of the word against the state waited for.  Every sample is a genuine
    read of that register; each failed sample is followed by exactly one
    [udelay(1)]; the call returns 0 at the first sample that matches, and
    -ETIMEDOUT once [gds_timeout] samples have failed; it issues nothing
    but these reads and delays and leaves the driver state and the parent
    supply alone. *)
Theorem poll_engine (sc : gdsc) (status : gdscr_status) (w : world) :
  0 <= gds_timeout sc < 2 ^ 31 ->
  st (after (poll_gdsc_status hw sc status) w) = st w
  /\ supply (after (poll_gdsc_status hw sc status) w) = supply w
  /\ genuine hw (trace w) (issued (poll_gdsc_status hw sc status) w)
  /\ exists vs,
      Forall (fun v => sample_matches status v = false) vs
      /\ ((result (poll_gdsc_status hw sc status) w = - ETIMEDOUT
           /\ issued (poll_gdsc_status hw sc status) w
              = failed_samples (status_regmap sc) vs
           /\ Z.of_nat (length vs) = gds_timeout sc
           /\ Z.of_nat (polls (after (poll_gdsc_status hw sc status) w))
              = Z.of_nat (polls w) + gds_timeout sc)
          \/ (exists v,
               result (poll_gdsc_status hw sc status) w = 0
               /\ issued (poll_gdsc_status hw sc status) w
                  = failed_samples (status_regmap sc) vs
                    ++ [EvRead (status_regmap sc) v]
               /\ sample_matches status v = true
               /\ Z.of_nat (length vs) < gds_timeout sc
               /\ polls (after (poll_gdsc_status hw sc status) w)
                  = (polls w + length vs + 1)%nat)).
Proof.
  intros Hb. apply budget_in_range in Hb.
  unfold issued, result, after.
  destruct (poll_run hw sc status w) as [Hst [Hsup [vs [Hvs Hcase]]]].
  cbv zeta in *. split; [exact Hst|]. split; [exact Hsup|].
  destruct Hcase as [[Hr [Ht [Hg [Hl Hp]]]]|[v [Hr [Ht [Hg [Hm [Hl Hp]]]]]]].
  - rewrite (since_app _ _ _ Ht). split; [exact Hg|].
    exists vs. split; [exact Hvs|]. left.
    repeat split; try assumption; lia.
  - rewrite (since_app _ _ _ Ht). split; [exact Hg|].
    exists vs. split; [exact Hvs|]. right. exists v.
    repeat split; try assumption; lia.
Qed.

Lemma locks_kept (sc : gdsc) (o : op) (w : world) :
  locks_held (after (run_op hw sc o) w) = locks_held w.
Proof.
  unfold locks_held. destruct w as [s sup tr k]. cbn [supply].
  destruct o as [| | |mode|]; cbn [run_op].
  - enter (gdsc_is_enabled sc). unfold gdsc_is_enabled. prims.
    run_out; now leave_call.
  - enter (gdsc_enable hw sc). framed_call supply_kept. now leave_call.
  - enter (gdsc_disable hw sc). unfold gdsc_disable. prims. run.
    destruct sup as [p|]; run.
    1: destruct (parent_enabled p <? 0); run; [now leave_call|].
    1: destruct (parent_enabled p =? 0); run; [now leave_call|].
    all: framed_call supply_kept; run; now leave_call.
  - enter (gdsc_set_mode hw sc mode). unfold gdsc_set_mode. prims. run.
    destruct sup as [p|]; run.
    1: destruct (parent_enabled p <? 0); run; [now leave_call|].
    1: destruct (parent_enabled p =? 0); run; [now leave_call|].
    all: framed_call supply_kept; run; now leave_call.
  - enter (gdsc_get_mode sc). unfold gdsc_get_mode. prims.
    run_out; now leave_call.
Qed.

(** C6. Parent-lock rule.  When the parent supply exists and reports
    "not enabled", [gdsc_disable] and [gdsc_set_mode] (whatever the mode
    asked for) return -EIO having done nothing but take the parent lock,
    log, and release the lock: no register is read or written and the
    driver state is unchanged.  And whatever the operation and the world,
    the parent lock is held as many times after the operation as
    before. *)
Theorem parent_lock_rule (sc : gdsc) (w : world) :
  (forall p,
      supply w = Some p -> parent_enabled p = 0 ->
      result (gdsc_disable hw sc) w = - EIO
      /\ issued (gdsc_disable hw sc) w = [EvLock; EvLog Err; EvUnlock]
      /\ st (after (gdsc_disable hw sc) w) = st w
      /\ forall mode,
          result (gdsc_set_mode hw sc mode) w = - EIO
          /\ issued (gdsc_set_mode hw sc mode) w
             = [EvLock; EvLog Warn; EvUnlock]
          /\ st (after (gdsc_set_mode hw sc mode) w) = st w)
  /\ (forall o, locks_held (after (run_op hw sc o) w) = locks_held w).
Proof.
  split; [|intros o; apply locks_kept].
  intros p Hs Hp. destruct w as [s sup tr k]. cbn [supply st] in *.
  subst sup. repeat split.
  1-3: enter (gdsc_disable hw sc); unfold gdsc_disable; prims; run;
    rewrite Hp; change (0 <? 0) with false; change (0 =? 0) with true;
    run; leave_call; trace_norm; reflexivity.
  all: enter (gdsc_set_mode hw sc mode); unfold gdsc_set_mode; prims; run;
    rewrite Hp; change (0 <? 0) with false; change (0 =? 0) with true;
    run; leave_call; trace_norm; reflexivity.
Qed.

Lemma with_hw_control_bits (on : bool) (v i : Z) :
  Z.testbit (with_hw_control on v) i
  = if i =? 1 then on else Z.testbit v i.
Proof.
  unfold with_hw_control, HW_CONTROL_MASK.
  destruct (Z.ltb_spec i 0) as [Hneg|Hpos].
  - rewrite !Z.testbit_neg_r by lia.
    destruct (Z.eqb_spec i 1); [lia|reflexivity].
  - destruct on.
    + rewrite testbit_set_BIT by lia.
      destruct (i =? 1); [apply orb_true_r | apply orb_false_r].
    + rewrite testbit_clear_BIT by lia.
      destruct (i =? 1); [apply andb_false_r | apply andb_true_r].
Qed.

Lemma failed_samples_no_write r vs :
  Forall (fun e => is_write e = false) (failed_samples r vs).
Proof.
  induction vs as [|v vs IH]; cbn; repeat constructor. exact IH.
Qed.

(** C10. A [gdsc_set_mode] that returns 0 was asked for one of the two
    modes and has written the primary register exactly once: the word
    written is the word read just before with bit 1 (hw_control) set for
    the FAST mode and cleared for the NORMAL mode, all other bits being
    those just read; nothing else it issues, before or after, is a
    write. *)
Theorem set_mode_write (sc : gdsc) (mode : Z) (w : world) :
  result (gdsc_set_mode hw sc mode) w = 0 ->
  (mode = REGULATOR_MODE_FAST \/ mode = REGULATOR_MODE_NORMAL)
  /\ exists pre v post,
      issued (gdsc_set_mode hw sc mode) w
      = pre
        ++ [EvRead Gdscr v;
            EvWrite Gdscr
              (with_hw_control (mode =? REGULATOR_MODE_FAST) v)]
        ++ post
      /\ v = u32 (hw (trace w ++ pre) Gdscr)
      /\ Forall (fun e => is_write e = false) pre
      /\ Forall (fun e => is_write e = false) post
      /\ (forall i, i <> 1 ->
            Z.testbit (with_hw_control (mode =? REGULATOR_MODE_FAST) v) i
            = Z.testbit v i)
      /\ Z.testbit (with_hw_control (mode =? REGULATOR_MODE_FAST) v) 1
         = (mode =? REGULATOR_MODE_FAST).
Proof.
  destruct w as [s sup tr k]. cbn [trace].
  enter (gdsc_set_mode hw sc mode). unfold gdsc_set_mode. prims. run.
  destruct sup as [p|]; run.
  1: destruct (parent_enabled p <? 0) eqn:Hneg; run;
    [ leave_call; intros E; rewrite E in Hneg; discriminate | ].
  1: destruct (parent_enabled p =? 0) eqn:Hz; run;
    [ leave_call; discriminate | ].
  all: destruct (mode =? REGULATOR_MODE_FAST) eqn:Hf; run;
    [ | destruct (mode =? REGULATOR_MODE_NORMAL) eqn:Hn; run;
        [ destruct (is_gdsc_enabled s); run;
          [ polled; run; [leave_call; discriminate|] | ]
        | leave_call; discriminate ] ].
  all: leave_call; intros _.
  all: split; [ first [ left; now apply Z.eqb_eq
                      | right; now apply Z.eqb_eq ] | ].
  all: trace_norm.
  all: lazymatch goal with
       | |- exists pre v post, EvLock :: _ = _ /\ _ => exists [EvLock]
       | |- _ => exists []
       end.
  all: do 2 eexists; split; [cbn [app]; reflexivity|].
  all: split; [now rewrite ?app_nil_r|].
  all: split; [repeat constructor|].
  all: split;
    [ repeat first [ apply Forall_nil
                   | apply Forall_cons; [reflexivity|]
                   | apply Forall_app; split
                   | apply failed_samples_no_write ] | ].
  all: split; [ intros i Hi; rewrite with_hw_control_bits;
                destruct (Z.eqb_spec i 1); [contradiction|reflexivity]
              | now rewrite with_hw_control_bits ].
Qed.

Lemma filter_deassert (l : list Z) :
  filter is_reset_line (map EvResetDeassert l) = map EvResetDeassert l.
Proof. induction l as [|x l IH]; cbn; [reflexivity | now rewrite IH]. Qed.

Lemma filter_assert (l : list Z) :
  filter is_reset_line (map EvResetAssert l) = map EvResetAssert l.
Proof. induction l as [|x l IH]; cbn; [reflexivity | now rewrite IH]. Qed.

(** C8 (amended). A reset-controlled domain.  [gdsc_enable], when it gets
    past its two guards (the domain does not defer its enable, and the
    primary register does not read back with hw_control set), takes the
    optional root-clock vote, reads the primary register, de-asserts the
    reset lines 0, 1, ..., n-1 in this order, marks the resets
    not-asserted and returns 0.  [gdsc_disable], when the parent check
    passes, asserts the reset lines n-1, ..., 1, 0 in this order, marks the
    resets asserted and returns 0. *)
Theorem reset_order (sc : gdsc) (w : world) :
  toggle_logic sc = false ->
  (skip_disable_before_enable sc = false ->
   Z.testbit (hw (trace w ++ root_clk_on sc) Gdscr) 1 = false ->
   result (gdsc_enable hw sc) w = 0
   /\ issued (gdsc_enable hw sc) w
      = root_clk_on sc
        ++ [EvRead Gdscr (u32 (hw (trace w ++ root_clk_on sc) Gdscr))]
        ++ map EvResetDeassert (reset_lines sc)
        ++ [EvDelay 1; EvDelay 1]
        ++ (if force_root_en sc then [EvClkDisable (root_clk_idx sc)]
            else [])
   /\ deasserts_in_order hw sc w)
  /\ (parent_ok w = true ->
      result (gdsc_disable hw sc) w = 0
      /\ issued (gdsc_disable hw sc) w
         = lock_events w
           ++ (if force_root_en sc then [EvClkEnable (root_clk_idx sc)]
               else [])
           ++ [EvDelay 1]
           ++ map EvResetAssert (rev (reset_lines sc))
           ++ (if root_clk_off_needed sc w
               then [EvClkDisable (root_clk_idx sc)] else [])
           ++ unlock_events w
      /\ asserts_in_reverse hw sc w).
Proof.
  intros Ht. destruct w as [s sup tr k].
  unfold deasserts_in_order, asserts_in_reverse, root_clk_on, parent_ok,
    root_clk_off_needed, lock_events, unlock_events.
  cbn [trace st supply]. split.
  - intros Hskip. enter (gdsc_enable hw sc). unfold gdsc_enable. prims.
    rewrite Hskip, Ht. run.
    destruct (root_en sc || force_root_en sc); run.
    all: rewrite busy_bit, ?app_nil_r; intros E Hbusy; revert E;
      rewrite Hbusy; run.
    all: destruct (force_root_en sc); run; leave_call; trace_norm.
    all: rewrite deassert_lines.
    all: repeat split; rewrite ?app_nil_r; try reflexivity.
    all: cbn [filter is_reset_line]; rewrite ?filter_app, filter_deassert;
      cbn [filter is_reset_line]; now rewrite ?app_nil_r.
  - intros Hok. enter (gdsc_disable hw sc). unfold gdsc_disable. prims.
    rewrite Ht. run.
    destruct sup as [p|]; run.
    1: assert (Hneg : (parent_enabled p <? 0) = false) by lia.
    1: assert (Hz : (parent_enabled p =? 0) = false) by lia.
    1: rewrite Hneg, Hz; run.
    all: destruct (force_root_en sc); run.
    all: rewrite ?orb_true_r, ?orb_false_r; run_out.
    all: leave_call; trace_norm.
    all: rewrite assert_lines.
    all: repeat split; rewrite ?app_nil_r; try reflexivity.
    all: cbn [filter is_reset_line]; rewrite ?filter_app, filter_assert;
      cbn [filter is_reset_line]; now rewrite ?app_nil_r.
Qed.

End Claims.

(** ** The scenarios, run *)

Lemma dead_hw_never_on (sc : gdsc) (tr : list event) :
  sample_matches ENABLED (dead_hw tr (status_regmap sc)) = false.
Proof.
  unfold sample_matches, dead_hw, sim_hw, status_regmap, PWR_ON_MASK.
  destruct (hw_ctrl sc); rewrite testbit_clear_BIT by lia;
    apply andb_false_r.
Qed.

Lemma stuck_on_hw_never_off (sc : gdsc) (tr : list event) :
  sample_matches DISABLED (stuck_on_hw tr (status_regmap sc)) = false.
Proof.
  unfold sample_matches, stuck_on_hw, sim_hw, status_regmap, PWR_ON_MASK.
  destruct (hw_ctrl sc); rewrite testbit_set_BIT by lia;
    now rewrite orb_true_r.
Qed.

Lemma enable_busy_witness :
  result (gdsc_enable busy_hw plain_gdsc) (boot_world None) = - EBUSY
  /\ issued (gdsc_enable busy_hw plain_gdsc) (boot_world None)
     = [EvRead Gdscr 2147483650; EvLog Warn].
Proof.
  destruct (enable_busy busy_hw plain_gdsc (boot_world None))
    as [Hr [Hi _]]; [reflexivity | reflexivity |].
  split; [exact Hr | exact Hi].
Defined.

(** Counterexample to C2 as stated: a register-toggled domain that defers
    its enable, for which [gdsc_enable] returns 0 at once and
    [gdsc_is_enabled] then answers 0. *)
Lemma deferred_enable_query_fails :
  ~ query_after_enable prompt_hw skip_gdsc (boot_world None).
Proof.
  unfold query_after_enable. intros H.
  specialize (H eq_refl). vm_compute in H. discriminate.
Qed.

Lemma enable_disable_then_query_witness :
  (result (gdsc_is_enabled plain_gdsc)
          (after (gdsc_enable prompt_hw plain_gdsc) (boot_world None))
   = 1
   /\ result (gdsc_is_enabled plain_gdsc)
             (after (gdsc_disable prompt_hw plain_gdsc) (boot_world None))
      = 0)
  /\ (result (gdsc_enable prompt_hw skip_gdsc) (boot_world None) = 0
      /\ result (gdsc_is_enabled skip_gdsc)
                (after (gdsc_enable prompt_hw skip_gdsc) (boot_world None))
         = 0)
  /\ (result (gdsc_enable prompt_hw deferred_reset_gdsc) (boot_world None)
      = 0
      /\ result (gdsc_is_enabled deferred_reset_gdsc)
                (after (gdsc_enable prompt_hw deferred_reset_gdsc)
                       (boot_world None))
         = 1)
  /\ (result (gdsc_enable prompt_hw deferred_reset_gdsc) in_reset_world = 0
      /\ result (gdsc_is_enabled deferred_reset_gdsc)
                (after (gdsc_enable prompt_hw deferred_reset_gdsc)
                       in_reset_world)
         = 0).
Proof.
  split; [|split; [|split]].
  - destruct (enable_disable_then_query prompt_hw plain_gdsc
                (boot_world None)) as [He [Hd _]].
    split; [apply He; reflexivity | apply Hd; reflexivity].
  - destruct (enable_disable_then_query prompt_hw skip_gdsc
                (boot_world None)) as [_ [_ Hs]].
    destruct (Hs eq_refl) as [Hr [_ Hq]]. split; [exact Hr | exact Hq].
  - destruct (enable_disable_then_query prompt_hw deferred_reset_gdsc
                (boot_world None)) as [_ [_ Hs]].
    destruct (Hs eq_refl) as [Hr [_ Hq]]. split; [exact Hr | exact Hq].
  - destruct (enable_disable_then_query prompt_hw deferred_reset_gdsc
                in_reset_world) as [_ [_ Hs]].
    destruct (Hs eq_refl) as [Hr [_ Hq]]. split; [exact Hr | exact Hq].
Defined.

(** Counterexample to C3 as stated: a domain with a hardware-status
    register; with a configured budget of 100 the failing [gdsc_enable]
    has gone through 200 iterations of the poll loop. *)
Lemma hw_ctrl_enable_polls_twice :
  polls (after (gdsc_enable dead_hw hw_ctrl_gdsc) (boot_world None))
  = 200%nat
  /\ gds_timeout hw_ctrl_gdsc = 100
  /\ ~ enable_timeout_within_one dead_hw hw_ctrl_gdsc (boot_world None).
Proof.
  assert (Hp : polls (after (gdsc_enable dead_hw hw_ctrl_gdsc)
                            (boot_world None)) = 200%nat)
    by (vm_compute; reflexivity).
  split; [exact Hp|]. split; [reflexivity|].
  unfold enable_timeout_within_one. rewrite Hp.
  change (gds_timeout hw_ctrl_gdsc) with 100.
  cbn [polls boot_world]. lia.
Qed.

Lemma timeout_rule_witness :
  (result (gdsc_enable dead_hw hw_ctrl_gdsc) (boot_world None) = - ETIMEDOUT
   /\ Z.of_nat (polls (after (gdsc_enable dead_hw hw_ctrl_gdsc)
                             (boot_world None)))
      = 200)
  /\ (result (gdsc_enable dead_hw plain_gdsc) (boot_world None) = - ETIMEDOUT
      /\ Z.of_nat (polls (after (gdsc_enable dead_hw plain_gdsc)
                                (boot_world None)))
         = 100)
  /\ (result (gdsc_disable stuck_on_hw plain_gdsc) (boot_world None)
      = - ETIMEDOUT
      /\ Z.of_nat (polls (after (gdsc_disable stuck_on_hw plain_gdsc)
                                (boot_world None)))
         = 100).
Proof.
  assert (Hb : 0 <= 100 < 2 ^ 31) by lia.
  split; [|split].
  - apply (proj1 (timeout_rule dead_hw hw_ctrl_gdsc (boot_world None)
                    eq_refl Hb)).
    + reflexivity.
    + apply dead_hw_never_on.
    + reflexivity.
  - apply (proj1 (timeout_rule dead_hw plain_gdsc (boot_world None)
                    eq_refl Hb)).
    + reflexivity.
    + apply dead_hw_never_on.
    + reflexivity.
  - apply (proj2 (timeout_rule stuck_on_hw plain_gdsc (boot_world None)
                    eq_refl Hb)).
    + reflexivity.
    + reflexivity.
    + apply stuck_on_hw_never_off.
Defined.

(** C4. A voting domain that keeps its retention flops, enabled on
    powered hardware whose primary register holds the collapse bit.  After
    the poll [gdsc_enable] writes the whole primary register for
    retention, with the word it last read.  With a domain-address register
    that is the word of the domain-address register, not of the primary
    register, which the vote branch does not read again: the vote register
    is updated under the mask of the vote bit only, but the collapse bit of
    the primary register, read as 1 at the top of the call, is written as
    0.  The same domain without the domain-address register writes back
    the word it read from the primary register and leaves the collapse bit
    as it is. *)
Theorem vote_retain_overwrites_collapse_bit :
  issued (gdsc_enable collapsed_on_hw vote_retain_gdsc) (boot_world None)
  = [EvRead Gdscr 2147483649;
     EvRead Domain_addr 0; EvWrite Domain_addr 0;
     EvRead Gdscr 2147483649;
     EvUpdateBits Collapse_vote 8 4294967287;
     EvRead Gdscr 2147483649; EvDelay 1;
     EvRead Gdscr 2147483649;
     EvWrite Gdscr 2048;
     EvDelay 1; EvDelay 1]
  /\ Forall (updates_only_vote_bit vote_retain_gdsc)
            (issued (gdsc_enable collapsed_on_hw vote_retain_gdsc)
                    (boot_world None))
  /\ ~ keeps_collapse_bit
        (reg_set all_zero Gdscr 1)
        (issued (gdsc_enable collapsed_on_hw vote_retain_gdsc)
                (boot_world None))
  /\ issued (gdsc_enable collapsed_on_hw vote_retain_only_gdsc)
            (boot_world None)
     = [EvRead Gdscr 2147483649;
        EvUpdateBits Collapse_vote 8 4294967287;
        EvRead Gdscr 2147483649; EvDelay 1;
        EvRead Gdscr 2147483649;
        EvWrite Gdscr 2147485697;
        EvDelay 1; EvDelay 1]
  /\ keeps_collapse_bit
       (reg_set all_zero Gdscr 1)
       (issued (gdsc_enable collapsed_on_hw vote_retain_only_gdsc)
               (boot_world None)).
Proof.
  assert (Hi : issued (gdsc_enable collapsed_on_hw vote_retain_gdsc)
                      (boot_world None)
               = [EvRead Gdscr 2147483649;
                  EvRead Domain_addr 0; EvWrite Domain_addr 0;
                  EvRead Gdscr 2147483649;
                  EvUpdateBits Collapse_vote 8 4294967287;
                  EvRead Gdscr 2147483649; EvDelay 1;
                  EvRead Gdscr 2147483649;
                  EvWrite Gdscr 2048;
                  EvDelay 1; EvDelay 1])
    by (vm_compute; reflexivity).
  assert (Hj : issued (gdsc_enable collapsed_on_hw vote_retain_only_gdsc)
                      (boot_world None)
               = [EvRead Gdscr 2147483649;
                  EvUpdateBits Collapse_vote 8 4294967287;
                  EvRead Gdscr 2147483649; EvDelay 1;
                  EvRead Gdscr 2147483649;
                  EvWrite Gdscr 2147485697;
                  EvDelay 1; EvDelay 1])
    by (vm_compute; reflexivity).
  rewrite Hi, Hj. split; [reflexivity|]. split.
  { repeat constructor. }
  split; [|split; [reflexivity|]].
  - unfold keeps_collapse_bit. vm_compute. discriminate.
  - unfold keeps_collapse_bit. vm_compute. reflexivity.
Qed.

(** C5. A force-root-enable domain whose status register never shows
    "powered": [gdsc_enable] returns -ETIMEDOUT having enabled the root
    clock once and never disabled it, and leaves the clock marked voted. *)
Theorem enable_timeout_leaves_root_clk_on :
  result (gdsc_enable dead_hw force_gdsc) (boot_world None) = - ETIMEDOUT
  /\ filter is_clk_enable
            (issued (gdsc_enable dead_hw force_gdsc) (boot_world None))
     = [EvClkEnable 0]
  /\ filter is_clk_disable
            (issued (gdsc_enable dead_hw force_gdsc) (boot_world None))
     = []
  /\ is_root_clk_voted
       (st (after (gdsc_enable dead_hw force_gdsc) (boot_world None)))
     = true
  /\ ~ root_clk_balanced dead_hw force_gdsc (boot_world None).
Proof.
  assert (He : filter is_clk_enable
                 (issued (gdsc_enable dead_hw force_gdsc) (boot_world None))
               = [EvClkEnable 0]) by (vm_compute; reflexivity).
  assert (Hd : filter is_clk_disable
                 (issued (gdsc_enable dead_hw force_gdsc) (boot_world None))
               = []) by (vm_compute; reflexivity).
  split; [vm_compute; reflexivity|].
  split; [exact He|]. split; [exact Hd|].
  split; [vm_compute; reflexivity|].
  unfold root_clk_balanced. rewrite He, Hd. discriminate.
Qed.

Lemma parent_lock_rule_witness :
  result (gdsc_disable prompt_hw plain_gdsc) off_parent_world = - EIO
  /\ issued (gdsc_disable prompt_hw plain_gdsc) off_parent_world
     = [EvLock; EvLog Err; EvUnlock]
  /\ locks_held (after (gdsc_disable prompt_hw plain_gdsc) off_parent_world)
     = O.
Proof.
  destruct (parent_lock_rule prompt_hw plain_gdsc off_parent_world)
    as [Hoff Hlock].
  destruct (Hoff {| parent_enabled := 0; lock_depth := O |}
              eq_refl eq_refl) as [Hr [Hi _]].
  split; [exact Hr|]. split; [exact Hi|].
  exact (Hlock Op_disable).
Defined.

(** Counterexample to C8 as stated: a reset-controlled domain that defers
    its enable; [gdsc_enable] returns 0 without touching a reset line, and
    the resets stay marked asserted. *)
Lemma deferred_enable_deasserts_nothing :
  result (gdsc_enable prompt_hw deferred_reset_gdsc) in_reset_world = 0
  /\ issued (gdsc_enable prompt_hw deferred_reset_gdsc) in_reset_world = []
  /\ ~ deasserts_in_order prompt_hw deferred_reset_gdsc in_reset_world.
Proof.
  split; [reflexivity|]. split; [reflexivity|].
  unfold deasserts_in_order. intros [H _]. vm_compute in H. discriminate.
Qed.

Lemma reset_order_witness :
  issued (gdsc_enable prompt_hw reset_gdsc) in_reset_world
  = [EvRead Gdscr 2147483648; EvResetDeassert 0; EvResetDeassert 1;
     EvDelay 1; EvDelay 1]
  /\ issued (gdsc_disable prompt_hw reset_gdsc) in_reset_world
     = [EvDelay 1; EvResetAssert 1; EvResetAssert 0].
Proof.
  destruct (reset_order prompt_hw reset_gdsc in_reset_world eq_refl)
    as [He Hd].
  destruct (He eq_refl eq_refl) as [_ [Hi _]].
  destruct (Hd eq_refl) as [_ [Hj _]].
  split; [exact Hi | exact Hj].
Defined.


(** Counterexample to C7 as stated.  The mask is not the caller's: on
    hardware that reports the domain powered and the collapse bit clear, a
    poll for "enabled" returns 0 at its first sample, in which bit 0, the
    collapse mask, is not set.  Nor is every budget counted out: with a
    configured budget of 2^31 the loop counter, an [int], starts negative,
    and the poll returns -ETIMEDOUT without having taken a single
    sample. *)
Lemma poll_engine_not_general :
  (issued (poll_gdsc_status stuck_on_hw plain_gdsc ENABLED) (boot_world None)
   = [EvRead Gdscr 2147483648]
   /\ ~ succeeds_under_mask stuck_on_hw plain_gdsc ENABLED SW_COLLAPSE_MASK
         (boot_world None))
  /\ (result (poll_gdsc_status dead_hw wide_budget_gdsc ENABLED)
             (boot_world None) = - ETIMEDOUT
      /\ issued (poll_gdsc_status dead_hw wide_budget_gdsc ENABLED)
                (boot_world None) = []
      /\ gds_timeout wide_budget_gdsc = 2 ^ 31
      /\ ~ times_out_after_budget dead_hw wide_budget_gdsc ENABLED
            (boot_world None)).
Proof.
  split.
  - assert (Hi : issued (poll_gdsc_status stuck_on_hw plain_gdsc ENABLED)
                        (boot_world None) = [EvRead Gdscr 2147483648])
      by (vm_compute; reflexivity).
    split; [exact Hi|].
    intros H. destruct H as [vs [v [Hs Hm]]]; [vm_compute; reflexivity|].
    rewrite Hi in Hs. destruct vs as [|x vs].
    + injection Hs as <-. vm_compute in Hm. discriminate.
    + cbn in Hs. destruct vs; discriminate.
  - assert (Hr : result (poll_gdsc_status dead_hw wide_budget_gdsc ENABLED)
                        (boot_world None) = - ETIMEDOUT)
      by (vm_compute; reflexivity).
    assert (Hi : issued (poll_gdsc_status dead_hw wide_budget_gdsc ENABLED)
                        (boot_world None) = [])
      by (vm_compute; reflexivity).
    split; [exact Hr|]. split; [exact Hi|]. split; [reflexivity|].
    intros H. destruct (H Hr) as [vs [Hs [Hl _]]].
    rewrite Hi in Hs. destruct vs as [|v vs]; [|discriminate].
    cbn in Hl. discriminate.
Qed.

Lemma poll_engine_witness :
  result (poll_gdsc_status dead_hw plain_gdsc ENABLED) (boot_world None)
  = - ETIMEDOUT
  /\ exists vs,
      issued (poll_gdsc_status dead_hw plain_gdsc ENABLED) (boot_world None)
      = failed_samples Gdscr vs
      /\ Z.of_nat (length vs) = 100.
Proof.
  assert (Hb : 0 <= gds_timeout plain_gdsc < 2 ^ 31)
    by (change (gds_timeout plain_gdsc) with 100; lia).
  destruct (poll_engine dead_hw plain_gdsc ENABLED (boot_world None) Hb)
    as [_ [_ [_ [vs [_ [[Hr [Hi [Hl _]]]|[v [Hr _]]]]]]]].
  - split; [exact Hr|]. exists vs. split; [exact Hi | exact Hl].
  - exfalso. revert Hr. vm_compute. discriminate.
Defined.

Lemma set_mode_write_witness :
  exists pre v post,
    issued (gdsc_set_mode prompt_hw plain_gdsc REGULATOR_MODE_FAST)
           (boot_world None)
    = pre ++ [EvRead Gdscr v; EvWrite Gdscr (with_hw_control true v)] ++ post.
Proof.
  destruct (set_mode_write prompt_hw plain_gdsc REGULATOR_MODE_FAST
              (boot_world None)) as [_ [pre [v [post [Hi _]]]]].
  - reflexivity.
  - exists pre, v, post. exact Hi.
Defined.

(** * Further properties of the driver *)

(** Picks an event out of a list that is written out. *)
Ltac in_list := cbn [In app]; repeat first [left; reflexivity | right].

(** Finds the event asked for in a list that is written out. *)
Ltac find_event side :=
  repeat first [ apply Exists_cons_hd; solve [side]
               | apply Exists_cons_tl
               | apply Exists_app; right ].

(** Splits the list of events issued at the sample [v]. *)
Ltac split_at v :=
  lazymatch goal with
  | |- exists pre x post, ?X = _ /\ _ =>
      lazymatch X with
      | context C [EvRead ?r v :: ?tail] =>
          let pre := context C [@nil event] in
          exists pre, v, tail
      end
  end.

(** [framed] with the side conditions closed by [side]. *)
Ltac framed_by side F Pe :=
  let a := fresh "a" in
  let s1 := fresh "s" in
  let sup1 := fresh "sup" in
  let new := fresh "new" in
  let k1 := fresh "k" in
  let Hall := fresh "Hall" in
  let Hs := fresh "Hs" in
  let Hp := fresh "Hp" in
  let Hk := fresh "Hk" in
  let Hr := fresh "Hr" in
  lazymatch goal with
  | |- _ = ?res -> ?G => refine (head_frame res G F Pe _ _ _ _ _ _ _ _ _)
  end;
  [ spec_walk side
  | intros a s1 sup1 new k1 Hall Hs Hp Hk; cbv beta
  | intros a s1 sup1 new k1 Hr Hall Hs Hp Hk; cbv beta in Hr ];
  [ .. | keep_or_drop Hs s1; keep_or_drop Hp sup1; keep_or_drop Hk k1
       | keep_or_drop Hs s1; keep_or_drop Hp sup1; keep_or_drop Hk k1 ].

Ltac side_quiet :=
  first [ side_easy | split; reflexivity ].

Lemma quiet_filter (l : list event) :
  Forall (allow_ev clk_quiet) l ->
  filter is_clk_enable l = [] /\ filter is_clk_disable l = [].
Proof.
  induction 1 as [|e l [He Hd] _ [IHe IHd]]; [now split|].
  cbn [filter]. now rewrite He, Hd.
Qed.

Lemma filter_map_none {A} (f : event -> bool) (g : A -> event) (l : list A) :
  (forall x, f (g x) = false) -> filter f (map g l) = [].
Proof.
  intros H. induction l as [|x l IH]; [reflexivity|].
  cbn [map filter]. now rewrite H.
Qed.

(** Counts the clock votes in a list that is written out. *)
Ltac clk_filter :=
  repeat first
    [ rewrite filter_app
    | rewrite filter_map_none by reflexivity
    | progress cbn [filter is_clk_enable is_clk_disable app] ];
  repeat match goal with
         | H : Forall (allow_ev clk_quiet) ?l |- _ =>
             destruct (quiet_filter l H) as [-> ->]; clear H
         end;
  cbn [app].

Section Operations.

Variable hw : list event -> regmap -> Z.

Lemma hw_control_cleared v :
  Z.testbit (Z.land v (Z.lnot HW_CONTROL_MASK)) 1 = false.
Proof.
  unfold HW_CONTROL_MASK. rewrite testbit_clear_BIT by lia.
  apply andb_false_r.
Qed.

Lemma hw_control_set v : Z.testbit (Z.lor v HW_CONTROL_MASK) 1 = true.
Proof.
  unfold HW_CONTROL_MASK. rewrite testbit_set_BIT by lia.
  apply orb_true_r.
Qed.

(** ** Mode switching *)

(** X1. [gdsc_get_mode] after [gdsc_set_mode]: when the switch returned 0
    the mode read back is the mode asked for; when it failed, for whatever
    reason, the mode read back is the one that was read before. *)
Theorem set_mode_then_get_mode (sc : gdsc) (mode : Z) (w : world) :
  result (gdsc_get_mode sc) (after (gdsc_set_mode hw sc mode) w)
  = if result (gdsc_set_mode hw sc mode) w =? 0 then mode
    else result (gdsc_get_mode sc) w.
Proof.
  destruct w as [s sup tr k].
  enter (gdsc_set_mode hw sc mode). unfold gdsc_set_mode. prims. run.
  destruct sup as [p|]; run.
  1: destruct (parent_enabled p <? 0) eqn:Hneg; run;
    [ leave_call;
      replace (parent_enabled p =? 0) with false by lia; reflexivity | ].
  1: destruct (parent_enabled p =? 0) eqn:Hz; run;
    [ leave_call; reflexivity | ].
  all: destruct (mode =? REGULATOR_MODE_FAST) eqn:Hf; run;
    [ | destruct (mode =? REGULATOR_MODE_NORMAL) eqn:Hn; run;
        [ destruct (is_gdsc_enabled s); run;
          [ polled; run | ]
        | ] ].
  all: leave_call.
  all: apply Z.eqb_eq in Hf || apply Z.eqb_eq in Hn || idtac.
  all: subst; reflexivity.
Qed.


(** X2. How [gdsc_set_mode] fails once the parent check has passed.  A
    mode other than the two known ones is refused with -EINVAL after the
    primary register has been read, and nothing is written.  The only other
    failure is -ETIMEDOUT, for the NORMAL mode on a domain marked enabled,
    after [budget sc] failed samples; by then bit 1 of the primary register
    has been written clear.  In both cases the driver state is what it was
    before the call. *)
Theorem set_mode_failure (sc : gdsc) (mode : Z) (w : world) :
  parent_ok w = true ->
  result (gdsc_set_mode hw sc mode) w <> 0 ->
  st (after (gdsc_set_mode hw sc mode) w) = st w
  /\ ((result (gdsc_set_mode hw sc mode) w = - EINVAL
       /\ mode <> REGULATOR_MODE_FAST /\ mode <> REGULATOR_MODE_NORMAL
       /\ Forall (fun e => is_write e = false)
                 (issued (gdsc_set_mode hw sc mode) w))
      \/ (result (gdsc_set_mode hw sc mode) w = - ETIMEDOUT
          /\ mode = REGULATOR_MODE_NORMAL
          /\ is_gdsc_enabled (st w) = true
          /\ polls (after (gdsc_set_mode hw sc mode) w)
             = (polls w + budget sc)%nat
          /\ exists v,
              In (EvWrite Gdscr v) (issued (gdsc_set_mode hw sc mode) w)
              /\ Z.testbit v 1 = false)).
Proof.
  intros Hok. destruct w as [s sup tr k].
  unfold parent_ok in Hok. cbn [st supply polls] in *.
  enter (gdsc_set_mode hw sc mode). unfold gdsc_set_mode. prims. run.
  destruct sup as [p|]; run.
  1: assert (Hneg : (parent_enabled p <? 0) = false) by lia.
  1: assert (Hz : (parent_enabled p =? 0) = false) by lia.
  1: rewrite Hneg, Hz; run.
  all: destruct (mode =? REGULATOR_MODE_FAST) eqn:Hf; run;
    [ leave_call; intros H; now elim H
    | destruct (mode =? REGULATOR_MODE_NORMAL) eqn:Hn; run;
        [ destruct (is_gdsc_enabled s) eqn:Hen; run;
          [ polled; run; [ | leave_call; intros H; now elim H ]
          | leave_call; intros H; now elim H ]
        | ] ].
  all: leave_call; intros _; split; [reflexivity|].
  all: apply Z.eqb_neq in Hf.
  all: first [ apply Z.eqb_eq in Hn | apply Z.eqb_neq in Hn ].
  all: trace_norm.
  1,3: right; repeat split; auto; eexists;
    (split; [ in_list | apply hw_control_cleared ]).
  all: left; repeat split; auto; repeat constructor.
Qed.


(** ** What the operations return *)

(** X3. [gdsc_enable] returns 0, -EBUSY or -ETIMEDOUT and nothing else; a
    reset-controlled domain never times out.  Whenever it fails, the cached
    enable state and the resets flag are what they were before the call.
    It never changes the cached mode and never touches the parent
    supply. *)
Theorem enable_outcomes (sc : gdsc) (w : world) :
  (result (gdsc_enable hw sc) w = 0
   \/ result (gdsc_enable hw sc) w = - EBUSY
   \/ result (gdsc_enable hw sc) w = - ETIMEDOUT)
  /\ (toggle_logic sc = false ->
      result (gdsc_enable hw sc) w <> - ETIMEDOUT)
  /\ (result (gdsc_enable hw sc) w <> 0 ->
      is_gdsc_enabled (st (after (gdsc_enable hw sc) w))
      = is_gdsc_enabled (st w)
      /\ resets_asserted (st (after (gdsc_enable hw sc) w))
         = resets_asserted (st w))
  /\ is_gdsc_hw_ctrl_mode (st (after (gdsc_enable hw sc) w))
     = is_gdsc_hw_ctrl_mode (st w)
  /\ supply (after (gdsc_enable hw sc) w) = supply w.
Proof.
  destruct w as [s sup tr k]. cbn [st supply].
  enter (gdsc_enable hw sc). unfold gdsc_enable. prims. run.
  destruct (skip_disable_before_enable sc); run;
    [ leave_call; repeat split; auto; try discriminate; congruence | ].
  destruct (root_en sc || force_root_en sc); run.
  all: match goal with
       | |- context [nonzero ?x] => destruct (nonzero x) eqn:Hbusy
       end; run;
    [ leave_call; repeat split; auto; discriminate | ].
  all: destruct (toggle_logic sc) eqn:Ht; run.
  1,3: do 3 (framed trace_only (fun _ : Z => False); [|contradiction]; run).
  1,2: polled; run.
  1,3: destruct (hw_ctrl sc); run;
    [ polled; run | ].
  all: run_out; leave_call.
  all: repeat split; auto; try discriminate; congruence.
Qed.


(** X4. What [gdsc_disable] returns.  A negative answer of the parent
    supply to [regulator_is_enabled] is handed back as it is, after nothing
    but taking the lock, logging and releasing the lock, with the driver
    state unchanged.  Once the parent check has passed the call returns 0
    or -ETIMEDOUT and nothing else, and marks the domain disabled in both
    cases.  The cached mode is never changed. *)
Theorem disable_outcomes (sc : gdsc) (w : world) :
  (forall p,
      supply w = Some p -> parent_enabled p < 0 ->
      result (gdsc_disable hw sc) w = parent_enabled p
      /\ issued (gdsc_disable hw sc) w = [EvLock; EvLog Err; EvUnlock]
      /\ st (after (gdsc_disable hw sc) w) = st w)
  /\ (parent_ok w = true ->
      (result (gdsc_disable hw sc) w = 0
       \/ result (gdsc_disable hw sc) w = - ETIMEDOUT)
      /\ is_gdsc_enabled (st (after (gdsc_disable hw sc) w)) = false)
  /\ is_gdsc_hw_ctrl_mode (st (after (gdsc_disable hw sc) w))
     = is_gdsc_hw_ctrl_mode (st w).
Proof.
  destruct w as [s sup tr k]. unfold parent_ok. cbn [st supply].
  enter (gdsc_disable hw sc). unfold gdsc_disable. prims. run.
  destruct sup as [p|]; run.
  1: destruct (parent_enabled p <? 0) eqn:Hneg; run;
    [ leave_call; trace_norm; split; [|split; [lia|reflexivity]];
      intros p0 [= <-] _; repeat split; reflexivity | ].
  1: destruct (parent_enabled p =? 0) eqn:Hz; run;
    [ leave_call; split; [|split; [lia|reflexivity]];
      intros p0 [= <-] Hlt; lia | ].
  all: destruct (force_root_en sc); run.
  all: destruct (toggle_logic sc); run.
  1,3,5,7: do 2 (framed trace_only (fun _ : Z => False); [|contradiction];
                 run).
  1-4: destruct (no_status_check_on_disable sc); run.
  2,4,6,8: polled; run.
  all: run_out; leave_call.
  all: split;
    [ intros p0 Hp0 Hlt; first [discriminate | injection Hp0 as <-; lia] | ].
  all: repeat split; auto.
Qed.


(** ** Success is confirmed by the hardware *)

Lemma collapse_cleared v :
  Z.testbit (Z.land v (Z.lnot SW_COLLAPSE_MASK)) 0 = false.
Proof.
  unfold SW_COLLAPSE_MASK. rewrite testbit_clear_BIT by lia.
  apply andb_false_r.
Qed.

Lemma collapse_set v : Z.testbit (Z.lor v SW_COLLAPSE_MASK) 0 = true.
Proof.
  unfold SW_COLLAPSE_MASK. rewrite testbit_set_BIT by lia.
  apply orb_true_r.
Qed.

Lemma vote_released k : Z.land (u32 (Z.lnot (BIT k))) (u32 (BIT k)) = 0.
Proof.
  apply Z.bits_inj'. intros i Hi. rewrite Z.land_spec, Z.bits_0.
  destruct (Z.ltb_spec i 32) as [Hlo|Hhi].
  - rewrite !testbit_u32 by lia. rewrite Z.lnot_spec by lia.
    apply andb_negb_l.
  - unfold u32. rewrite !Z.mod_pow2_bits_high by lia. reflexivity.
Qed.

Lemma vote_requested k : Z.land (u32 (BIT k)) (u32 (BIT k)) = u32 (BIT k).
Proof. apply Z.land_diag. Qed.

(** The sample the last poll succeeded on is what the hardware answered
    at that moment. *)
Lemma genuine_last tr l r v :
  genuine hw tr (l ++ [EvRead r v]) -> v = u32 (hw (tr ++ l) r).
Proof.
  intros H. apply genuine_app_inv in H. cbn in H. tauto.
Qed.

(** X5. A register-toggled domain that does not defer its enable: when
    [gdsc_enable] returns 0, it has let go of the collapse request and has
    afterwards read the status register with bit 31 (power on) set, and
    that word is what the hardware answered to this read. *)
Theorem enable_success_confirmed (sc : gdsc) (w : world) :
  toggle_logic sc = true ->
  skip_disable_before_enable sc = false ->
  result (gdsc_enable hw sc) w = 0 ->
  exists pre v post,
    issued (gdsc_enable hw sc) w
    = pre ++ [EvRead (status_regmap sc) v] ++ post
    /\ Exists (releases_collapse sc) pre
    /\ Z.testbit v 31 = true
    /\ v = u32 (hw (trace w ++ pre) (status_regmap sc)).
Proof.
  intros Ht Hskip. destruct w as [s sup tr k]. cbn [trace].
  enter (gdsc_enable hw sc). unfold gdsc_enable. prims.
  rewrite Hskip, Ht. run.
  destruct (root_en sc || force_root_en sc); run.
  all: match goal with
       | |- context [nonzero ?x] => destruct (nonzero x) eqn:Hbusy
       end; run;
    [ leave_call; discriminate | ].
  all: do 2 (framed trace_only (fun _ : Z => False); [|contradiction]; run).
  all: destruct (cv_regmap (collapse_vote sc)) eqn:Hcv; run.
  all: polled; run.
  1,3,5,7: destruct (hw_ctrl sc) eqn:Hh; run;
    [ polled; run; [leave_call; discriminate|]
    | leave_call; discriminate ].
  all: run_out; leave_call; intros _.
  all: match goal with
       | H : genuine _ _ (_ ++ [EvRead _ ?x]) |- _ =>
           apply genuine_last in H; trace_norm; split_at x;
           (split; [app_norm; reflexivity|]);
           (split; [|split; [assumption|]]);
           [ | etransitivity; [exact H|]; do 2 f_equal;
               app_norm; now rewrite ?app_nil_r ]
       end.
  all: find_event
         ltac:(cbn [releases_collapse]; repeat split;
               first [ assumption | apply collapse_cleared
                     | apply vote_released ]).
Qed.


(** X6. A register-toggled domain whose status is checked on disable:
    when [gdsc_disable] returns 0, it has requested the collapse and has
    afterwards read the status register with bit 31 (power on) clear, and
    that word is what the hardware answered to this read. *)
Theorem disable_success_confirmed (sc : gdsc) (w : world) :
  toggle_logic sc = true ->
  no_status_check_on_disable sc = false ->
  result (gdsc_disable hw sc) w = 0 ->
  exists pre v post,
    issued (gdsc_disable hw sc) w
    = pre ++ [EvRead (status_regmap sc) v] ++ post
    /\ Exists (requests_collapse sc) pre
    /\ Z.testbit v 31 = false
    /\ v = u32 (hw (trace w ++ pre) (status_regmap sc)).
Proof.
  intros Ht Hcheck. destruct w as [s sup tr k]. cbn [trace].
  enter (gdsc_disable hw sc). unfold gdsc_disable. prims.
  rewrite Ht, Hcheck. run.
  destruct sup as [p|]; run.
  1: destruct (parent_enabled p <? 0) eqn:Hneg; run;
    [ leave_call; lia | ].
  1: destruct (parent_enabled p =? 0) eqn:Hz; run;
    [ leave_call; discriminate | ].
  all: destruct (force_root_en sc); run.
  all: framed trace_only (fun _ : Z => False); [|contradiction]; run.
  all: destruct (cv_regmap (collapse_vote sc)) eqn:Hcv; run.
  all: polled; run; [ run_out; leave_call; discriminate | ].
  all: run_out; leave_call; intros _.
  all: apply negb_true_iff in Hm.
  all: match goal with
       | H : genuine _ _ (_ ++ [EvRead _ ?x]) |- _ =>
           apply genuine_last in H; trace_norm; split_at x;
           (split; [app_norm; reflexivity|]);
           (split; [|split; [assumption|]]);
           [ | etransitivity; [exact H|]; do 2 f_equal;
               app_norm; now rewrite ?app_nil_r ]
       end.
  all: find_event
         ltac:(cbn [requests_collapse]; repeat split;
               first [ assumption | apply collapse_set
                     | apply vote_requested ]).
Qed.


(** ** The root clock *)

(** The clock votes of a [gdsc_enable] that succeeds. *)
Lemma enable_clk_events (sc : gdsc) (w : world) :
  skip_disable_before_enable sc = false ->
  result (gdsc_enable hw sc) w = 0 ->
  filter is_clk_enable (issued (gdsc_enable hw sc) w) = root_clk_on sc
  /\ filter is_clk_disable (issued (gdsc_enable hw sc) w)
     = (if force_root_en sc then [EvClkDisable (root_clk_idx sc)] else [])
  /\ is_root_clk_voted (st (after (gdsc_enable hw sc) w))
     = (if force_root_en sc then false
        else if root_en sc then true else is_root_clk_voted (st w))
  /\ supply (after (gdsc_enable hw sc) w) = supply w.
Proof.
  intros Hskip. destruct w as [s sup tr k]. unfold root_clk_on.
  cbn [st supply].
  enter (gdsc_enable hw sc). unfold gdsc_enable. prims.
  rewrite Hskip. run.
  destruct (root_en sc) eqn:Hre; destruct (force_root_en sc) eqn:Hfe;
    cbn [orb]; run.
  all: match goal with
       | |- context [nonzero ?x] => destruct (nonzero x) eqn:Hbusy
       end; run;
    [ leave_call; discriminate | ].
  all: destruct (toggle_logic sc) eqn:Ht;
    [ framed_by side_quiet clk_quiet (fun r : Z => r <> 0);
      [| leave_call; congruence ]
    | ].
  all: run; rewrite ?Hfe; run; leave_call; intros _; trace_norm.
  all: clk_filter; repeat split.
Qed.


(** The clock votes of a [gdsc_disable] that gets past the parent check. *)
Lemma disable_clk_events (sc : gdsc) (w : world) :
  parent_ok w = true ->
  filter is_clk_enable (issued (gdsc_disable hw sc) w) = root_clk_forced sc
  /\ filter is_clk_disable (issued (gdsc_disable hw sc) w)
     = (if root_clk_off_needed sc w then [EvClkDisable (root_clk_idx sc)]
        else [])
  /\ is_root_clk_voted (st (after (gdsc_disable hw sc) w))
     = (if root_clk_off_needed sc w then false
        else is_root_clk_voted (st w)).
Proof.
  intros Hok. destruct w as [s sup tr k].
  unfold parent_ok, root_clk_off_needed, root_clk_forced in *.
  cbn [st supply] in *.
  enter (gdsc_disable hw sc). unfold gdsc_disable. prims. run.
  destruct sup as [p|]; run.
  1: assert (Hneg : (parent_enabled p <? 0) = false) by lia.
  1: assert (Hz : (parent_enabled p =? 0) = false) by lia.
  1: rewrite Hneg, Hz; run.
  all: destruct (force_root_en sc) eqn:Hfe; run.
  all: destruct (toggle_logic sc) eqn:Ht;
    [ framed_by side_quiet clk_quiet (fun _ : Z => False);
      [| contradiction ]
    | ].
  all: run; rewrite ?orb_true_r, ?orb_false_r; run_out.
  all: leave_call; trace_norm; clk_filter; repeat split.
Qed.

(** X7. The root clock over an enable and the disable that follows it.
    Take a domain that either does not defer its enable or does not hold a
    root-clock vote to begin with.  When [gdsc_enable] returns 0 and the
    parent check of the following [gdsc_disable] passes, the two calls
    together have enabled the root clock exactly as often as they have
    disabled it, and a domain that uses the root clock ends without a
    vote. *)
Theorem root_clk_paired (sc : gdsc) (w : world) :
  skip_disable_before_enable sc = false \/ is_root_clk_voted (st w) = false ->
  result (gdsc_enable hw sc) w = 0 ->
  parent_ok w = true ->
  length (filter is_clk_enable
            (issued (gdsc_enable hw sc) w
             ++ issued (gdsc_disable hw sc) (after (gdsc_enable hw sc) w)))
  = length (filter is_clk_disable
              (issued (gdsc_enable hw sc) w
               ++ issued (gdsc_disable hw sc) (after (gdsc_enable hw sc) w)))
  /\ (root_en sc || force_root_en sc = true ->
      is_root_clk_voted
        (st (after (gdsc_disable hw sc) (after (gdsc_enable hw sc) w)))
      = false).
Proof.
  intros Hstart Hres Hok.
  destruct (skip_disable_before_enable sc) eqn:Hskip.
  - destruct Hstart as [Hs|Hv]; [discriminate|].
    assert (E : call (gdsc_enable hw sc) w = (0, w)).
    { unfold gdsc_enable. rewrite call_block, Hskip. reflexivity. }
    destruct (disable_clk_events sc w Hok) as [He [Hd Hvoted]].
    unfold issued, after in *. rewrite E. cbn [snd].
    unfold since at 1 3. rewrite skipn_all. cbn [app].
    rewrite He, Hd, Hvoted.
    unfold root_clk_off_needed, root_clk_forced. rewrite Hv.
    destruct (root_en sc), (force_root_en sc); cbn; auto.
  - destruct (enable_clk_events sc w Hskip Hres) as [He [Hd [Hvoted Hsup]]].
    assert (Hok1 : parent_ok (after (gdsc_enable hw sc) w) = true).
    { unfold parent_ok in *. now rewrite Hsup. }
    destruct (disable_clk_events sc _ Hok1) as [He1 [Hd1 Hvoted1]].
    rewrite !filter_app, He, Hd, He1, Hd1, Hvoted1.
    unfold root_clk_off_needed, root_clk_on, root_clk_forced.
    rewrite Hvoted.
    destruct (root_en sc), (force_root_en sc);
      cbn; auto; destruct (is_root_clk_voted (st w)); cbn; auto;
      split; auto; discriminate.
Qed.


(** ** Disabling without a status check *)

(** X8. A register-toggled domain configured not to check its status on
    disable: once the parent check has passed, [gdsc_disable] requests the
    collapse, waits the fixed 100 microseconds instead of polling, and
    returns 0 whatever the hardware answers; the status register is never
    sampled by the poll loop. *)
Theorem disable_unchecked (sc : gdsc) (w : world) :
  toggle_logic sc = true ->
  no_status_check_on_disable sc = true ->
  parent_ok w = true ->
  result (gdsc_disable hw sc) w = 0
  /\ polls (after (gdsc_disable hw sc) w) = polls w
  /\ exists pre post,
      issued (gdsc_disable hw sc) w = pre ++ [EvDelay TIMEOUT_US] ++ post
      /\ Exists (requests_collapse sc) pre.
Proof.
  intros Ht Hcheck Hok. destruct w as [s sup tr k].
  unfold parent_ok in Hok. cbn [st supply polls] in *.
  enter (gdsc_disable hw sc). unfold gdsc_disable. prims.
  rewrite Ht, Hcheck. run.
  destruct sup as [p|]; run.
  1: assert (Hneg : (parent_enabled p <? 0) = false) by lia.
  1: assert (Hz : (parent_enabled p =? 0) = false) by lia.
  1: rewrite Hneg, Hz; run.
  all: destruct (force_root_en sc); run.
  all: framed trace_only (fun _ : Z => False); [|contradiction]; run.
  all: destruct (cv_regmap (collapse_vote sc)) eqn:Hcv; run.
  all: run_out; leave_call; trace_norm.
  all: split; [reflexivity|]; split; [reflexivity|].
  all: lazymatch goal with
       | |- exists pre post, ?X = _ /\ _ =>
           lazymatch X with
           | context C [EvDelay TIMEOUT_US :: ?tail] =>
               let pre := context C [@nil event] in
               exists pre, tail
           end
       end.
  all: split; [app_norm; reflexivity|].
  all: find_event
         ltac:(cbn [requests_collapse]; repeat split;
               first [ assumption | apply collapse_set
                     | apply vote_requested ]).
Qed.


(** ** A poll budget that is not positive *)

Lemma no_budget (sc : gdsc) :
  gds_timeout sc = 0 \/ 2 ^ 31 <= gds_timeout sc < 2 ^ 32 ->
  budget sc = O.
Proof.
  intros H. unfold budget, s32, u32.
  destruct H as [-> | H]; [reflexivity|].
  rewrite Z.mod_small by lia.
  destruct (Z.ltb_spec (gds_timeout sc) (2 ^ 31)); lia.
Qed.

(** X9. A poll budget of 0, or one with bit 31 set (negative once stored
    in the loop's [int] counter): [poll_gdsc_status] returns -ETIMEDOUT at
    once, without reading any register, and so a register-toggled domain
    that does not defer its enable can never be enabled, whatever the
    hardware answers. *)
Theorem no_budget_no_enable (sc : gdsc) (w : world) :
  gds_timeout sc = 0 \/ 2 ^ 31 <= gds_timeout sc < 2 ^ 32 ->
  (forall status, call (poll_gdsc_status hw sc status) w = (- ETIMEDOUT, w))
  /\ (toggle_logic sc = true -> skip_disable_before_enable sc = false ->
      result (gdsc_enable hw sc) w <> 0).
Proof.
  intros Hb. apply no_budget in Hb. split.
  - intros status. unfold poll_gdsc_status. rewrite call_block.
    change (Z.to_nat (s32 (gds_timeout sc))) with (budget sc).
    rewrite Hb. now destruct w.
  - intros Ht Hskip. destruct w as [s sup tr k].
    enter (gdsc_enable hw sc). unfold gdsc_enable. prims.
    rewrite Hskip, Ht. run.
    destruct (root_en sc || force_root_en sc); run.
    all: match goal with
         | |- context [nonzero ?x] => destruct (nonzero x) eqn:Hbusy
         end; run;
      [ leave_call; discriminate | ].
    all: do 3 (framed supply_kept (fun _ : Z => False); [|contradiction];
               run).
    all: polled; run; [ | lia ].
    all: destruct (hw_ctrl sc); run;
      [ polled; run; [ | lia ] | ].
    all: leave_call; discriminate.
Qed.


(** ** When an enable is refused *)

(** [gdsc_enable] answers -EBUSY only when the primary register read back
    with bit 1 set. *)
Lemma enable_busy_only_if (sc : gdsc) (w : world) :
  result (gdsc_enable hw sc) w = - EBUSY ->
  skip_disable_before_enable sc = false
  /\ Z.testbit (hw (trace w ++ root_clk_on sc) Gdscr) 1 = true.
Proof.
  destruct w as [s sup tr k]. unfold root_clk_on. cbn [trace].
  enter (gdsc_enable hw sc). unfold gdsc_enable. prims. run.
  destruct (skip_disable_before_enable sc); run;
    [ leave_call; discriminate | ].
  destruct (root_en sc || force_root_en sc); run.
  all: rewrite busy_bit, ?app_nil_r.
  all: match goal with
       | |- context [Z.testbit ?x 1] => destruct (Z.testbit x 1) eqn:Hbusy
       end; run;
    [ leave_call; intros _; now split | ].
  all: destruct (toggle_logic sc) eqn:Ht; run.
  1,3: do 3 (framed trace_only (fun _ : Z => False); [|contradiction]; run).
  1,2: polled; run.
  1,3: destruct (hw_ctrl sc); run;
    [ polled; run | ].
  all: run_out; leave_call; discriminate.
Qed.

(** With bit 1 set in the word read back, [gdsc_enable] answers -EBUSY. *)
Lemma enable_busy_if (sc : gdsc) (w : world) :
  skip_disable_before_enable sc = false ->
  Z.testbit (hw (trace w ++ root_clk_on sc) Gdscr) 1 = true ->
  result (gdsc_enable hw sc) w = - EBUSY.
Proof.
  intros Hskip. destruct w as [s sup tr k]. unfold root_clk_on.
  cbn [trace].
  enter (gdsc_enable hw sc). unfold gdsc_enable. prims.
  rewrite Hskip. run.
  destruct (root_en sc || force_root_en sc); run.
  all: rewrite busy_bit, ?app_nil_r; intros E Hbusy; revert E;
    rewrite Hbusy; run; now leave_call.
Qed.

End Operations.

(** * Properties of the probe *)

Section Probing.

Variable hw : list event -> regmap -> Z.

(** ** The state read back from the hardware *)

Lemma mask_bit x k :
  0 <= k < 32 ->
  nonzero (Z.land (u32 x) (u32 (BIT k))) = Z.testbit x k.
Proof.
  intros Hk. unfold u32 at 2. rewrite Z.mod_small.
  - rewrite nonzero_land_BIT by lia. now rewrite testbit_u32 by lia.
  - unfold BIT. rewrite Z.shiftl_1_l. split; [lia|].
    apply Z.pow_lt_mono_r; lia.
Qed.

(** X10. [gdsc_is_enabled] after [gdsc_init_is_enabled], for a domain that
    does not defer its enable and whose vote bit is one of the 32 bits of
    the vote register.  A register-toggled domain reports enabled exactly
    when the hardware answers with the collapse request clear: the vote
    bit of the vote register for a voting domain, bit 0 of the primary
    register otherwise; that read is all the function issues.  A
    reset-controlled domain reports what it reported before, and no
    register is accessed. *)
Theorem init_then_is_enabled (sc : gdsc) (w : world) :
  skip_disable_before_enable sc = false ->
  0 <= vote_bit (collapse_vote sc) < 32 ->
  result (gdsc_init_is_enabled hw sc) w = 0
  /\ (toggle_logic sc = true ->
      result (gdsc_is_enabled sc) (after (gdsc_init_is_enabled hw sc) w)
      = Z.b2z (negb (Z.testbit (hw (trace w) (collapse_regmap sc))
                               (collapse_bit sc)))
      /\ issued (gdsc_init_is_enabled hw sc) w
         = [EvRead (collapse_regmap sc)
                   (u32 (hw (trace w) (collapse_regmap sc)))])
  /\ (toggle_logic sc = false ->
      result (gdsc_is_enabled sc) (after (gdsc_init_is_enabled hw sc) w)
      = result (gdsc_is_enabled sc) w
      /\ issued (gdsc_init_is_enabled hw sc) w = []).
Proof.
  intros Hskip Hk. destruct w as [s sup tr k].
  unfold collapse_regmap, collapse_bit. cbn [trace].
  enter (gdsc_init_is_enabled hw sc). unfold gdsc_init_is_enabled. prims.
  run. destruct (toggle_logic sc) eqn:Ht; run.
  - destruct (cv_regmap (collapse_vote sc)); run.
    all: leave_call; trace_norm.
    all: split; [reflexivity|]; split; [|discriminate]; intros _.
    all: split; [|reflexivity].
    all: enter (gdsc_is_enabled sc); unfold gdsc_is_enabled;
      rewrite Ht, Hskip; run; leave_call.
    all: unfold SW_COLLAPSE_MASK; rewrite mask_bit by lia; reflexivity.
  - leave_call; trace_norm.
    split; [reflexivity|]; split; [discriminate|]; intros _.
    split; [|reflexivity].
    unfold gdsc_is_enabled, call, block, mbind, get_state, leave.
    rewrite Ht. cbn. now destruct (resets_asserted s).
Qed.


(** X11. [gdsc_get_mode] after [gdsc_init_hw_ctrl_mode]: the mode reported
    is FAST exactly when the hardware answers the one read of the primary
    register with bit 1 (hw_control) set, and NORMAL otherwise; nothing
    else of the driver state changes. *)
Theorem init_then_get_mode (sc : gdsc) (w : world) :
  result (gdsc_init_hw_ctrl_mode hw) w = 0
  /\ result (gdsc_get_mode sc) (after (gdsc_init_hw_ctrl_mode hw) w)
     = (if Z.testbit (hw (trace w) Gdscr) 1 then REGULATOR_MODE_FAST
        else REGULATOR_MODE_NORMAL)
  /\ issued (gdsc_init_hw_ctrl_mode hw) w
     = [EvRead Gdscr (u32 (hw (trace w) Gdscr))]
  /\ is_gdsc_enabled (st (after (gdsc_init_hw_ctrl_mode hw) w))
     = is_gdsc_enabled (st w)
  /\ resets_asserted (st (after (gdsc_init_hw_ctrl_mode hw) w))
     = resets_asserted (st w)
  /\ is_root_clk_voted (st (after (gdsc_init_hw_ctrl_mode hw) w))
     = is_root_clk_voted (st w).
Proof.
  destruct w as [s sup tr k]. cbn [trace st].
  enter (gdsc_init_hw_ctrl_mode hw). unfold gdsc_init_hw_ctrl_mode. prims.
  run. leave_call. trace_norm.
  repeat split.
  unfold gdsc_get_mode, call, mbind, get_state, mret. cbn.
  now rewrite busy_bit.
Qed.


(** ** The configuration write *)

Lemma control_bits_cleared v i :
  0 <= i ->
  Z.testbit (Z.land v (Z.lnot (Z.lor HW_CONTROL_MASK SW_OVERRIDE_MASK))) i
  = Z.testbit v i && negb ((i =? 1) || (i =? 2)).
Proof.
  intros Hi. unfold HW_CONTROL_MASK, SW_OVERRIDE_MASK.
  rewrite Z.land_spec, Z.lnot_spec, Z.lor_spec by assumption.
  now rewrite !testbit_BIT by lia.
Qed.

Lemma wait_mask_bits i :
  0 <= i ->
  Z.testbit CLK_DIS_WAIT_MASK i = (12 <=? i) && (i <? 16).
Proof.
  intros Hi. unfold CLK_DIS_WAIT_MASK.
  rewrite Z.shiftl_spec by assumption.
  change 15 with (Z.ones 4). rewrite Z.testbit_ones by lia.
  destruct (Z.leb_spec 12 i), (Z.leb_spec 0 (i - 12)),
    (Z.ltb_spec (i - 12) 4), (Z.ltb_spec i 16); try lia; reflexivity.
Qed.

Lemma wait_val_bits d i :
  0 <= i < 32 ->
  Z.testbit (u32 (Z.shiftl (u32 d) CLK_DIS_WAIT_SHIFT)) i
  = (12 <=? i) && Z.testbit d (i - 12).
Proof.
  intros Hi. unfold CLK_DIS_WAIT_SHIFT.
  rewrite testbit_u32, Z.shiftl_spec by lia.
  destruct (Z.leb_spec 12 i) as [Hge|Hlt].
  - now rewrite testbit_u32 by lia.
  - now rewrite Z.testbit_neg_r by lia.
Qed.

(** X12. The first thing [gdsc_probe] does to the hardware is one read of
    the primary register followed by one write of it.  In the word written
    bit 1 (hw_control) and bit 2 (sw_override) are clear.  Without
    [qcom,clk-dis-wait-val] every other bit is as read.  With it, bits
    12..15 hold the low four bits of the value; the higher bits of the
    value are not masked off and are or-ed into bits 16 and up; the
    remaining bits are as read. *)
Theorem probe_configures (pdev : platform_device) (sc : gdsc) (w : world) :
  exists v rest,
    issued (gdsc_probe_sc hw pdev sc) w
    = EvRead Gdscr (u32 (hw (trace w) Gdscr)) :: EvWrite Gdscr v :: rest
    /\ forall i,
        0 <= i < 32 ->
        Z.testbit v i
        = if (i =? 1) || (i =? 2) then false
          else
            match of_clk_dis_wait_val (of_node pdev) with
            | None => Z.testbit (hw (trace w) Gdscr) i
            | Some d =>
                if (12 <=? i) && (i <? 16) then Z.testbit d (i - 12)
                else Z.testbit (hw (trace w) Gdscr) i
                     || ((16 <=? i) && Z.testbit d (i - 12))
            end.
Proof.
  destruct w as [s sup tr k]. cbn [trace].
  enter (gdsc_probe_sc hw pdev sc). unfold gdsc_probe_sc. prims. run.
  destruct (of_clk_dis_wait_val (of_node pdev)) as [d|]; run.
  all: framed_call anything; leave_call; trace_norm.
  all: do 2 eexists; split; [reflexivity|]; intros i Hi.
  - rewrite Z.lor_spec, Z.land_spec, Z.lnot_spec by lia.
    rewrite control_bits_cleared, wait_mask_bits, wait_val_bits by lia.
    rewrite testbit_u32 by lia.
    destruct (Z.eqb_spec i 1), (Z.eqb_spec i 2), (Z.leb_spec 12 i),
      (Z.ltb_spec i 16), (Z.leb_spec 16 i); try lia; cbn;
      rewrite ?andb_true_r, ?andb_false_r, ?orb_false_r; reflexivity.
  - rewrite control_bits_cleared, testbit_u32 by lia.
    destruct ((i =? 1) || (i =? 2)); cbn;
      [apply andb_false_r | apply andb_true_r].
Qed.


End Probing.

(** Running the messages of the parsing. *)

Lemma log_all_run (l : list loglevel) : forall w,
  log_all l w
  = (Next tt, {| st := st w; supply := supply w;
                 trace := trace w ++ map EvLog l; polls := polls w |}).
Proof.
  induction l as [|lvl l IH]; intros w.
  - cbn. rewrite app_nil_r. now destruct w.
  - cbn [log_all]. unfold mbind, emit. rewrite IH.
    cbn [st supply trace polls map]. now rewrite <- app_assoc.
Qed.

Lemma head_bind_log (res : Z * world) (G : Prop) l (f : unit -> M Z)
    s sup tr k :
  (call (f tt)
        {| st := s; supply := sup; trace := tr ++ map EvLog l;
           polls := k |} = res -> G) ->
  call (mbind (log_all l) f)
       {| st := s; supply := sup; trace := tr; polls := k |} = res -> G.
Proof. unfold call, mbind. now rewrite log_all_run. Qed.

Ltac logged :=
  lazymatch goal with
  | |- _ = ?res -> ?G => refine (head_bind_log res G _ _ _ _ _ _ _)
  end; cbv beta.

(** The return of a called function, taken apart without computing. *)
Ltac ret1 :=
  lazymatch goal with
  | |- (?r, ?W) = (?r1, ?w1) -> _ =>
      is_var r1; is_var w1;
      let E := fresh "E" in
      intros E; apply pair_equal_spec in E; destruct E as [? ?];
      subst r1 w1; cbv beta
  end.

(** [run] through the calls of functions that return 0. *)
Ltac run0 :=
  repeat (progress (repeat first [ret1 | run1]; tidy;
                    try change (nonzero 0) with false)).

Ltac run_out0 := run0; repeat (split_head; run0).


Section ProbingDevice.

Variable hw : list event -> regmap -> Z.

(** ** A reset-controlled domain is forced on *)

(** X16. A probe that returns 0 for a domain found to be reset-controlled
    has written the primary register with the collapse bit clear and has
    afterwards read the status register with bit 31 (power on) set, that
    word being what the hardware answered; [gdsc_is_enabled] then reports
    the domain enabled. *)
Theorem probe_forces_on (pdev : platform_device) (max_reg : Z) (w : world) :
  toggle_logic (probed_gdsc pdev max_reg) = false ->
  result (gdsc_probe hw pdev max_reg) w = 0 ->
  result (gdsc_is_enabled (probed_gdsc pdev max_reg))
         (after (gdsc_probe hw pdev max_reg) w) = 1
  /\ exists pre v post,
      issued (gdsc_probe hw pdev max_reg) w
      = pre ++ [EvRead (status_regmap (probed_gdsc pdev max_reg)) v] ++ post
      /\ Exists clears_collapse_bit pre
      /\ Z.testbit v 31 = true
      /\ v = u32 (hw (trace w ++ pre)
                     (status_regmap (probed_gdsc pdev max_reg))).
Proof.
  intros Ht. set (sc := probed_gdsc pdev max_reg) in *.
  destruct w as [s sup tr k]. cbn [trace].
  enter (gdsc_probe hw pdev max_reg).
  unfold gdsc_probe, gdsc_probe_sc, gdsc_init_is_enabled,
    gdsc_init_hw_ctrl_mode. prims. fold sc. rewrite Ht. run.
  destruct (devm_kzalloc pdev); run; [|leave_call; discriminate].
  logged.
  destruct (nonzero (fst (parsed pdev max_reg))) eqn:Hp; run;
    [ leave_call; intros E; apply nonzero_true in Hp; congruence | ].
  logged.
  destruct (nonzero (fst (resourced pdev max_reg))) eqn:Hr; run;
    [ leave_call; intros E; apply nonzero_true in Hr; congruence | ].
  destruct (of_clk_dis_wait_val (of_node pdev)) as [d|]; run0.
  all: polled; run0; [leave_call; discriminate|].
  all: destruct (devm_regulator_register pdev) as [e|]; run0.
  all: run_out0; leave_call; intros _.
  all: split;
    [ unfold gdsc_is_enabled, call, block, mbind, get_state, leave;
      rewrite Ht; reflexivity | ].
  all: apply genuine_last in Hg; trace_norm; split_at v.
  all: split; [app_norm; reflexivity|].
  all: split; [|split; [assumption|]].
  all: try (etransitivity; [exact Hg|]; do 2 f_equal;
            app_norm; now rewrite ?app_nil_r).
  all: apply Exists_app; right.
  all: find_event ltac:(cbn [clears_collapse_bit]; apply collapse_cleared).
Qed.

End ProbingDevice.

(** * Against a register file

    The properties below are about hardware that stores what is written
    to it ([sim_hw]), whatever its power switch does and whatever the
    registers hold at first. *)

Section RegisterFile.

Variable pwr : list event -> bool.
Variable init : reg_file.

Lemma reg_apply_quiet (f : reg_file) (e : event) :
  writes_gdscr e = false -> reg_apply f e Gdscr = f Gdscr.
Proof.
  destruct e as [r v|r v|r m v| | | | | | | |]; cbn; try reflexivity.
  - destruct r; cbn; (discriminate || reflexivity).
  - destruct r; cbn; (discriminate || reflexivity).
Qed.

Lemma fold_quiet (l : list event) : forall f,
  Forall (fun e => writes_gdscr e = false) l ->
  fold_left reg_apply l f Gdscr = f Gdscr.
Proof.
  induction l as [|e l IH]; intros f H; [reflexivity|].
  inversion H as [|? ? He Hl]; subst. cbn [fold_left].
  rewrite IH by assumption. now apply reg_apply_quiet.
Qed.

(** Events that do not write the primary register leave it as it is. *)
Lemma gdscr_skip_list (l1 l2 : list event) :
  Forall (fun e => writes_gdscr e = false) l2 ->
  fold_left reg_apply (l1 ++ l2) init Gdscr
  = fold_left reg_apply l1 init Gdscr.
Proof. intros H. rewrite fold_left_app. now apply fold_quiet. Qed.

(** A write of the primary register is what it holds afterwards. *)
Lemma gdscr_write (l : list event) (v : Z) :
  fold_left reg_apply (l ++ [EvWrite Gdscr v]) init Gdscr = v.
Proof. rewrite fold_left_app. reflexivity. Qed.

(** Bit 31 apart, the primary register reads as the register file holds
    it. *)
Lemma sim_hw_bit (tr : list event) (i : Z) :
  0 <= i < 31 ->
  Z.testbit (sim_hw pwr init tr Gdscr) i
  = Z.testbit (fold_left reg_apply tr init Gdscr) i.
Proof.
  intros Hi. unfold sim_hw, PWR_ON_MASK. destruct (pwr tr).
  - rewrite testbit_set_BIT by lia.
    replace (i =? 31) with false by lia. apply orb_false_r.
  - rewrite testbit_clear_BIT by lia.
    replace (i =? 31) with false by lia. apply andb_true_r.
Qed.

Lemma failed_samples_quiet r vs :
  Forall (fun e => writes_gdscr e = false) (failed_samples r vs).
Proof.
  induction vs as [|v vs IH]; cbn; repeat constructor. exact IH.
Qed.

Lemma logs_quiet (l : list loglevel) :
  Forall (fun e => writes_gdscr e = false) (map EvLog l).
Proof. induction l; cbn; now constructor. Qed.

Lemma root_clk_on_quiet (sc : gdsc) :
  Forall (fun e => writes_gdscr e = false) (root_clk_on sc).
Proof.
  unfold root_clk_on. destruct (root_en sc || force_root_en sc);
    repeat constructor.
Qed.

End RegisterFile.

(** Shows that a list written out holds no write of the primary
    register. *)
Ltac quiet :=
  repeat first [ assumption
               | apply Forall_nil
               | apply Forall_cons; [reflexivity|]
               | apply Forall_app; split
               | apply failed_samples_quiet
               | apply logs_quiet
               | apply root_clk_on_quiet ].

(** Finds what the primary register holds after a trace written out. *)
Ltac peel :=
  repeat first [ rewrite gdscr_skip_list by quiet | rewrite gdscr_write ].

Section ModeOnRegisterFile.

Variable pwr : list event -> bool.
Variable init : reg_file.

(** X14. On a register file, the busy rule follows the mode switch.  The
    [gdsc_enable] that comes right after a successful [gdsc_set_mode] is
    refused with -EBUSY when the switch was to the FAST mode, and is not
    refused with -EBUSY when it was to the NORMAL mode; the domain is one
    that does not defer its enable. *)
Theorem mode_decides_busy (sc : gdsc) (mode : Z) (w : world) :
  result (gdsc_set_mode (sim_hw pwr init) sc mode) w = 0 ->
  skip_disable_before_enable sc = false ->
  (mode = REGULATOR_MODE_FAST ->
   result (gdsc_enable (sim_hw pwr init) sc)
          (after (gdsc_set_mode (sim_hw pwr init) sc mode) w) = - EBUSY)
  /\ (mode = REGULATOR_MODE_NORMAL ->
      result (gdsc_enable (sim_hw pwr init) sc)
             (after (gdsc_set_mode (sim_hw pwr init) sc mode) w) <> - EBUSY).
Proof.
  intros Hres Hskip.
  assert (Hbit : Z.testbit
                   (sim_hw pwr init
                      (trace (after (gdsc_set_mode (sim_hw pwr init) sc mode) w)
                       ++ root_clk_on sc) Gdscr) 1
                 = (mode =? REGULATOR_MODE_FAST)).
  { revert Hres. destruct w as [s sup tr k].
    enter (gdsc_set_mode (sim_hw pwr init) sc mode).
    unfold gdsc_set_mode. prims. run.
    destruct sup as [p|]; run.
    1: destruct (parent_enabled p <? 0) eqn:Hneg; run;
      [ leave_call; lia | ].
    1: destruct (parent_enabled p =? 0) eqn:Hz; run;
      [ leave_call; discriminate | ].
    all: destruct (mode =? REGULATOR_MODE_FAST) eqn:Hf; run;
      [ | destruct (mode =? REGULATOR_MODE_NORMAL) eqn:Hn; run;
          [ destruct (is_gdsc_enabled s); run;
            [ polled; run; [leave_call; discriminate|] | ]
          | leave_call; discriminate ] ].
    all: leave_call; intros _.
    all: rewrite sim_hw_bit by lia; peel.
    all: first [apply hw_control_set | apply hw_control_cleared]. }
  split; intros ->.
  - apply enable_busy_if; [exact Hskip | exact Hbit].
  - intros Hb. apply enable_busy_only_if in Hb. destruct Hb as [_ Hb].
    rewrite Hbit in Hb. discriminate.
Qed.

End ModeOnRegisterFile.

Section PromptHardware.

Variable init : reg_file.

(** The status register shows what the power switch does. *)
Lemma sim_hw_pwr pwr (sc : gdsc) (tr : list event) :
  Z.testbit (sim_hw pwr init tr (status_regmap sc)) 31 = pwr tr.
Proof.
  unfold sim_hw, status_regmap, PWR_ON_MASK.
  destruct (hw_ctrl sc), (pwr tr);
    rewrite ?testbit_set_BIT, ?testbit_clear_BIT by lia;
    cbn; rewrite ?orb_true_r, ?andb_false_r; reflexivity.
Qed.

(** A poll that finds the state waited for at its first sample. *)
Lemma head_poll_now hw (res : Z * world) (G : Prop) sc status
    (f : Z -> M Z) s sup tr k :
  sample_matches status (hw tr (status_regmap sc)) = true ->
  (1 <= budget sc)%nat ->
  (call (f 0)
        {| st := s; supply := sup;
           trace := tr ++ [EvRead (status_regmap sc)
                                  (u32 (hw tr (status_regmap sc)))];
           polls := (k + 1)%nat |} = res -> G) ->
  call (mbind (poll_gdsc_status hw sc status) f)
       {| st := s; supply := sup; trace := tr; polls := k |} = res -> G.
Proof.
  intros Hnow Hb Hk.
  assert (Hu : sample_matches status (u32 (hw tr (status_regmap sc))) = true).
  { destruct status; unfold sample_matches in *;
      now rewrite testbit_u32 by lia. }
  apply head_poll.
  - intros vs Hvs Hl Hg. exfalso.
    destruct vs as [|v vs]; [cbn in Hl; lia|].
    cbn in Hg. destruct Hg as [Hv _]. inversion Hvs as [|? ? Hf _]; subst.
    rewrite Hu in Hf. discriminate.
  - intros vs v Hvs Hl Hg Hm.
    destruct vs as [|v0 vs].
    + cbn in Hg. destruct Hg as [Hv _]. subst v.
      cbn [length failed_samples flat_map app]. now rewrite Nat.add_0_r.
    + exfalso. cbn in Hg. destruct Hg as [Hv _].
      inversion Hvs as [|? ? Hf _]; subst. rewrite Hu in Hf. discriminate.
Qed.

End PromptHardware.

(** The poll at the head succeeds at once, for the reason [why]. *)
Ltac polled_now why :=
  lazymatch goal with
  | |- _ = ?res -> ?G =>
      refine (head_poll_now _ res G _ _ _ _ _ _ _ _ _ _); [why | lia | ]
  end; cbv beta; change (nonzero 0) with false.

Section OnPromptHardware.

Variable init : reg_file.

(** X22. Hardware whose power switch follows the collapse bit of the
    primary register at once, and which stores what is written.  Take a
    register-toggled domain that does not vote, with a positive poll
    budget.  [gdsc_enable], when the domain does not defer its enable and
    the primary register holds bit 1 clear, returns 0 after a single
    sample of the status register; [gdsc_disable], when the parent check
    passes and the status is checked, returns 0 after a single sample as
    well. *)
Theorem prompt_hardware (sc : gdsc) (w : world) :
  toggle_logic sc = true ->
  cv_regmap (collapse_vote sc) = false ->
  (1 <= budget sc)%nat ->
  (skip_disable_before_enable sc = false ->
   Z.testbit (fold_left reg_apply (trace w) init Gdscr) 1 = false ->
   result (gdsc_enable (sim_hw (follows_collapse init) init) sc) w = 0
   /\ polls (after (gdsc_enable (sim_hw (follows_collapse init) init) sc) w)
      = (polls w + 1)%nat)
  /\ (parent_ok w = true ->
      no_status_check_on_disable sc = false ->
      result (gdsc_disable (sim_hw (follows_collapse init) init) sc) w = 0
      /\ polls (after (gdsc_disable (sim_hw (follows_collapse init) init) sc)
                      w)
         = (polls w + 1)%nat).
Proof.
  intros Ht Hcv Hb. destruct w as [s sup tr k].
  unfold parent_ok. cbn [trace supply polls].
  remember (sim_hw (follows_collapse init) init) as hw eqn:Ehw.
  split.
  - intros Hskip Hfree.
    enter (gdsc_enable hw sc). unfold gdsc_enable. prims.
    rewrite Hskip, Ht, Hcv. run.
    destruct (root_en sc || force_root_en sc); run.
    all: match goal with
         | |- context [nonzero (Z.land (u32 (?h ?t Gdscr)) HW_CONTROL_MASK)] =>
             replace (nonzero (Z.land (u32 (h t Gdscr)) HW_CONTROL_MASK))
               with false
               by (subst hw; rewrite busy_bit, sim_hw_bit by lia; peel;
                   now rewrite Hfree)
         end; run.
    all: do 2 (framed_by side_easy gdscr_quiet (fun _ : Z => False);
               [|contradiction]; run).
    all: polled_now
           ltac:(subst hw; unfold sample_matches; rewrite sim_hw_pwr;
                 unfold follows_collapse; peel;
                 now rewrite collapse_cleared).
    all: run_out0; leave_call; split; reflexivity.
  - intros Hok Hcheck.
    enter (gdsc_disable hw sc). unfold gdsc_disable. prims.
    rewrite Ht, Hcv, Hcheck. run.
    destruct sup as [p|]; run.
    1: assert (Hneg : (parent_enabled p <? 0) = false) by lia.
    1: assert (Hz : (parent_enabled p =? 0) = false) by lia.
    1: rewrite Hneg, Hz; run.
    all: destruct (force_root_en sc); run.
    all: framed_by side_easy gdscr_quiet (fun _ : Z => False);
      [|contradiction]; run.
    all: polled_now
           ltac:(subst hw; unfold sample_matches; rewrite sim_hw_pwr;
                 unfold follows_collapse; peel;
                 now rewrite collapse_set).
    all: run_out0; leave_call; split; reflexivity.
Qed.

End OnPromptHardware.

(** * Properties of the parsing *)

Lemma holds_and_then (P Q R : probing -> Prop) (s : step)
    (k : probing -> step) :
  holds P R s -> (forall p, P p -> holds Q R (k p)) ->
  holds Q R (and_then s k).
Proof. destruct s as [ret p|p]; cbn; auto. Qed.

Lemma holds_finish (Q R : probing -> Prop) (s : step) :
  holds Q R s -> (forall p, Q p -> R p) ->
  fst (finish s) = 0 -> R (snd (finish s)).
Proof. destruct s as [ret p|p]; cbn; auto. Qed.

Lemma u32_range x : 0 <= u32 x < 2 ^ 32.
Proof. unfold u32. apply Z.mod_pos_bound. lia. Qed.

(** Takes the boolean conditions met on a path apart. *)
Ltac bools :=
  unfold nonzero in *;
  repeat match goal with
         | H : _ || _ = true |- _ => apply orb_true_iff in H; destruct H
         | H : _ || _ = false |- _ => apply orb_false_iff in H; destruct H
         | H : _ && _ = true |- _ => apply andb_true_iff in H; destruct H
         | H : _ && _ = false |- _ => apply andb_false_iff in H; destruct H
         | H : negb _ = true |- _ => apply negb_true_iff in H
         | H : negb _ = false |- _ => apply negb_false_iff in H
         end.

(** Takes a statement of the parsing apart. *)
Ltac stage :=
  cbv zeta;
  repeat match goal with
         | |- holds _ _ ?e =>
             match e with
             | context [if ?b then _ else _] => destruct b eqn:?
             | context [match ?x with _ => _ end] => destruct x eqn:?
             end
         end;
  unfold holds, parse_early, parse_voted, parse_late, parse_done,
    vote_bit_in_range in *;
  cbn in *; bools; intuition (try lia; try congruence);
  try (right; intuition (try lia; try congruence));
  try (bools; first [lia | congruence]).

Lemma early_done p : parse_early p -> parse_done p.
Proof. stage. Qed.

Lemma late_done p : parse_late p -> parse_done p.
Proof. stage. Qed.

Lemma get_init_data_holds np p :
  parse_early p -> holds parse_early parse_done (get_init_data np p).
Proof. intros Hp. unfold get_init_data. stage. Qed.

Lemma get_parent_supply_holds np p :
  parse_early p -> holds parse_early parse_done (get_parent_supply np p).
Proof. intros Hp. unfold get_parent_supply. stage. Qed.

Lemma get_regulator_name_holds np p :
  parse_early p -> holds parse_early parse_done (get_regulator_name np p).
Proof. intros Hp. unfold get_regulator_name. stage. Qed.

Lemma lookup_regmap_holds h (set : bool -> gdsc -> gdsc) p :
  (forall sc, reset_count (set true sc) = reset_count sc
              /\ toggle_logic (set true sc) = toggle_logic sc
              /\ collapse_vote (set true sc) = collapse_vote sc) ->
  parse_early p -> holds parse_early parse_done (lookup_regmap h set p).
Proof.
  intros Hset Hp. destruct (Hset (conf p)) as [Hr [Ht Hv]].
  unfold lookup_regmap. destruct h; cbn [of_find_property].
  all: unfold holds, parse_early, parse_done in *;
    cbn [conf on_conf clock_count]; try rewrite Hr, Ht, Hv;
    intuition (try lia; try congruence).
Qed.

Lemma get_gds_timeout_holds np p :
  parse_early p -> holds parse_early parse_done (get_gds_timeout np p).
Proof. intros Hp. unfold get_gds_timeout. stage. Qed.

Lemma get_clock_count_holds np p :
  parse_early p -> holds parse_early parse_done (get_clock_count np p).
Proof. intros Hp. unfold get_clock_count. stage. Qed.

Lemma get_flags_holds np p :
  parse_early p -> holds parse_early parse_done (get_flags np p).
Proof. intros Hp. unfold get_flags. stage. Qed.

Lemma get_collapse_vote_holds np p :
  parse_early p -> holds parse_voted parse_done (get_collapse_vote np p).
Proof.
  intros Hp. unfold get_collapse_vote.
  pose proof (u32_range (snd (of_collapse_vote_bit np))).
  stage.
Qed.

Lemma get_toggle_logic_holds np p :
  parse_voted p -> holds parse_late parse_done (get_toggle_logic np p).
Proof. intros Hp. unfold get_toggle_logic. stage. Qed.

Lemma get_support_hw_trigger_holds np p :
  parse_late p -> holds parse_late parse_done (get_support_hw_trigger np p).
Proof. intros Hp. unfold get_support_hw_trigger. stage. Qed.

Lemma fresh_early max_reg : parse_early (fresh_probing max_reg).
Proof. stage. Qed.

(** What [gdsc_parse_dt_data] returns 0 with, from a fresh structure. *)
Lemma parse_final (np : device_node) (max_reg : Z) :
  fst (gdsc_parse_dt_data np (fresh_probing max_reg)) = 0 ->
  parse_done (snd (gdsc_parse_dt_data np (fresh_probing max_reg))).
Proof.
  unfold gdsc_parse_dt_data.
  apply holds_finish with (Q := parse_late); [|apply late_done].
  apply holds_and_then with (P := parse_late);
    [|intros; now apply get_support_hw_trigger_holds].
  apply holds_and_then with (P := parse_voted);
    [|intros; now apply get_toggle_logic_holds].
  apply holds_and_then with (P := parse_early);
    [|intros; now apply get_collapse_vote_holds].
  repeat (apply holds_and_then with (P := parse_early);
          [| intros;
             first [ now apply get_flags_holds
                   | now apply get_clock_count_holds
                   | now apply get_gds_timeout_holds
                   | apply lookup_regmap_holds; [now intros sc|assumption]
                   | now apply get_regulator_name_holds
                   | now apply get_parent_supply_holds ] ]).
  apply get_init_data_holds, fresh_early.
Qed.

(** X17. When [gdsc_parse_dt_data] returns 0 for a freshly allocated
    structure, the clock count and the reset count it leaves are not
    negative; a domain it has made register-toggled has no reset lines,
    and if such a domain votes, its vote bit is one of the bits 0..31. *)
Theorem parse_counts (np : device_node) (max_reg : Z) :
  fst (gdsc_parse_dt_data np (fresh_probing max_reg)) = 0 ->
  0 <= clock_count (snd (gdsc_parse_dt_data np (fresh_probing max_reg)))
  /\ 0 <= reset_count
            (conf (snd (gdsc_parse_dt_data np (fresh_probing max_reg))))
  /\ (toggle_logic
        (conf (snd (gdsc_parse_dt_data np (fresh_probing max_reg)))) = true ->
      reset_count
        (conf (snd (gdsc_parse_dt_data np (fresh_probing max_reg)))) = 0
      /\ (cv_regmap
            (collapse_vote
               (conf (snd (gdsc_parse_dt_data np (fresh_probing max_reg)))))
          = true ->
          0 <= vote_bit
                 (collapse_vote
                    (conf (snd (gdsc_parse_dt_data np
                                  (fresh_probing max_reg)))))
            <= 31)).
Proof.
  intros H. apply parse_final in H.
  destruct H as [Hc [Hr [Ht Hv]]].
  split; [exact Hc|]. split; [exact Hr|]. intros Htoggle.
  split; [now apply Ht|]. intros Hcv.
  destruct (Hv Hcv) as [Hin|[_ [Hf _]]]; [exact Hin | congruence].
Qed.

(** X18. A vote bit above 31 does not make [gdsc_parse_dt_data] fail.
    When the function returns 0 with a vote register and a vote bit above
    31 in the structure, it has returned from the check of the vote bit:
    the domain is left reset-controlled with no reset line, whatever the
    device tree says about [qcom,skip-logic-collapse] and [reset-names]. *)
Theorem parse_vote_bit_above_31 (np : device_node) (max_reg : Z) :
  fst (gdsc_parse_dt_data np (fresh_probing max_reg)) = 0 ->
  cv_regmap
    (collapse_vote
       (conf (snd (gdsc_parse_dt_data np (fresh_probing max_reg))))) = true ->
  31 < vote_bit
         (collapse_vote
            (conf (snd (gdsc_parse_dt_data np (fresh_probing max_reg))))) ->
  toggle_logic (conf (snd (gdsc_parse_dt_data np (fresh_probing max_reg))))
  = false
  /\ reset_count
       (conf (snd (gdsc_parse_dt_data np (fresh_probing max_reg)))) = 0.
Proof.
  intros H Hcv Hbit. apply parse_final in H.
  destruct H as [_ [_ [_ Hv]]].
  destruct (Hv Hcv) as [Hin|[_ [Hf Hr]]]; [lia | now split].
Qed.

(** * Properties of the resources *)

Lemma get_clocks_run (pdev : platform_device) (n : nat) : forall i p p',
  get_clocks pdev i n p = (None, p') ->
  same_but_root_clk p p'
  /\ (root_clk_idx (conf p') = root_clk_idx (conf p)
      \/ (i <= root_clk_idx (conf p') < i + Z.of_nat n
          /\ of_clock_names (of_node pdev) (root_clk_idx (conf p'))
             = "core_root_clk"%string
          /\ devm_clk_get pdev "core_root_clk"%string = None)).
Proof.
  induction n as [|n IH]; intros i p p' E; cbn [get_clocks] in E.
  - injection E as <-. split; [|now left].
    unfold same_but_root_clk. repeat split. now destruct (conf p).
  - destruct (devm_clk_get pdev (of_clock_names (of_node pdev) i)) eqn:Hget;
      [discriminate|].
    destruct (String.eqb (of_clock_names (of_node pdev) i) "core_root_clk")
      eqn:Hname.
    + apply String.eqb_eq in Hname.
      apply IH in E. destruct E as [[Hc [Hn Hd]] Hidx].
      cbn [conf on_conf clock_count init_data] in *.
      split; [now repeat split|]. right.
      destruct Hidx as [Hidx|[Hr [Hnm Hg]]].
      * rewrite Hidx. cbn. repeat split; try lia; try assumption.
        now rewrite <- Hname.
      * repeat split; try lia; assumption.
    + apply IH in E. destruct E as [Hs Hidx]. split; [exact Hs|].
      destruct Hidx as [Hidx|[Hr [Hnm Hg]]]; [now left|right].
      repeat split; try lia; assumption.
Qed.

Lemma get_resets_run (pdev : platform_device) (n : nat) : forall i p p',
  get_resets pdev i n p = (None, p') -> p' = p.
Proof.
  induction n as [|n IH]; intros i p p' E; cbn [get_resets] in E.
  - now injection E.
  - destruct (devm_reset_control_get pdev (of_reset_names (of_node pdev) i));
      [discriminate|]. now apply IH in E.
Qed.

Lemma get_clocks_error (pdev : platform_device) (n : nat) :
  forall i p ret p',
  get_clocks pdev i n p = (Some ret, p') ->
  exists name, devm_clk_get pdev name = Some ret.
Proof.
  induction n as [|n IH]; intros i p ret p' E; cbn [get_clocks] in E.
  - discriminate.
  - destruct (devm_clk_get pdev (of_clock_names (of_node pdev) i)) eqn:Hget.
    + injection E as <- _. eauto.
    + now apply IH in E.
Qed.

Lemma get_resets_error (pdev : platform_device) (n : nat) :
  forall i p ret p',
  get_resets pdev i n p = (Some ret, p') ->
  conf p' = conf p /\ clock_count p' = clock_count p.
Proof.
  induction n as [|n IH]; intros i p ret p' E; cbn [get_resets] in E.
  - discriminate.
  - destruct (devm_reset_control_get pdev (of_reset_names (of_node pdev) i)).
    + injection E as _ <-.
      match goal with
      | |- context [if ?b then _ else _] => destruct b
      end; cbn; auto.
    + now apply IH in E.
Qed.

Lemma get_regmap_holds (pdev : platform_device) (p : probing) :
  holds (resources_early p) (resources_done pdev p) (get_regmap pdev p).
Proof.
  unfold get_regmap, holds, resources_early.
  repeat match goal with
         | |- context [if ?b then _ else _] => destruct b
         end; cbn; auto; discriminate.
Qed.

Lemma get_clock_handles_holds (pdev : platform_device) (p p1 : probing) :
  (forall name, devm_clk_get pdev name <> Some 0) ->
  resources_early p p1 ->
  holds (resources_done pdev p) (resources_done pdev p)
        (get_clock_handles pdev p1).
Proof.
  intros Hclk [Hc Hn]. unfold get_clock_handles.
  destruct (nonzero (clock_count p1)
            && negb (devm_kcalloc pdev (clock_count p1)));
    [cbn; discriminate|]. cbv zeta.
  destruct (get_clocks pdev 0 (Z.to_nat (clock_count _)) _)
    as [[ret|] p2] eqn:E.
  - cbn. intros ->. apply get_clocks_error in E.
    destruct E as [name E]. now elim (Hclk name).
  - apply get_clocks_run in E. destruct E as [[Hc2 [Hn2 Hd2]] Hidx].
    cbn [conf on_conf clock_count init_data] in *.
    assert (Hsame : conf p2
                    = with_root_clk_idx (root_clk_idx (conf p2)) (conf p)
                    /\ clock_count p2 = clock_count p).
    { rewrite Hc2 at 1. rewrite Hn2, Hc, Hn. now split. }
    assert (Hre : root_en (conf p2) = root_en (conf p)
                  /\ force_root_en (conf p2) = force_root_en (conf p)).
    { destruct Hsame as [-> _]. now split. }
    destruct Hre as [Hre Hfe]. rewrite Hre, Hfe.
    unfold resources_done.
    destruct (root_en (conf p) || force_root_en (conf p)) eqn:Hroot;
      cbn [andb].
    + destruct (Z.eqb_spec (root_clk_idx (conf p2)) (-1)) as [Hm|Hm];
        [cbn; discriminate|].
      cbn. split; [apply Hsame|]. split; [apply Hsame|]. intros _.
      destruct Hidx as [Hidx|[Hr [Hnm Hg]]]; [cbn in Hidx; lia|].
      unfold root_clk_found. rewrite Hn2, Hn in *.
      repeat split; try lia; assumption.
    + cbn. split; [apply Hsame|]. split; [apply Hsame|discriminate].
Qed.

Lemma get_reset_handles_holds (pdev : platform_device) (p p1 : probing) :
  resources_done pdev p p1 ->
  holds (resources_done pdev p) (resources_done pdev p)
        (get_reset_handles pdev p1).
Proof.
  intros HR. unfold get_reset_handles.
  destruct (negb (toggle_logic (conf p1))); [|exact HR].
  destruct (nonzero (reset_count (conf p1))
            && negb (devm_kcalloc pdev (reset_count (conf p1))));
    [cbn; discriminate|].
  destruct (get_resets pdev 0 (Z.to_nat (reset_count (conf p1))) p1)
    as [[ret|] p2] eqn:E.
  - cbn. intros _. apply get_resets_error in E. destruct E as [Ec En].
    unfold resources_done, root_clk_found in *.
    rewrite Ec, En. tauto.
  - apply get_resets_run in E. subst p2. exact HR.
Qed.

(** X19. [gdsc_get_resources], given that no error pointer of
    [devm_clk_get] carries the error 0.  When it returns 0 it has changed
    nothing of the configuration but the root clock index, and for a
    domain that uses the root clock ([root_en] or [force_root_en]) that
    index lies within the clocks of the device and names a clock called
    "core_root_clk" which [devm_clk_get] has handed out. *)
Theorem resources_root_clk (pdev : platform_device) (p : probing) :
  (forall name, devm_clk_get pdev name <> Some 0) ->
  fst (gdsc_get_resources pdev p) = 0 ->
  conf (snd (gdsc_get_resources pdev p))
  = with_root_clk_idx
      (root_clk_idx (conf (snd (gdsc_get_resources pdev p)))) (conf p)
  /\ clock_count (snd (gdsc_get_resources pdev p)) = clock_count p
  /\ (root_en (conf p) || force_root_en (conf p) = true ->
      root_clk_found pdev (snd (gdsc_get_resources pdev p))).
Proof.
  intros Hclk. unfold gdsc_get_resources.
  apply (holds_finish (resources_done pdev p) (resources_done pdev p));
    [|auto].
  apply holds_and_then with (P := resources_done pdev p);
    [|intros p1; apply get_reset_handles_holds].
  apply holds_and_then with (P := resources_early p);
    [|intros p1; now apply get_clock_handles_holds].
  apply get_regmap_holds.
Qed.

(** * The probe as a whole *)

Section WholeProbe.

Variable hw : list event -> regmap -> Z.

(** X20. A probe that fails before it gets to the hardware.  When the
    allocation of the structure fails, [gdsc_probe] returns -ENOMEM and
    does nothing.  When [gdsc_parse_dt_data] or [gdsc_get_resources]
    returns an error, [gdsc_probe] returns that error having done nothing
    but log their messages: no register is read or written. *)
Theorem probe_fails_early (pdev : platform_device) (max_reg : Z) (w : world) :
  (devm_kzalloc pdev = false ->
   result (gdsc_probe hw pdev max_reg) w = - ENOMEM
   /\ issued (gdsc_probe hw pdev max_reg) w = [])
  /\ (devm_kzalloc pdev = true ->
      fst (parsed pdev max_reg) <> 0 ->
      result (gdsc_probe hw pdev max_reg) w = fst (parsed pdev max_reg)
      /\ issued (gdsc_probe hw pdev max_reg) w
         = map EvLog (messages (snd (parsed pdev max_reg))))
  /\ (devm_kzalloc pdev = true ->
      fst (parsed pdev max_reg) = 0 ->
      fst (resourced pdev max_reg) <> 0 ->
      result (gdsc_probe hw pdev max_reg) w = fst (resourced pdev max_reg)
      /\ issued (gdsc_probe hw pdev max_reg) w
         = map EvLog (messages (snd (parsed pdev max_reg)))
           ++ map EvLog (messages (snd (resourced pdev max_reg)))).
Proof.
  destruct w as [s sup tr k].
  enter (gdsc_probe hw pdev max_reg). unfold gdsc_probe. prims. run.
  destruct (devm_kzalloc pdev); run.
  2: { leave_call. trace_norm. repeat split; discriminate. }
  logged.
  destruct (Z.eqb_spec (fst (parsed pdev max_reg)) 0) as [Hp|Hp].
  - unfold nonzero at 1. rewrite Hp. cbn [Z.eqb negb]. run. logged.
    destruct (Z.eqb_spec (fst (resourced pdev max_reg)) 0) as [Hr|Hr].
    + intros _. repeat split; try discriminate; contradiction.
    + unfold nonzero at 1.
      replace (fst (resourced pdev max_reg) =? 0) with false by lia.
      cbn [negb]. run. leave_call. trace_norm.
      repeat split; try discriminate; try contradiction.
  - unfold nonzero at 1.
    replace (fst (parsed pdev max_reg) =? 0) with false by lia.
    cbn [negb]. run. leave_call. trace_norm.
    repeat split; try discriminate; try contradiction.
Qed.

(** A probe that returns 0 has parsed the device tree and got its
    resources. *)
Lemma probe_ok (pdev : platform_device) (max_reg : Z) (w : world) :
  result (gdsc_probe hw pdev max_reg) w = 0 ->
  fst (parsed pdev max_reg) = 0 /\ fst (resourced pdev max_reg) = 0.
Proof.
  destruct w as [s sup tr k].
  enter (gdsc_probe hw pdev max_reg). unfold gdsc_probe. prims. run.
  destruct (devm_kzalloc pdev); run; [|leave_call; discriminate].
  logged.
  destruct (nonzero (fst (parsed pdev max_reg))) eqn:Hp; run;
    [ leave_call; intros E; apply nonzero_true in Hp; congruence | ].
  logged.
  destruct (nonzero (fst (resourced pdev max_reg))) eqn:Hr; run;
    [ leave_call; intros E; apply nonzero_true in Hr; congruence | ].
  intros _ _. unfold nonzero in *.
  destruct (Z.eqb_spec (fst (parsed pdev max_reg)) 0);
    destruct (Z.eqb_spec (fst (resourced pdev max_reg)) 0);
    try discriminate. now split.
Qed.

(** X21. The configuration a successful probe leaves, given that no error
    pointer of [devm_clk_get] carries the error 0.  The reset count is not
    negative; a register-toggled domain has no reset lines, and its vote
    bit, if it votes, is one of the bits 0..31; for a domain that uses the
    root clock the root clock index lies within the clocks of the device
    and names a clock called "core_root_clk" which [devm_clk_get] has
    handed out. *)
Theorem probe_configuration (pdev : platform_device) (max_reg : Z)
    (w : world) :
  (forall name, devm_clk_get pdev name <> Some 0) ->
  result (gdsc_probe hw pdev max_reg) w = 0 ->
  0 <= reset_count (probed_gdsc pdev max_reg)
  /\ (toggle_logic (probed_gdsc pdev max_reg) = true ->
      reset_count (probed_gdsc pdev max_reg) = 0
      /\ (cv_regmap (collapse_vote (probed_gdsc pdev max_reg)) = true ->
          0 <= vote_bit (collapse_vote (probed_gdsc pdev max_reg)) <= 31))
  /\ (root_en (probed_gdsc pdev max_reg)
      || force_root_en (probed_gdsc pdev max_reg) = true ->
      root_clk_found pdev (snd (resourced pdev max_reg))).
Proof.
  intros Hclk Hres.
  destruct (probe_ok pdev max_reg w Hres) as [Hp0 Hr0].
  apply parse_final in Hp0. fold (parsed pdev max_reg) in Hp0.
  set (p0 := with_messages_cleared (snd (parsed pdev max_reg))).
  assert (Hdone : resources_done pdev p0 (snd (resourced pdev max_reg))).
  { revert Hr0. unfold resourced, gdsc_get_resources. fold p0.
    apply (holds_finish (resources_done pdev p0) (resources_done pdev p0));
      [|auto].
    apply holds_and_then with (P := resources_done pdev p0);
      [|intros p1; apply get_reset_handles_holds].
    apply holds_and_then with (P := resources_early p0);
      [|intros p1; now apply get_clock_handles_holds].
    apply get_regmap_holds. }
  clear Hr0. rename Hdone into Hr0.
  destruct Hr0 as [Hc [Hn Hroot]].
  destruct Hp0 as [_ [Hrc [Ht Hv]]].
  unfold probed_gdsc. rewrite Hc in *. cbn in *.
  split; [exact Hrc|]. split.
  - intros Htl. split; [now apply Ht|]. intros Hcv.
    destruct (Hv Hcv) as [Hin|[_ [Hf _]]]; [exact Hin | congruence].
  - exact Hroot.
Qed.

End WholeProbe.

(** * The further properties, run *)

Lemma set_mode_failure_witness :
  result (gdsc_set_mode dead_hw plain_gdsc REGULATOR_MODE_NORMAL)
         enabled_world = - ETIMEDOUT
  /\ st (after (gdsc_set_mode dead_hw plain_gdsc REGULATOR_MODE_NORMAL)
               enabled_world) = st enabled_world.
Proof.
  destruct (set_mode_failure dead_hw plain_gdsc REGULATOR_MODE_NORMAL
              enabled_world) as [Hs [[He _]|[Ht _]]].
  - reflexivity.
  - vm_compute. discriminate.
  - vm_compute in He. discriminate.
  - split; [exact Ht | exact Hs].
Defined.

Lemma enable_success_confirmed_witness :
  exists pre v post,
    issued (gdsc_enable prompt_hw plain_gdsc) (boot_world None)
    = pre ++ [EvRead Gdscr v] ++ post
    /\ Exists (releases_collapse plain_gdsc) pre
    /\ Z.testbit v 31 = true.
Proof.
  destruct (enable_success_confirmed prompt_hw plain_gdsc (boot_world None))
    as [pre [v [post [Hi [He [Hv _]]]]]].
  - reflexivity.
  - reflexivity.
  - reflexivity.
  - exists pre, v, post. auto.
Defined.

Lemma disable_success_confirmed_witness :
  exists pre v post,
    issued (gdsc_disable prompt_hw plain_gdsc) (boot_world None)
    = pre ++ [EvRead Gdscr v] ++ post
    /\ Exists (requests_collapse plain_gdsc) pre
    /\ Z.testbit v 31 = false.
Proof.
  destruct (disable_success_confirmed prompt_hw plain_gdsc (boot_world None))
    as [pre [v [post [Hi [He [Hv _]]]]]].
  - reflexivity.
  - reflexivity.
  - reflexivity.
  - exists pre, v, post. auto.
Defined.

Lemma root_clk_paired_witness :
  length (filter is_clk_enable
            (issued (gdsc_enable prompt_hw force_gdsc) (boot_world None)
             ++ issued (gdsc_disable prompt_hw force_gdsc)
                       (after (gdsc_enable prompt_hw force_gdsc)
                              (boot_world None))))
  = length (filter is_clk_disable
              (issued (gdsc_enable prompt_hw force_gdsc) (boot_world None)
               ++ issued (gdsc_disable prompt_hw force_gdsc)
                         (after (gdsc_enable prompt_hw force_gdsc)
                                (boot_world None)))).
Proof.
  destruct (root_clk_paired prompt_hw force_gdsc (boot_world None))
    as [H _].
  - left. reflexivity.
  - reflexivity.
  - reflexivity.
  - exact H.
Defined.

Lemma disable_unchecked_witness :
  result (gdsc_disable stuck_on_hw unchecked_gdsc) (boot_world None) = 0
  /\ polls (after (gdsc_disable stuck_on_hw unchecked_gdsc) (boot_world None))
     = O.
Proof.
  destruct (disable_unchecked stuck_on_hw unchecked_gdsc (boot_world None))
    as [Hr [Hp _]].
  - reflexivity.
  - reflexivity.
  - reflexivity.
  - split; [exact Hr | exact Hp].
Defined.

Lemma no_budget_no_enable_witness :
  result (gdsc_enable stuck_on_hw no_budget_gdsc) (boot_world None) <> 0.
Proof.
  destruct (no_budget_no_enable stuck_on_hw no_budget_gdsc (boot_world None))
    as [_ H].
  - left. reflexivity.
  - apply H; reflexivity.
Defined.

Lemma init_then_is_enabled_witness :
  result (gdsc_is_enabled plain_gdsc)
         (after (gdsc_init_is_enabled collapsed_on_hw plain_gdsc)
                (boot_world None)) = 0.
Proof.
  destruct (init_then_is_enabled collapsed_on_hw plain_gdsc (boot_world None))
    as [_ [H _]].
  - reflexivity.
  - cbn. lia.
  - destruct (H eq_refl) as [Hq _]. exact Hq.
Defined.

Lemma mode_decides_busy_witness :
  result (gdsc_enable stuck_on_hw plain_gdsc)
         (after (gdsc_set_mode stuck_on_hw plain_gdsc REGULATOR_MODE_FAST)
                (boot_world None)) = - EBUSY.
Proof.
  destruct (mode_decides_busy (fun _ => true) all_zero plain_gdsc
              REGULATOR_MODE_FAST (boot_world None)) as [H _].
  - reflexivity.
  - reflexivity.
  - apply H. reflexivity.
Defined.

Lemma probe_forces_on_witness :
  result (gdsc_is_enabled (probed_gdsc reset_pdev 8))
         (after (gdsc_probe stuck_on_hw reset_pdev 8) (boot_world None)) = 1.
Proof.
  destruct (probe_forces_on stuck_on_hw reset_pdev 8 (boot_world None))
    as [H _].
  - reflexivity.
  - reflexivity.
  - exact H.
Defined.

Lemma parse_counts_witness :
  0 <= clock_count (snd (gdsc_parse_dt_data (of_node root_clk_pdev)
                                            (fresh_probing 8)))
  /\ 0 <= reset_count
            (conf (snd (gdsc_parse_dt_data (of_node root_clk_pdev)
                                           (fresh_probing 8)))).
Proof.
  destruct (parse_counts (of_node root_clk_pdev) 8) as [Hc [Hr _]].
  - reflexivity.
  - split; [exact Hc | exact Hr].
Defined.

Lemma parse_vote_bit_above_31_witness :
  of_skip_logic_collapse vote40_node = false
  /\ fst (gdsc_parse_dt_data vote40_node (fresh_probing 8)) = 0
  /\ toggle_logic (conf (snd (gdsc_parse_dt_data vote40_node
                                                 (fresh_probing 8))))
     = false.
Proof.
  destruct (parse_vote_bit_above_31 vote40_node 8) as [Ht _].
  - reflexivity.
  - reflexivity.
  - vm_compute. reflexivity.
  - split; [reflexivity | split; [reflexivity | exact Ht]].
Defined.

Lemma resources_root_clk_witness :
  root_clk_found root_clk_pdev
    (snd (gdsc_get_resources root_clk_pdev
            (snd (parsed root_clk_pdev 8)))).
Proof.
  destruct (resources_root_clk root_clk_pdev (snd (parsed root_clk_pdev 8)))
    as [_ [_ H]].
  - intros name. cbn. discriminate.
  - reflexivity.
  - apply H. reflexivity.
Defined.

Lemma probe_configuration_witness :
  root_clk_found root_clk_pdev (snd (resourced root_clk_pdev 8)).
Proof.
  destruct (probe_configuration stuck_on_hw root_clk_pdev 8 (boot_world None))
    as [_ [_ H]].
  - intros name. cbn. discriminate.
  - reflexivity.
  - apply H. reflexivity.
Defined.

Lemma prompt_hardware_witness :
  result (gdsc_enable prompt_hw plain_gdsc) (boot_world None) = 0
  /\ result (gdsc_disable prompt_hw plain_gdsc) (boot_world None) = 0.
Proof.
  destruct (prompt_hardware all_zero plain_gdsc (boot_world None))
    as [He Hd].
  - reflexivity.
  - reflexivity.
  - apply Nat.leb_le. reflexivity.
  - destruct (He eq_refl eq_refl) as [H1 _].
    destruct (Hd eq_refl eq_refl) as [H2 _].
    split; [exact H1 | exact H2].
Defined.
